(** * Multi-effect evaporator design calculator ([evaporator_app.py])

    A shallow embedding of the calculation engine [evaporator_calc] and of
    the three lookup functions it uses, followed by the properties of the
    engine.

    Numbers.  Python floats are read as real numbers ([R]): rounding error,
    underflow, overflow, infinities and NaN are outside the model.  The
    effect count is a Python [int] and is modelled as [Z].

    Effects.  Everything that can raise in the Python code (a negative sample
    count given to [np.linspace], an index out of range, arithmetic on a
    [None] slot, a float division by zero) is written in the error monad
    [result], so that "the call returns" is a statement that has to be
    proved.

    Layout.  The embedding comes first, then the vocabulary the statements
    use, then the lemmas on each block of the function, then the
    properties of the engine, numbered C1 to C10, and last further
    properties of the lookup functions, of the engine and of the button
    handler of the page, numbered X1 to X19. *)

From Stdlib Require Import String DecimalString.
From Stdlib Require Import Reals Lra Lia ZArith Bool QArith Qreals List.
Import ListNotations.
Local Open Scope R_scope.

(* ================================================================== *)
(** * The fragment of the Python runtime the program uses *)
(* ================================================================== *)

Module Py.

Inductive exn : Type :=
| ValueError
| TypeError
| IndexError
| ZeroDivisionError.

Inductive result (A : Type) : Type :=
| Ok (a : A)
| Raise (e : exn).
Arguments Ok {A} a.
Arguments Raise {A} e.

Definition bind {A B} (m : result A) (k : A -> result B) : result B :=
  match m with
  | Ok a => k a
  | Raise e => Raise e
  end.

(** [for x in l: s = body(s, x)] *)
Fixpoint foldM {S A} (body : S -> A -> result S) (l : list A) (s : S)
  : result S :=
  match l with
  | [] => Ok s
  | x :: l' => bind (body s x) (foldM body l')
  end.

(** [[f(x) for x in l]] *)
Fixpoint mapM {A B} (f : A -> result B) (l : list A) : result (list B) :=
  match l with
  | [] => Ok []
  | x :: l' =>
      bind (f x) (fun y => bind (mapM f l') (fun ys => Ok (y :: ys)))
  end.

(** [range(n)] and [range(a, a+n)]; a non-positive length gives no index. *)
Definition range (n : Z) : list nat := seq 0 (Z.to_nat n).

Definition range_from (a : nat) (stop : Z) : list nat :=
  seq a (Z.to_nat stop - a).

(** [range(n-1, -1, -1)] *)
Definition range_down (n : Z) : list nat := rev (range n).

(** [l[i]] for [i >= 0]. *)
Definition index {A} (l : list A) (i : nat) : result A :=
  match nth_error l i with
  | Some x => Ok x
  | None => Raise IndexError
  end.

(** [l[-1]] *)
Definition last_item {A} (l : list A) : result A :=
  match rev l with
  | x :: _ => Ok x
  | [] => Raise IndexError
  end.

(** [[None] * n] *)
Definition none_list (n : Z) : list (option R) := repeat None (Z.to_nat n).

(** [l[i] = v] on a list: in range it overwrites, out of range it raises. *)
Fixpoint set_item {A} (l : list A) (i : nat) (v : A) : result (list A) :=
  match l, i with
  | [], _ => Raise IndexError
  | _ :: l', O => Ok (v :: l')
  | x :: l', S i' => bind (set_item l' i' v) (fun r => Ok (x :: r))
  end.

(** Reading [l[i]] where a number is needed: a [None] slot makes the
    arithmetic (or [round]) that follows raise [TypeError]. *)
Definition get_num (l : list (option R)) (i : nat) : result R :=
  match nth_error l i with
  | Some (Some x) => Ok x
  | Some None => Raise TypeError
  | None => Raise IndexError
  end.

(** Division of two Python floats. *)
Definition fdiv (a b : R) : result R :=
  if Req_dec_T b 0 then Raise ZeroDivisionError else Ok (a / b).

(** [int(x)]: truncation towards zero. *)
Definition int (x : R) : Z :=
  if Rle_dec 0 x then Int_part x else (- Int_part (- x))%Z.

(** Nearest integer, ties to even. *)
Definition rint (y : R) : Z :=
  let f := Int_part y in
  let r := y - IZR f in
  if Rlt_dec r (1/2) then f
  else if Rlt_dec (1/2) r then (f + 1)%Z
  else if Z.even f then f else (f + 1)%Z.

(** [round(x, nd)] *)
Definition round (x : R) (nd : nat) : R :=
  IZR (rint (x * 10 ^ nd)) / 10 ^ nd.

(** [max(a, b)] of two floats: [b] only when [b > a]. *)
Definition max (a b : R) : R := if Rlt_dec a b then b else a.

(** [str(k)] of a non-negative [int]. *)
Definition str (k : nat) : string := NilZero.string_of_uint (Nat.to_uint k).

(** [np.linspace(start, stop, num)]: [num] evenly spaced samples, the last
    one set to [stop] itself; a negative [num] raises [ValueError]. *)
Definition linspace (start stop : R) (num : Z) : result (list R) :=
  if (num <? 0)%Z then Raise ValueError
  else
    let n := Z.to_nat num in
    let div := (n - 1)%nat in
    let delta := stop - start in
    let y :=
      if (0 <? div)%nat
      then map (fun i => INR i * (delta / INR div) + start) (seq 0 n)
      else map (fun i => INR i * delta + start) (seq 0 n) in
    Ok (if (1 <? n)%nat then removelast y ++ [stop] else y).

(** [np.interp(x, xp, fp)] for increasing [xp]: clamped at both ends,
    linear on the segment [xp[j] <= x < xp[j+1]]. *)
Fixpoint interp_from (x x0 y0 : R) (pts : list (R * R)) : R :=
  match pts with
  | [] => y0
  | (x1, y1) :: rest =>
      if Rlt_dec x x1
      then (y1 - y0) / (x1 - x0) * (x - x0) + y0
      else interp_from x x1 y1 rest
  end.

Definition interp_pts (x : R) (pts : list (R * R)) : R :=
  match pts with
  | [] => 0
  | (x0, y0) :: rest =>
      if Rlt_dec x x0 then y0 else interp_from x x0 y0 rest
  end.

Definition interp (x : R) (xp fp : list R) : R :=
  interp_pts x (combine xp fp).

End Py.

Import Py.

Notation "x <- m ;; k" := (bind m (fun x => k))
  (at level 61, m at next level, right associativity).
Notation "' pat <- m ;; k" := (bind m (fun x => match x with pat => k end))
  (at level 61, pat pattern, m at next level, right associativity).

(* ================================================================== *)
(** * BPE and water boiling-point lookup functions *)
(* ================================================================== *)

(** Antoine equation: absolute pressure [kPa] at boiling point [temp_c]. *)
Definition water_bp_kpa (temp_c : R) : R :=
  let A := 8.07131 in
  let B := 1730.63 in
  let C := 233.426 in
  let p_mmHg := Rpower 10 (A - B / (temp_c + C)) in
  let p_kPa := p_mmHg * 0.133322 in
  p_kPa.

Definition bp_table : list (R * R) :=
  [ (0.6, 0); (1.2, 10); (2.3, 20); (4.2, 30); (7.4, 40);
    (12.3, 50); (19.9, 60); (31.8, 70); (47.4, 80); (67.0, 90);
    (101.3, 100); (200, 120); (300, 134); (400, 144); (500, 151) ].

Definition water_bp_temp (pressure_kpa : R) : R :=
  let ps := map fst bp_table in
  let ts := map snd bp_table in
  interp pressure_kpa ps ts.

Definition bpe_nacl (conc_pct : R) : R :=
  if Rle_dec conc_pct 0 then 0
  else interp conc_pct [0; 1; 5; 10; 15] [0; 0.3; 1.5; 4; 7].

(* ================================================================== *)
(** * Calculation logic: the blocks of [evaporator_calc] *)
(* ================================================================== *)

(** [bpes = [bpe_nacl(max(0.01, dm_concs[i] - feed_tss_pct))
             for i in range(1, n_effects+1)]] *)
Definition compute_bpes (n_effects : Z) (dm_concs : list R) (feed_tss_pct : R)
  : result (list R) :=
  mapM (fun i =>
          c <- index dm_concs i ;;
          Ok (bpe_nacl (Py.max 0.01 (c - feed_tss_pct))))
       (range_from 1 (n_effects + 1)).

(** One pass of the backward loop over the effects. *)
Definition cascade_body (n_effects : Z) (steam_temp_c : R) (bpes : list R)
    (s : list (option R) * list (option R)) (i : nat)
  : result (list (option R) * list (option R)) :=
  let '(eff_press_kpa, bp_temp_c) := s in
  if (Z.of_nat i =? n_effects - 1)%Z then
    eff_press_kpa <- set_item eff_press_kpa i (Some 25) ;;
    b <- index bpes i ;;
    bp_temp_c <- set_item bp_temp_c i (Some (water_bp_temp 25 + b)) ;;
    Ok (eff_press_kpa, bp_temp_c)
  else
    b_last <- last_item bpes ;;
    let dt := (steam_temp_c - (water_bp_temp 25 + b_last)) / IZR n_effects in
    nxt <- get_num bp_temp_c (i + 1) ;;
    bp_temp_c <- set_item bp_temp_c i (Some (nxt + dt)) ;;
    cur <- get_num bp_temp_c i ;;
    b <- index bpes i ;;
    eff_press_kpa <- set_item eff_press_kpa i (Some (water_bp_kpa (cur - b))) ;;
    Ok (eff_press_kpa, bp_temp_c).

(** [eff_press_kpa], [bp_temp_c] after the loop
    [for i in range(n_effects-1, -1, -1)]. *)
Definition cascade (n_effects : Z) (steam_temp_c : R) (bpes : list R)
  : result (list (option R) * list (option R)) :=
  foldM (cascade_body n_effects steam_temp_c bpes)
        (range_down n_effects)
        (none_list n_effects, none_list n_effects).

Definition lmtd_body (steam_temp_c : R) (bp_temp_c : list (option R))
    (lmtds : list R) (i : nat) : result (list R) :=
  hot <- (if (i =? 0)%nat then Ok steam_temp_c
          else get_num bp_temp_c (i - 1)) ;;
  cold <- get_num bp_temp_c i ;;
  let dT1 := hot - cold in
  let dT1 := if Rle_dec dT1 0.1 then 0.1 else dT1 in
  Ok (lmtds ++ [round dT1 1]).

Definition compute_lmtds (n_effects : Z) (steam_temp_c : R)
    (bp_temp_c : list (option R)) : result (list R) :=
  foldM (lmtd_body steam_temp_c bp_temp_c) (range n_effects) [].

(** The two error messages of the mass balance. *)
Definition msg_dm_nonpos (k : nat) : string :=
  ("Error: Dry matter in effect " ++ str k ++ " is zero or negative.")%string.

Definition msg_dm_zero (k : nat) : string :=
  ("Error: Zero dry matter in effect " ++ str k ++ ".")%string.

(** The variables the mass-balance loop updates. *)
Record mb_state : Type := MbState {
  stage_conc_flow : list R;
  stage_conc_m3h : list R;
  stage_dm : list R;
  stage_vap_kgph : list R;
  stage_vap_m3h : list R;
  error_flag : bool;
  error_msg : string
}.

Definition mb_init (feed_flow_kgph feed_dm_kgph : R) : mb_state :=
  {| stage_conc_flow := [feed_flow_kgph];
     stage_conc_m3h := [feed_flow_kgph / 1000];
     stage_dm := [feed_dm_kgph];
     stage_vap_kgph := [];
     stage_vap_m3h := [];
     error_flag := false;
     error_msg := "" |}.

Definition mb_body (dm_concs : list R) (s : mb_state) (i : nat)
  : result mb_state :=
  prev_conc_kgph <- last_item (stage_conc_flow s) ;;
  prev_dm_kgph <- last_item (stage_dm s) ;;
  c <- index dm_concs (i + 1) ;;
  let this_dm_pct := c / 100 in
  let '(flag, msg, next_conc_kgph, vap_kgph) :=
    if Rle_dec this_dm_pct 0 then
      (true, msg_dm_nonpos (i + 1), 0, 0)
    else if Req_dec_T prev_dm_kgph 0 then
      (true, msg_dm_zero (i + 1), 0, 0)
    else
      let next_conc_kgph := prev_dm_kgph / this_dm_pct in
      (error_flag s, error_msg s, next_conc_kgph,
       prev_conc_kgph - next_conc_kgph) in
  Ok {| stage_conc_flow := stage_conc_flow s ++ [next_conc_kgph];
        stage_conc_m3h := stage_conc_m3h s ++ [next_conc_kgph / 1000];
        stage_dm := stage_dm s ++ [prev_dm_kgph];
        stage_vap_kgph := stage_vap_kgph s ++ [vap_kgph];
        stage_vap_m3h := stage_vap_m3h s ++ [vap_kgph / 1000];
        error_flag := flag;
        error_msg := msg |}.

(** Per stage mass balance with validation. *)
Definition mass_balance (n_effects : Z) (feed_flow_kgph feed_dm_kgph : R)
    (dm_concs : list R) : result mb_state :=
  foldM (mb_body dm_concs) (range n_effects)
        (mb_init feed_flow_kgph feed_dm_kgph).

Definition steam_econ_of (prod_dm_pct : R) : R :=
  if Rlt_dec prod_dm_pct 12 then 2.3
  else if Rlt_dec prod_dm_pct 18 then 2.1
  else 1.8.

(** One row of the per-effect table of the report. *)
Record effect_row : Type := EffectRow {
  Effect : nat;
  Abs_Pressure_kPa : R;
  Boiling_Pt_C : R;
  BPE_C : R;
  LMTD_C : R;
  Vapour_Flow_kgph : Z;
  Vapour_Flow_m3h : R;
  Concentrate_Flow_kgph : Z;
  Concentrate_Flow_m3h : R
}.

Definition results_body (eff_press_kpa bp_temp_c : list (option R))
    (bpes lmtds : list R) (mb : mb_state) (i : nat) : result effect_row :=
  p <- get_num eff_press_kpa i ;;
  t <- get_num bp_temp_c i ;;
  b <- index bpes i ;;
  l <- index lmtds i ;;
  v <- index (stage_vap_kgph mb) i ;;
  v3 <- index (stage_vap_m3h mb) i ;;
  c <- index (stage_conc_flow mb) (i + 1) ;;
  c3 <- index (stage_conc_m3h mb) (i + 1) ;;
  Ok {| Effect := i + 1;
        Abs_Pressure_kPa := round p 1;
        Boiling_Pt_C := round t 1;
        BPE_C := round b 2;
        LMTD_C := l;
        Vapour_Flow_kgph := int v;
        Vapour_Flow_m3h := round v3 2;
        Concentrate_Flow_kgph := int c;
        Concentrate_Flow_m3h := round c3 2 |}.

Definition build_results (n_effects : Z)
    (eff_press_kpa bp_temp_c : list (option R))
    (bpes lmtds : list R) (mb : mb_state) : result (list effect_row) :=
  mapM (results_body eff_press_kpa bp_temp_c bpes lmtds mb) (range n_effects).

(** The local variables of [evaporator_calc] when it reaches [return]. *)
Record locals : Type := Locals {
  steam_temp_c : R;
  feed_flow_kgph : R;
  feed_dm_kgph : R;
  feed_tds_kgph : R;
  prod_flow_kgph : R;
  evap_kgph : R;
  prod_flow_m3h : R;
  dm_concs : list R;
  bpes : list R;
  eff_press_kpa : list (option R);
  bp_temp_c : list (option R);
  lmtds : list R;
  mb : mb_state;
  steam_econ : R;
  steam_needed_kgph : R;
  total_thermal_kW : R;
  steam_power_kW : R;
  condenser_kW : R;
  results : list effect_row
}.

(** The report. *)
Record output : Type := Output {
  Feed_Flow_m3h : R;
  Feed_DM_pct : R;
  Feed_TSS_pct : R;
  Feed_TDS_pct : R;
  Product_Flow_m3h : R;
  Product_DM_pct : R;
  Water_Evaporated_kgph : Z;
  Steam_Needed_kgph : Z;
  Steam_Power_kW : Z;
  Steam_Economy : R;
  Effects : list effect_row;
  Total_Thermal_Load_kW : Z;
  Steam_Temp_C : R;
  Final_Stage_Condenser_Load_kW : Z;
  Error : string
}.

(** The body of [evaporator_calc] up to the construction of the report. *)
Definition evaporator_locals
    (n_effects : Z)
    (feed_flow_m3h feed_dm_pct feed_tss_pct feed_temp_c prod_dm_pct
       steam_press_barg : R) : result locals :=
  let steam_press_abs := steam_press_barg + 1 in
  let steam_press_kpa := steam_press_abs * 100 in
  let steam_temp_c := water_bp_temp steam_press_kpa in
  let feed_flow_kgph := feed_flow_m3h * 1000 in
  let feed_dm_kgph := feed_dm_pct / 100 * feed_flow_kgph in
  let feed_tss_kgph := feed_tss_pct / 100 * feed_flow_kgph in
  let feed_tds_kgph := feed_dm_kgph - feed_tss_kgph in
  prod_flow_kgph <- (if Rlt_dec 0 prod_dm_pct
                     then fdiv feed_dm_kgph (prod_dm_pct / 100)
                     else Ok 0) ;;
  let evap_kgph := feed_flow_kgph - prod_flow_kgph in
  let prod_flow_m3h := prod_flow_kgph / 1000 in
  dm_concs <- linspace feed_dm_pct prod_dm_pct (n_effects + 1) ;;
  bpes <- compute_bpes n_effects dm_concs feed_tss_pct ;;
  '(eff_press_kpa, bp_temp_c) <- cascade n_effects steam_temp_c bpes ;;
  lmtds <- compute_lmtds n_effects steam_temp_c bp_temp_c ;;
  mb <- mass_balance n_effects feed_flow_kgph feed_dm_kgph dm_concs ;;
  let steam_econ := steam_econ_of prod_dm_pct in
  steam_needed_kgph <- (if Rlt_dec 0 steam_econ
                        then fdiv evap_kgph steam_econ
                        else Ok 0) ;;
  let latent_heat := 2300 in
  let total_thermal_kW := evap_kgph * latent_heat / 3600 in
  let steam_power_kW := steam_needed_kgph * latent_heat / 3600 in
  let lv_condenser := 2350 in
  let condenser_kW := evap_kgph * lv_condenser / 3600 in
  results <- build_results n_effects eff_press_kpa bp_temp_c bpes lmtds mb ;;
  Ok {| steam_temp_c := steam_temp_c;
        feed_flow_kgph := feed_flow_kgph;
        feed_dm_kgph := feed_dm_kgph;
        feed_tds_kgph := feed_tds_kgph;
        prod_flow_kgph := prod_flow_kgph;
        evap_kgph := evap_kgph;
        prod_flow_m3h := prod_flow_m3h;
        dm_concs := dm_concs;
        bpes := bpes;
        eff_press_kpa := eff_press_kpa;
        bp_temp_c := bp_temp_c;
        lmtds := lmtds;
        mb := mb;
        steam_econ := steam_econ;
        steam_needed_kgph := steam_needed_kgph;
        total_thermal_kW := total_thermal_kW;
        steam_power_kW := steam_power_kW;
        condenser_kW := condenser_kW;
        results := results |}.

(** The dictionary [output] built from the locals. *)
Definition build_output (feed_flow_m3h feed_dm_pct feed_tss_pct prod_dm_pct : R)
    (l : locals) : result output :=
  tds <- (if Rlt_dec 0 (feed_flow_kgph l)
          then q <- fdiv (feed_tds_kgph l) (feed_flow_kgph l) ;;
               Ok (round (q * 100) 2)
          else Ok 0) ;;
  Ok {| Feed_Flow_m3h := feed_flow_m3h;
        Feed_DM_pct := feed_dm_pct;
        Feed_TSS_pct := feed_tss_pct;
        Feed_TDS_pct := tds;
        Product_Flow_m3h := round (prod_flow_m3h l) 2;
        Product_DM_pct := prod_dm_pct;
        Water_Evaporated_kgph := int (evap_kgph l);
        Steam_Needed_kgph := int (steam_needed_kgph l);
        Steam_Power_kW := int (steam_power_kW l);
        Steam_Economy := round (steam_econ l) 2;
        Effects := results l;
        Total_Thermal_Load_kW := int (total_thermal_kW l);
        Steam_Temp_C := round (steam_temp_c l) 1;
        Final_Stage_Condenser_Load_kW := int (condenser_kW l);
        Error := if error_flag (mb l) then error_msg (mb l) else "" |}.

Definition evaporator_calc
    (n_effects : Z)
    (feed_flow_m3h feed_dm_pct feed_tss_pct feed_temp_c prod_dm_pct
       steam_press_barg : R) : result output :=
  l <- evaporator_locals n_effects feed_flow_m3h feed_dm_pct feed_tss_pct
         feed_temp_c prod_dm_pct steam_press_barg ;;
  build_output feed_flow_m3h feed_dm_pct feed_tss_pct prod_dm_pct l.

(* ================================================================== *)
(** * Streamlit UI: the input widgets and the button handler *)
(* ================================================================== *)

(** The values the widgets can return: the slider gives an [int] between
    its two bounds, each [number_input] a float between its minimum and its
    maximum. *)
Definition widget_ranges (n_effects : Z)
    (feed_flow_m3h feed_dm_pct feed_tss_pct feed_temp_c prod_dm_pct
       steam_press_barg : R) : Prop :=
  (2 <= n_effects <= 4)%Z /\
  1.0 <= feed_flow_m3h <= 500.0 /\
  0.1 <= feed_dm_pct <= 15.0 /\
  0.0 <= feed_tss_pct <= 10.0 /\
  2.0 <= prod_dm_pct <= 50.0 /\
  0.0 <= feed_temp_c <= 99.0 /\
  0.5 <= steam_press_barg <= 10.0.

(** A value held under a key of the dictionary [output]. *)
Inductive value : Type :=
| VFloat (x : R)
| VInt (z : Z)
| VStr (s : string)
| VRows (rows : list effect_row).

(** [output.items()], in insertion order. *)
Definition output_items (o : output) : list (string * value) :=
  [ ("Feed Flow (m³/h)"%string, VFloat (Feed_Flow_m3h o));
    ("Feed DM (%)"%string, VFloat (Feed_DM_pct o));
    ("Feed TSS (%)"%string, VFloat (Feed_TSS_pct o));
    ("Feed TDS (%)"%string, VFloat (Feed_TDS_pct o));
    ("Product Flow (m³/h)"%string, VFloat (Product_Flow_m3h o));
    ("Product DM (%)"%string, VFloat (Product_DM_pct o));
    ("Water Evaporated (kg/h)"%string, VInt (Water_Evaporated_kgph o));
    ("Steam Needed (kg/h)"%string, VInt (Steam_Needed_kgph o));
    ("Steam Power (kW)"%string, VInt (Steam_Power_kW o));
    ("Steam Economy"%string, VFloat (Steam_Economy o));
    ("Effects"%string, VRows (Effects o));
    ("Total Thermal Load (kW)"%string, VInt (Total_Thermal_Load_kW o));
    ("Steam Temp (°C)"%string, VFloat (Steam_Temp_C o));
    ("Final Stage Condenser Load (kW)"%string,
       VInt (Final_Stage_Condenser_Load_kW o));
    ("Error"%string, VStr (Error o)) ].

(** A piece of an f-string: literal text, an interpolated value, or an
    interpolated exception. *)
Inductive piece : Type :=
| Lit (s : string)
| Val (v : value)
| Exc (e : exn).

(** The calls the handler makes on the page. *)
Inductive st_call : Type :=
| st_error (text : list piece)
| st_subheader (text : string)
| st_write (d : list (string * value))
| st_dataframe (rows : list effect_row)
| st_info (text : list piece).

(** Truth value of a [str]: false for the empty string only. *)
Definition truthy (s : string) : bool :=
  match s with
  | EmptyString => false
  | String _ _ => true
  end.

(** [k not in ['Effects', 'Error']] *)
Definition shown_key (k : string) : bool :=
  negb (String.eqb k "Effects" || String.eqb k "Error").

(** The [else] branch of the handler: what is shown for a report without
    error. *)
Definition report_view (o : output) : list st_call :=
  [ st_subheader "Mass & Energy Balance";
    st_write (filter (fun kv => shown_key (fst kv)) (output_items o));
    st_subheader "Effect-wise Summary";
    st_dataframe (Effects o);
    st_info [Lit "Steam temperature: "; Val (VFloat (Steam_Temp_C o));
             Lit "°C | Steam economy: "; Val (VFloat (Steam_Economy o))];
    st_info [Lit "Total thermal load: ";
             Val (VInt (Total_Thermal_Load_kW o));
             Lit " kW | Steam-side: "; Val (VInt (Steam_Power_kW o));
             Lit " kW"];
    st_info [Lit "Final condenser load (thermal, kW): ";
             Val (VInt (Final_Stage_Condenser_Load_kW o))] ].

(** The body of [if st.button("Calculate Evaporator Design"):]: the calls
    made on the page, in order. *)
Definition on_calculate (n_effects : Z)
    (feed_flow_m3h feed_dm_pct feed_tss_pct feed_temp_c prod_dm_pct
       steam_press_barg : R) : list st_call :=
  match evaporator_calc n_effects feed_flow_m3h feed_dm_pct feed_tss_pct
          feed_temp_c prod_dm_pct steam_press_barg with
  | Ok o =>
      if truthy (Error o) then [st_error [Lit (Error o)]]
      else report_view o
  | Raise e => [st_error [Lit "Calculation error: "; Exc e]]
  end.

(* ================================================================== *)
(** * Vocabulary of the specifications *)
(* ================================================================== *)

(** ** Stages of the mass balance *)

(** What one stage appends, as a function of the carried dry-matter mass
    [fd], the target [c] (in percent) and the incoming concentrate flow
    [pc]: the next concentrate flow and the vapour flow. *)
Definition stage_flows (fd c pc : R) : R * R :=
  if Rle_dec (c / 100) 0 then (0, 0)
  else if Req_dec_T fd 0 then (0, 0)
  else (fd / (c / 100), pc - fd / (c / 100)).

(** The message a stage writes, if it fails. *)
Definition stage_error (fd c : R) (k : nat) : option string :=
  if Rle_dec (c / 100) 0 then Some (msg_dm_nonpos k)
  else if Req_dec_T fd 0 then Some (msg_dm_zero k)
  else None.

Definition stage_fails (fd c : R) : Prop := c / 100 <= 0 \/ fd = 0.

(** The state after [k] passes of the loop, stated on the lists the loop
    has built. *)
Record mb_inv (ff fd : R) (tr : list R) (k : nat) (s : mb_state) : Prop := {
  inv_len_conc : length (stage_conc_flow s) = Datatypes.S k;
  inv_len_vap : length (stage_vap_kgph s) = k;
  inv_conc_m3h : stage_conc_m3h s = map (fun x => x / 1000) (stage_conc_flow s);
  inv_vap_m3h : stage_vap_m3h s = map (fun x => x / 1000) (stage_vap_kgph s);
  inv_dm : stage_dm s = repeat fd (Datatypes.S k);
  inv_conc0 : nth_error (stage_conc_flow s) 0 = Some ff;
  inv_stage : forall j c pc, (j < k)%nat ->
    nth_error tr (j + 1) = Some c ->
    nth_error (stage_conc_flow s) j = Some pc ->
    nth_error (stage_conc_flow s) (j + 1) = Some (fst (stage_flows fd c pc)) /\
    nth_error (stage_vap_kgph s) j = Some (snd (stage_flows fd c pc));
  inv_no_error :
    (forall j c, (j < k)%nat -> nth_error tr (j + 1) = Some c ->
                 ~ stage_fails fd c) ->
    error_flag s = false;
  inv_error : forall j c msg, (j < k)%nat ->
    nth_error tr (j + 1) = Some c ->
    stage_error fd c (j + 1) = Some msg ->
    (forall j' c', (j < j' < k)%nat -> nth_error tr (j' + 1) = Some c' ->
                   ~ stage_fails fd c') ->
    error_flag s = true /\ error_msg s = msg
}.

(** ** The cascade and the rows of the report *)

(** What the backward loop leaves at index [j]: the last effect sits at
    25 kPa, every other effect one step [dt] above its successor. *)
Definition cascade_at (n : nat) (steam : R) (bs : list R)
    (ep bp : list (option R)) (j : nat) : Prop :=
  exists b t p,
    nth_error bs j = Some b /\
    nth_error bp j = Some (Some t) /\
    nth_error ep j = Some (Some p) /\
    if (Datatypes.S j =? n)%nat then
      p = 25 /\ t = water_bp_temp 25 + b
    else
      exists t' b_last,
        nth_error bp (Datatypes.S j) = Some (Some t') /\
        nth_error bs (n - 1) = Some b_last /\
        t = t' + (steam - (water_bp_temp 25 + b_last)) / INR n /\
        p = water_bp_kpa (t - b).

Record cascade_inv (n : nat) (steam : R) (bs : list R) (k : nat)
    (s : list (option R) * list (option R)) : Prop := {
  cinv_len_ep : length (fst s) = n;
  cinv_len_bp : length (snd s) = n;
  cinv_at : forall j, (k <= j < n)%nat ->
            cascade_at n steam bs (fst s) (snd s) j
}.

Definition filled (l : list (option R)) (n : nat) : Prop :=
  forall j, (j < n)%nat -> exists x, nth_error l j = Some (Some x).

(** The row the report holds for effect [i+1]. *)
Definition row_of (i : nat) (p t b l v c : R) : effect_row :=
  {| Effect := i + 1;
     Abs_Pressure_kPa := round p 1;
     Boiling_Pt_C := round t 1;
     BPE_C := round b 2;
     LMTD_C := l;
     Vapour_Flow_kgph := int v;
     Vapour_Flow_m3h := round (v / 1000) 2;
     Concentrate_Flow_kgph := int c;
     Concentrate_Flow_m3h := round (c / 1000) 2 |}.

(** Product mass flow as line 41 computes it. *)
Definition prod_flow_of (feed_dm_kgph prod_dm_pct : R) : R :=
  if Rlt_dec 0 prod_dm_pct then feed_dm_kgph / (prod_dm_pct / 100) else 0.

(** One run of [evaporator_calc] on a non-negative effect count: every
    block returns, and the report is assembled from what they return. *)
Record run (n : nat) (ffm fdm tss pdm sp : R) (l : locals) (out : output)
  : Prop := {
  run_traj : linspace fdm pdm (Z.of_nat n + 1) = Ok (dm_concs l);
  run_bpes : compute_bpes (Z.of_nat n) (dm_concs l) tss = Ok (bpes l);
  run_cascade : cascade (Z.of_nat n) (steam_temp_c l) (bpes l)
                = Ok (eff_press_kpa l, bp_temp_c l);
  run_mb : mass_balance (Z.of_nat n) (feed_flow_kgph l) (feed_dm_kgph l)
             (dm_concs l) = Ok (mb l);
  run_inv : mb_inv (feed_flow_kgph l) (feed_dm_kgph l) (dm_concs l) n (mb l);
  run_steam : steam_temp_c l = water_bp_temp ((sp + 1) * 100);
  run_ff : feed_flow_kgph l = ffm * 1000;
  run_fd : feed_dm_kgph l = fdm / 100 * (ffm * 1000);
  run_prod : prod_flow_kgph l = prod_flow_of (feed_dm_kgph l) pdm;
  run_evap : evap_kgph l = feed_flow_kgph l - prod_flow_kgph l;
  run_len : length (results l) = n;
  run_rows : forall i, (i < n)%nat ->
    exists p t b lm v c,
      nth_error (eff_press_kpa l) i = Some (Some p) /\
      nth_error (bp_temp_c l) i = Some (Some t) /\
      nth_error (bpes l) i = Some b /\
      nth_error (stage_vap_kgph (mb l)) i = Some v /\
      nth_error (stage_conc_flow (mb l)) (i + 1) = Some c /\
      nth_error (results l) i = Some (row_of i p t b lm v c);
  run_effects : Effects out = results l;
  run_error : Error out
              = (if error_flag (mb l) then error_msg (mb l) else ""%string);
  run_water : Water_Evaporated_kgph out = int (evap_kgph l)
}.

(** The four flow fields of a row are all zero. *)
Definition zero_flows (row : effect_row) : Prop :=
  Vapour_Flow_kgph row = 0%Z /\ Vapour_Flow_m3h row = 0 /\
  Concentrate_Flow_kgph row = 0%Z /\ Concentrate_Flow_m3h row = 0.

(** ** Interpolation tables *)

(** The points after [(x0, y0)] ascend strictly in both coordinates. *)
Fixpoint ascending_from (x0 y0 : R) (pts : list (R * R)) : Prop :=
  match pts with
  | [] => True
  | (x1, y1) :: rest => x0 < x1 /\ y0 < y1 /\ ascending_from x1 y1 rest
  end.

Definition ascending (pts : list (R * R)) : Prop :=
  match pts with
  | [] => True
  | (x0, y0) :: rest => ascending_from x0 y0 rest
  end.

(** Abscissa of the last point. *)
Fixpoint last_x (x0 : R) (pts : list (R * R)) : R :=
  match pts with
  | [] => x0
  | (x1, _) :: rest => last_x x1 rest
  end.

(** ** Certified bounds on powers of ten *)

(** Fixed-point scale of the bounds: 12 decimal digits. *)
Definition pw_scale : Z := 10 ^ 12.

(** Integer bounds [(l, u)], over [pw_scale], of the [2^m]-th root of ten,
    by [m] integer square roots. *)
Fixpoint root_bounds (m : nat) : Z * Z :=
  match m with
  | O => (10 * pw_scale, 10 * pw_scale)%Z
  | Datatypes.S m' =>
      let '(l, u) := root_bounds m' in
      (Z.sqrt (l * pw_scale), Z.sqrt (u * pw_scale) + 1)%Z
  end.

(** One multiplication by the root, rounded outwards. *)
Definition pw_step (rl ru : Z) (lu : Z * Z) : Z * Z :=
  let '(l, u) := lu in
  (l * rl / pw_scale, u * ru / pw_scale + 1)%Z.

(** Integer bounds, over [pw_scale], of the [k]-th power of the root. *)
Fixpoint pw_bounds (rl ru : Z) (k : nat) : Z * Z :=
  match k with
  | O => (pw_scale, pw_scale)
  | Datatypes.S k' => pw_step rl ru (pw_bounds rl ru k')
  end.

(** [l / pw_scale <= y <= u / pw_scale], with [l] non-negative. *)
Definition brackets (lu : Z * Z) (y : R) : Prop :=
  (0 <= fst lu)%Z /\
  IZR (fst lu) / IZR pw_scale <= y <= IZR (snd lu) / IZR pw_scale.

(** ** The round trip on a grid of exponents *)

(** The interpolation on rationals, with the same cases as [interp_pts]. *)
Fixpoint interpQ_from (x x0 y0 : Q) (pts : list (Q * Q)) : Q :=
  match pts with
  | [] => y0
  | (x1, y1) :: rest =>
      if Qlt_le_dec x x1
      then ((y1 - y0) / (x1 - x0) * (x - x0) + y0)%Q
      else interpQ_from x x1 y1 rest
  end.

Definition interpQ_pts (x : Q) (pts : list (Q * Q)) : Q :=
  match pts with
  | [] => 0%Q
  | (x0, y0) :: rest =>
      if Qlt_le_dec x x0 then y0 else interpQ_from x x0 y0 rest
  end.

Fixpoint ascQ_from (x0 : Q) (pts : list (Q * Q)) : Prop :=
  match pts with
  | [] => True
  | (x1, _) :: rest => (x0 < x1)%Q /\ ascQ_from x1 rest
  end.

Definition q2r2 (p : Q * Q) : R * R := (Q2R (fst p), Q2R (snd p)).

(** The table of [water_bp_temp] and the constants of [water_bp_kpa] as
    rationals. *)
Definition bp_tableQ : list (Q * Q) :=
  [ (6 # 10, 0); (12 # 10, 10); (23 # 10, 20); (42 # 10, 30); (74 # 10, 40);
    (123 # 10, 50); (199 # 10, 60); (318 # 10, 70); (474 # 10, 80);
    (67, 90); (1013 # 10, 100); (200, 120); (300, 134); (400, 144);
    (500, 151) ]%Q.

Definition antoine_A : Q := 807131 # 100000.
Definition antoine_B : Q := 173063 # 100.
Definition antoine_C : Q := 233426 # 1000.
Definition mmHg_kPa : Q := 133322 # 1000000.

(** The grid of exponents, in units of [1/2048]: cells of 8 units from 0 up
    to [fine_start], checked from [grid_first] on (below [x(10)]), then cells
    of 1 unit up to [grid_last] (above [x(90)]), where the error is
    largest. *)
Definition coarse_log : nat := 8.
Definition fine_log : nat := 11.
Definition grid_first : Z := 1968.
Definition coarse_cells : nat := 688.
Definition fine_start : Z := 5504.
Definition fine_cells : nat := 68.
Definition grid_last : Z := 5572.

(** The tolerance that is checked. *)
Definition round_trip_tol : Q := 12 # 10.

(** The check of one cell [k/2048 <= x <= k'/2048], given a lower bound
    [l] of [10^(k/2048)] and an upper bound [u'] of [10^(k'/2048)]. *)
Definition check_cell (k k' l u' : Z) : bool :=
  let q := (k # 2048)%Q in
  let q' := (k' # 2048)%Q in
  let glo := interpQ_pts (Qmake l (Z.to_pos pw_scale) * mmHg_kPa) bp_tableQ in
  let ghi := interpQ_pts (Qmake u' (Z.to_pos pw_scale) * mmHg_kPa) bp_tableQ in
  Qle_bool ((ghi - round_trip_tol + antoine_C) * (antoine_A - q)) antoine_B
  && Qle_bool antoine_B ((glo + round_trip_tol + antoine_C) * (antoine_A - q'))
  && negb (Qle_bool antoine_A q').

(** [fuel] consecutive cells of [w] units starting at [k], [lu] bounding
    [10^(k/2048)] and [(rl, ru)] bounding [10^(w/2048)]. *)
Fixpoint scan (rl ru w : Z) (fuel : nat) (k : Z) (lu : Z * Z) : bool :=
  match fuel with
  | O => true
  | Datatypes.S f =>
      let lu' := pw_step rl ru lu in
      (if (grid_first <=? k)%Z
       then check_cell k (k + w) (fst lu) (snd lu') else true)
      && scan rl ru w f (k + w) lu'
  end.

(** ** Further vocabulary *)

(** The floor the loop over the driving temperature differences applies. *)
Definition driving_dT (dT1 : R) : R :=
  if Rle_dec dT1 0.1 then 0.1 else dT1.

(** The points [bpe_nacl] interpolates. *)
Definition bpe_table : list (R * R) :=
  combine [0; 1; 5; 10; 15] [0; 0.3; 1.5; 4; 7].

(** The per-effect step of the cascade. *)
Definition cascade_step (steam b_last : R) (n : nat) : R :=
  (steam - (water_bp_temp 25 + b_last)) / INR n.

(** The rest of a run: the driving temperature differences, the energy
    figures and the report itself, field by field. *)
Record run_report (n : nat) (ffm fdm tss pdm sp : R) (l : locals)
    (out : output) : Prop := {
  rr_lmtds : compute_lmtds (Z.of_nat n) (steam_temp_c l) (bp_temp_c l)
             = Ok (lmtds l);
  rr_len_lmtds : length (lmtds l) = n;
  rr_econ : steam_econ l = steam_econ_of pdm;
  rr_steam : steam_needed_kgph l = evap_kgph l / steam_econ l;
  rr_thermal : total_thermal_kW l = evap_kgph l * 2300 / 3600;
  rr_power : steam_power_kW l = steam_needed_kgph l * 2300 / 3600;
  rr_cond : condenser_kW l = evap_kgph l * 2350 / 3600;
  rr_tds : feed_tds_kgph l
           = feed_dm_kgph l - tss / 100 * feed_flow_kgph l;
  rr_prod_m3h : prod_flow_m3h l = prod_flow_kgph l / 1000;
  rr_rows : forall i, (i < n)%nat ->
    exists p t b lm v c,
      nth_error (eff_press_kpa l) i = Some (Some p) /\
      nth_error (bp_temp_c l) i = Some (Some t) /\
      nth_error (bpes l) i = Some b /\
      nth_error (lmtds l) i = Some lm /\
      nth_error (stage_vap_kgph (mb l)) i = Some v /\
      nth_error (stage_conc_flow (mb l)) (i + 1) = Some c /\
      nth_error (Effects out) i = Some (row_of i p t b lm v c);
  rr_out : out =
    {| Feed_Flow_m3h := ffm;
       Feed_DM_pct := fdm;
       Feed_TSS_pct := tss;
       Feed_TDS_pct :=
         if Rlt_dec 0 (feed_flow_kgph l)
         then round (feed_tds_kgph l / feed_flow_kgph l * 100) 2 else 0;
       Product_Flow_m3h := round (prod_flow_m3h l) 2;
       Product_DM_pct := pdm;
       Water_Evaporated_kgph := int (evap_kgph l);
       Steam_Needed_kgph := int (steam_needed_kgph l);
       Steam_Power_kW := int (steam_power_kW l);
       Steam_Economy := round (steam_econ l) 2;
       Effects := results l;
       Total_Thermal_Load_kW := int (total_thermal_kW l);
       Steam_Temp_C := round (steam_temp_c l) 1;
       Final_Stage_Condenser_Load_kW := int (condenser_kW l);
       Error := if error_flag (mb l) then error_msg (mb l) else ""%string |}
}.

(* ================================================================== *)
(** * Lemmas on the runtime fragment *)
(* ================================================================== *)

Section Runtime.

Context {S A B : Type}.

Lemma foldM_app (body : S -> A -> result S) (l1 l2 : list A) (s : S) :
  foldM body (l1 ++ l2) s = bind (foldM body l1 s) (foldM body l2).
Proof.
  revert s; induction l1 as [|x l1 IH]; intros s; simpl; [reflexivity|].
  destruct (body s x) as [s'|e]; simpl; [apply IH | reflexivity].
Qed.

Lemma foldM_snoc (body : S -> A -> result S) (l : list A) (x : A) (s : S) :
  foldM body (l ++ [x]) s = bind (foldM body l s) (fun s' => body s' x).
Proof.
  rewrite foldM_app. destruct (foldM body l s) as [s'|e]; simpl; auto.
  destruct (body s' x); reflexivity.
Qed.

Lemma mapM_total (f : A -> result B) (l : list A) :
  (forall x, In x l -> exists y, f x = Ok y) ->
  exists ys, mapM f l = Ok ys /\ length ys = length l /\
    forall i x, nth_error l i = Some x ->
      exists y, nth_error ys i = Some y /\ f x = Ok y.
Proof.
  induction l as [|x l IH]; intros H; simpl.
  - exists []. repeat split; auto. intros [|i] x Hx; discriminate.
  - destruct (H x (or_introl eq_refl)) as [y Hy].
    destruct IH as (ys & Hys & Hlen & Hnth); [intros z Hz; apply H; now right|].
    rewrite Hy, Hys; simpl. exists (y :: ys). repeat split; [simpl; lia|].
    intros [|i] z Hz; simpl in *.
    + injection Hz as <-. eauto.
    + eauto.
Qed.

End Runtime.

Lemma index_ok {A} (l : list A) (i : nat) (x : A) :
  nth_error l i = Some x -> index l i = Ok x.
Proof. unfold index; now intros ->. Qed.

Lemma get_num_ok (l : list (option R)) (i : nat) (x : R) :
  nth_error l i = Some (Some x) -> get_num l i = Ok x.
Proof. unfold get_num; now intros ->. Qed.

Lemma last_item_snoc {A} (l : list A) (x : A) : last_item (l ++ [x]) = Ok x.
Proof. unfold last_item. now rewrite rev_app_distr. Qed.

Lemma last_item_nth {A} (l : list A) (n : nat) (x : A) :
  length l = Datatypes.S n -> nth_error l n = Some x -> last_item l = Ok x.
Proof.
  intros Hlen Hn.
  destruct (@exists_last _ l) as (l' & y & ->);
    [intros ->; discriminate|].
  rewrite last_length in Hlen.
  rewrite nth_error_app2 in Hn by lia.
  replace (n - length l')%nat with 0%nat in Hn by lia.
  simpl in Hn. injection Hn as ->. apply last_item_snoc.
Qed.

Lemma set_item_ok {A} (l : list A) (i : nat) (v : A) :
  (i < length l)%nat ->
  exists l', set_item l i v = Ok l' /\ length l' = length l /\
    nth_error l' i = Some v /\
    forall j, j <> i -> nth_error l' j = nth_error l j.
Proof.
  revert i; induction l as [|x l IH]; intros i Hi; simpl in Hi; [lia|].
  destruct i as [|i]; simpl.
  - exists (v :: l). repeat split. intros [|j] Hj; [congruence | reflexivity].
  - destruct (IH i) as (l' & -> & Hlen & Hset & Hoth); [lia|]. simpl.
    exists (x :: l'). repeat split; simpl; [lia | assumption |].
    intros [|j] Hj; simpl; [reflexivity | apply Hoth; congruence].
Qed.

Lemma range_S (n : nat) :
  range (Z.of_nat (Datatypes.S n)) = range (Z.of_nat n) ++ [n].
Proof. unfold range. rewrite !Nat2Z.id. now rewrite seq_S. Qed.

Lemma range_nat (n : nat) : range (Z.of_nat n) = seq 0 n.
Proof. unfold range. now rewrite Nat2Z.id. Qed.

Lemma int_IZR (z : Z) : int (IZR z) = z.
Proof.
  unfold int. destruct (Rle_dec 0 (IZR z)) as [H|H].
  - symmetry. apply Int_part_spec. lra.
  - rewrite <- opp_IZR. rewrite <- (Int_part_spec (IZR (- z)) (- z)); [lia|lra].
Qed.

Lemma int_0 : int 0 = 0%Z.
Proof. apply (int_IZR 0). Qed.

Lemma rint_IZR (z : Z) : rint (IZR z) = z.
Proof.
  unfold rint.
  assert (E : Int_part (IZR z) = z) by (symmetry; apply Int_part_spec; lra).
  rewrite E. destruct (Rlt_dec (IZR z - IZR z) (1 / 2)); [reflexivity | lra].
Qed.

Lemma round_0 (nd : nat) : round 0 nd = 0.
Proof.
  unfold round. rewrite Rmult_0_l. rewrite (rint_IZR 0). unfold Rdiv.
  apply Rmult_0_l.
Qed.

(** [np.linspace] with a non-negative sample count returns, and its samples
    are the evenly spaced ones, the last being [stop] itself. *)
Lemma linspace_ok (a b : R) (n : nat) :
  exists tr, linspace a b (Z.of_nat n + 1) = Ok tr /\
    length tr = Datatypes.S n /\
    nth_error tr 0 = Some a /\
    ((1 <= n)%nat -> nth_error tr n = Some b) /\
    (forall i, (i < n)%nat ->
       nth_error tr i = Some (INR i * ((b - a) / INR n) + a)).
Proof.
  unfold linspace.
  destruct (Z.ltb_spec (Z.of_nat n + 1) 0) as [H|_]; [lia|].
  replace (Z.to_nat (Z.of_nat n + 1)) with (Datatypes.S n) by lia.
  replace (Datatypes.S n - 1)%nat with n by lia.
  destruct n as [|n].
  - simpl. exists [0 * (b - a) + a]. repeat split; try lia.
    simpl. f_equal. ring.
  - replace (0 <? Datatypes.S n)%nat with true
      by (symmetry; apply Nat.ltb_lt; lia).
    replace (1 <? Datatypes.S (Datatypes.S n))%nat with true
      by (symmetry; apply Nat.ltb_lt; lia).
    set (f := fun i : nat => INR i * ((b - a) / INR (Datatypes.S n)) + a).
    rewrite (seq_S (Datatypes.S n) 0), map_app.
    change (map f [(0 + Datatypes.S n)%nat]) with [f (0 + Datatypes.S n)%nat].
    rewrite removelast_last.
    eexists; split; [reflexivity|].
    assert (Hl : length (map f (seq 0 (Datatypes.S n))) = Datatypes.S n)
      by now rewrite length_map, length_seq.
    assert (Hi : forall i, (i < Datatypes.S n)%nat ->
              nth_error (map f (seq 0 (Datatypes.S n)) ++ [b]) i = Some (f i)).
    { intros i Hi. rewrite nth_error_app1 by lia.
      rewrite nth_error_map, nth_error_seq.
      destruct (Nat.ltb_spec i (Datatypes.S n)); [reflexivity | lia]. }
    repeat split.
    + rewrite length_app, Hl. simpl. lia.
    + rewrite Hi by lia. unfold f. simpl INR at 1. f_equal. ring.
    + intros _. rewrite nth_error_app2 by lia. rewrite Hl, Nat.sub_diag.
      reflexivity.
    + exact Hi.
Qed.

Lemma linspace_negative (a b : R) (num : Z) :
  (num < 0)%Z -> linspace a b num = Raise ValueError.
Proof.
  intros H. unfold linspace.
  destruct (Z.ltb_spec num 0); [reflexivity | lia].
Qed.

Lemma int_eq (x : R) (z : Z) : x = IZR z -> int x = z.
Proof. intros ->. apply int_IZR. Qed.

(* ================================================================== *)
(** * The mass-balance loop *)
(* ================================================================== *)

Lemma stage_error_fails (fd c : R) (k : nat) :
  stage_fails fd c <-> stage_error fd c k <> None.
Proof.
  unfold stage_fails, stage_error.
  destruct (Rle_dec (c / 100) 0); [intuition congruence|].
  destruct (Req_dec_T fd 0); intuition congruence.
Qed.

Lemma stage_flows_fails (fd c pc : R) :
  stage_fails fd c -> stage_flows fd c pc = (0, 0).
Proof.
  unfold stage_fails, stage_flows. intros H.
  destruct (Rle_dec (c / 100) 0); [reflexivity|].
  destruct (Req_dec_T fd 0); [reflexivity | lra].
Qed.

Lemma stage_flows_ok (fd c pc : R) :
  0 < c -> fd <> 0 ->
  stage_flows fd c pc = (fd / (c / 100), pc - fd / (c / 100)).
Proof.
  unfold stage_flows. intros Hc Hfd.
  destruct (Rle_dec (c / 100) 0); [lra|].
  destruct (Req_dec_T fd 0); [contradiction | reflexivity].
Qed.

Lemma last_item_repeat {A} (x : A) (n : nat) :
  last_item (repeat x (Datatypes.S n)) = Ok x.
Proof.
  apply (last_item_nth _ n); [apply repeat_length|].
  apply nth_error_repeat. lia.
Qed.

Lemma mb_body_eq (tr : list R) (s : mb_state) (k : nat) (fd c pc : R) :
  last_item (stage_conc_flow s) = Ok pc ->
  last_item (stage_dm s) = Ok fd ->
  nth_error tr (k + 1) = Some c ->
  mb_body tr s k =
    Ok {| stage_conc_flow := stage_conc_flow s ++ [fst (stage_flows fd c pc)];
          stage_conc_m3h :=
            stage_conc_m3h s ++ [fst (stage_flows fd c pc) / 1000];
          stage_dm := stage_dm s ++ [fd];
          stage_vap_kgph := stage_vap_kgph s ++ [snd (stage_flows fd c pc)];
          stage_vap_m3h :=
            stage_vap_m3h s ++ [snd (stage_flows fd c pc) / 1000];
          error_flag := match stage_error fd c (k + 1) with
                        | Some _ => true
                        | None => error_flag s
                        end;
          error_msg := match stage_error fd c (k + 1) with
                       | Some m => m
                       | None => error_msg s
                       end |}.
Proof.
  intros Hpc Hfd Hc. unfold mb_body.
  rewrite Hpc, Hfd, (index_ok _ _ _ Hc). simpl.
  unfold stage_flows, stage_error.
  destruct (Rle_dec (c / 100) 0); [reflexivity|].
  destruct (Req_dec_T fd 0); reflexivity.
Qed.

Lemma mb_inv_init (ff fd : R) (tr : list R) :
  mb_inv ff fd tr 0 (mb_init ff fd).
Proof.
  constructor; simpl; try reflexivity; intros; lia.
Qed.

Lemma mb_body_inv (ff fd : R) (tr : list R) (k : nat) (s : mb_state) (c : R) :
  mb_inv ff fd tr k s ->
  nth_error tr (k + 1) = Some c ->
  exists s', mb_body tr s k = Ok s' /\ mb_inv ff fd tr (Datatypes.S k) s'.
Proof.
  intros I Hc.
  destruct (nth_error (stage_conc_flow s) k) as [pc|] eqn:Hpc.
  2:{ apply nth_error_None in Hpc. rewrite (inv_len_conc _ _ _ _ _ I) in Hpc.
      lia. }
  assert (Hlast : last_item (stage_conc_flow s) = Ok pc)
    by (apply (last_item_nth _ k);
        [apply (inv_len_conc _ _ _ _ _ I) | exact Hpc]).
  assert (Hdm : last_item (stage_dm s) = Ok fd)
    by (rewrite (inv_dm _ _ _ _ _ I); apply last_item_repeat).
  rewrite (mb_body_eq tr s k fd c pc Hlast Hdm Hc).
  eexists; split; [reflexivity|].
  pose proof (inv_len_conc _ _ _ _ _ I) as Lc.
  pose proof (inv_len_vap _ _ _ _ _ I) as Lv.
  constructor;
    cbn [stage_conc_flow stage_conc_m3h stage_dm stage_vap_kgph stage_vap_m3h
         error_flag error_msg].
  - rewrite length_app, Lc. simpl. lia.
  - rewrite length_app, Lv. simpl. lia.
  - rewrite map_app, (inv_conc_m3h _ _ _ _ _ I). reflexivity.
  - rewrite map_app, (inv_vap_m3h _ _ _ _ _ I). reflexivity.
  - rewrite (inv_dm _ _ _ _ _ I).
    change [fd] with (repeat fd 1). rewrite <- repeat_app.
    replace (Datatypes.S k + 1)%nat with (Datatypes.S (Datatypes.S k)) by lia.
    reflexivity.
  - rewrite nth_error_app1 by lia. apply (inv_conc0 _ _ _ _ _ I).
  - intros j c0 pc0 Hj Hc0 Hpc0.
    destruct (Nat.eq_dec j k) as [E|Hne]; [subst j|].
    + rewrite nth_error_app1 in Hpc0 by lia.
      assert (c0 = c) by congruence. assert (pc0 = pc) by congruence.
      subst c0 pc0. split.
      * rewrite nth_error_app2 by lia.
        replace (k + 1 - length (stage_conc_flow s))%nat with 0%nat by lia.
        reflexivity.
      * rewrite nth_error_app2 by lia.
        replace (k - length (stage_vap_kgph s))%nat with 0%nat by lia.
        reflexivity.
    + rewrite nth_error_app1 in Hpc0 by lia.
      destruct (inv_stage _ _ _ _ _ I j c0 pc0) as [H1 H2]; auto; [lia|].
      split; rewrite nth_error_app1 by lia; assumption.
  - intros Hno.
    assert (Hk : ~ stage_fails fd c) by (apply (Hno k); [lia | exact Hc]).
    rewrite (stage_error_fails fd c (k + 1)) in Hk.
    destruct (stage_error fd c (k + 1)); [exfalso; apply Hk; discriminate|].
    apply (inv_no_error _ _ _ _ _ I). intros j c0 Hj. apply Hno. lia.
  - intros j c0 msg Hj Hc0 Hmsg Hlater.
    destruct (Nat.eq_dec j k) as [E|Hne]; [subst j|].
    + assert (c0 = c) by congruence. subst c0. rewrite Hmsg. auto.
    + assert (Hk : ~ stage_fails fd c) by (apply (Hlater k); [lia | exact Hc]).
      rewrite (stage_error_fails fd c (k + 1)) in Hk.
      destruct (stage_error fd c (k + 1)); [exfalso; apply Hk; discriminate|].
      apply (inv_error _ _ _ _ _ I j c0 msg); auto; [lia|].
      intros j' c' Hj'. apply Hlater. lia.
Qed.

(** The mass balance over [k] effects returns whenever the trajectory has a
    target for each of them, and the state it returns satisfies [mb_inv]. *)
Lemma mass_balance_inv (ff fd : R) (tr : list R) (k : nat) :
  (k < length tr)%nat ->
  exists s, mass_balance (Z.of_nat k) ff fd tr = Ok s /\ mb_inv ff fd tr k s.
Proof.
  unfold mass_balance. induction k as [|k IH]; intros Hk.
  - exists (mb_init ff fd). split; [reflexivity | apply mb_inv_init].
  - destruct IH as (s & Hs & I); [lia|].
    rewrite range_S, foldM_snoc, Hs. simpl.
    destruct (nth_error tr (k + 1)) as [c|] eqn:Hc.
    + apply (mb_body_inv ff fd tr k s c I Hc).
    + apply nth_error_None in Hc. lia.
Qed.

Lemma telescope_sum (vap conc : list R) :
  length conc = Datatypes.S (length vap) ->
  (forall j v, nth_error vap j = Some v ->
     exists a b, nth_error conc j = Some a /\
                 nth_error conc (Datatypes.S j) = Some b /\ v = a - b) ->
  exists a b, nth_error conc 0 = Some a /\
              nth_error conc (length vap) = Some b /\
              fold_right Rplus 0 vap = a - b.
Proof.
  revert conc. induction vap as [|v vap IH]; intros conc Hlen H.
  - destruct conc as [|a [|? ?]]; try discriminate.
    exists a, a. simpl. repeat split. lra.
  - destruct conc as [|a conc]; [discriminate|].
    destruct (IH conc) as (a' & b & Ha' & Hb & Hsum).
    + simpl in Hlen. lia.
    + intros j w Hw. apply (H (Datatypes.S j) w Hw).
    + destruct (H 0%nat v eq_refl) as (a0 & b0 & Ha0 & Hb0 & Hv).
      change (Some a = Some a0) in Ha0.
      change (nth_error conc 0 = Some b0) in Hb0.
      assert (a0 = a) by congruence. assert (b0 = a') by congruence.
      subst a0 b0. exists a, b. simpl. repeat split; [exact Hb|].
      rewrite Hsum, Hv. lra.
Qed.

Lemma Forall_nth_error {A} (P : A -> Prop) (l : list A) (i : nat) (x : A) :
  Forall P l -> nth_error l i = Some x -> P x.
Proof.
  intros H Hx. rewrite Forall_forall in H. apply H.
  apply (nth_error_In _ _ Hx).
Qed.

(* ================================================================== *)
(** * Boiling-point elevations and the backward cascade *)
(* ================================================================== *)

Lemma compute_bpes_ok (n : nat) (tr : list R) (tss : R) :
  length tr = Datatypes.S n ->
  exists bs, compute_bpes (Z.of_nat n) tr tss = Ok bs /\
    length bs = n /\
    forall j c, (j < n)%nat -> nth_error tr (j + 1) = Some c ->
      nth_error bs j = Some (bpe_nacl (Py.max 0.01 (c - tss))).
Proof.
  intros Hlen. unfold compute_bpes, range_from.
  replace (Z.to_nat (Z.of_nat n + 1) - 1)%nat with n by lia.
  destruct (mapM_total
              (fun i => c <- index tr i ;;
                        Ok (bpe_nacl (Py.max 0.01 (c - tss))))
              (seq 1 n)) as (bs & Hbs & Hl & Hnth).
  - intros i Hi. apply in_seq in Hi.
    destruct (nth_error tr i) as [c|] eqn:Hc.
    + rewrite (index_ok _ _ _ Hc). simpl. eauto.
    + apply nth_error_None in Hc. lia.
  - exists bs. split; [exact Hbs|]. split; [now rewrite Hl, length_seq|].
    intros j c Hj Hc.
    destruct (Hnth j (j + 1)%nat) as (y & Hy & Hf).
    + rewrite nth_error_seq.
      destruct (Nat.ltb_spec j n); [f_equal; lia | lia].
    + rewrite (index_ok _ _ _ Hc) in Hf. simpl in Hf. congruence.
Qed.

Lemma cascade_at_frame (n : nat) (steam : R) (bs : list R)
    (ep bp ep' bp' : list (option R)) (k j : nat) :
  (k < j)%nat ->
  (forall i, i <> k -> nth_error ep' i = nth_error ep i) ->
  (forall i, i <> k -> nth_error bp' i = nth_error bp i) ->
  cascade_at n steam bs ep bp j -> cascade_at n steam bs ep' bp' j.
Proof.
  intros Hkj Hep Hbp (b & t & p & Hb & Ht & Hp & H).
  exists b, t, p. rewrite Hep, Hbp by lia. repeat split; try assumption.
  destruct (Datatypes.S j =? n)%nat; [assumption|].
  destruct H as (t' & bl & H1 & H2 & H3 & H4).
  exists t', bl. rewrite Hbp by lia. auto.
Qed.

Lemma cascade_body_inv (n : nat) (steam : R) (bs : list R) (k : nat)
    (s : list (option R) * list (option R)) :
  length bs = n -> (k < n)%nat ->
  cascade_inv n steam bs (Datatypes.S k) s ->
  exists s', cascade_body (Z.of_nat n) steam bs s k = Ok s' /\
             cascade_inv n steam bs k s'.
Proof.
  intros Hbs Hk [Lep Lbp Hat]. destruct s as [ep bp]. simpl in *.
  unfold cascade_body.
  destruct (nth_error bs k) as [b|] eqn:Hb;
    [| apply nth_error_None in Hb; lia].
  destruct (Z.eqb_spec (Z.of_nat k) (Z.of_nat n - 1)) as [E|E].
  - destruct (set_item_ok ep k (Some 25)) as (ep' & -> & Lep' & Sep & Fep);
      [lia|].
    cbn [bind]. rewrite (index_ok _ _ _ Hb). cbn [bind].
    destruct (set_item_ok bp k (Some (water_bp_temp 25 + b)))
      as (bp' & -> & Lbp' & Sbp & Fbp); [lia|].
    simpl. eexists; split; [reflexivity|].
    constructor; simpl; [lia | lia |].
    intros j Hj. destruct (Nat.eq_dec j k) as [->|Hne]; [|lia].
    exists b, (water_bp_temp 25 + b), 25.
    repeat split; try assumption.
    replace (Datatypes.S k =? n)%nat with true
      by (symmetry; apply Nat.eqb_eq; lia).
    auto.
  - destruct (nth_error bs (n - 1)) as [bl|] eqn:Hbl;
      [| apply nth_error_None in Hbl; lia].
    rewrite (last_item_nth bs (n - 1) bl) by (auto; lia).
    destruct (Hat (Datatypes.S k)) as (b1 & t1 & p1 & _ & Ht1 & _); [lia|].
    replace (k + 1)%nat with (Datatypes.S k) by lia.
    cbn [bind]. rewrite (get_num_ok _ _ _ Ht1). cbn [bind].
    set (dt := (steam - (water_bp_temp 25 + bl)) / IZR (Z.of_nat n)).
    destruct (set_item_ok bp k (Some (t1 + dt)))
      as (bp' & -> & Lbp' & Sbp & Fbp); [lia|].
    cbn [bind]. rewrite (get_num_ok _ _ _ Sbp). cbn [bind].
    rewrite (index_ok _ _ _ Hb). cbn [bind].
    destruct (set_item_ok ep k (Some (water_bp_kpa (t1 + dt - b))))
      as (ep' & -> & Lep' & Sep & Fep); [lia|].
    simpl. eexists; split; [reflexivity|].
    constructor; simpl; [lia | lia |].
    intros j Hj. destruct (Nat.eq_dec j k) as [->|Hne].
    + exists b, (t1 + dt), (water_bp_kpa (t1 + dt - b)).
      repeat split; try assumption.
      replace (Datatypes.S k =? n)%nat with false
        by (symmetry; apply Nat.eqb_neq; lia).
      exists t1, bl. rewrite Fbp by lia.
      repeat split; try assumption.
      unfold dt. now rewrite <- INR_IZR_INZ.
    + apply (cascade_at_frame n steam bs ep bp ep' bp' k j); auto; [lia|].
      apply Hat. lia.
Qed.

Lemma cascade_loop_inv (n : nat) (steam : R) (bs : list R) (k : nat)
    (s : list (option R) * list (option R)) :
  length bs = n -> (k <= n)%nat ->
  cascade_inv n steam bs k s ->
  exists s', foldM (cascade_body (Z.of_nat n) steam bs) (rev (seq 0 k)) s
             = Ok s' /\
             cascade_inv n steam bs 0 s'.
Proof.
  intros Hbs. revert s. induction k as [|k IH]; intros s Hk I.
  - exists s. split; [reflexivity | exact I].
  - rewrite seq_S, rev_app_distr. simpl.
    destruct (cascade_body_inv n steam bs k s Hbs) as (s1 & -> & I1);
      [lia | exact I |].
    simpl. apply IH; [lia | exact I1].
Qed.

(** The backward loop returns and fills both arrays. *)
Lemma cascade_ok (n : nat) (steam : R) (bs : list R) :
  length bs = n ->
  exists ep bp, cascade (Z.of_nat n) steam bs = Ok (ep, bp) /\
    length ep = n /\ length bp = n /\
    forall j, (j < n)%nat -> cascade_at n steam bs ep bp j.
Proof.
  intros Hbs. unfold cascade, range_down. rewrite range_nat.
  destruct (cascade_loop_inv n steam bs n
              (none_list (Z.of_nat n), none_list (Z.of_nat n)) Hbs)
    as ([ep bp] & H & [L1 L2 Hat]).
  - lia.
  - constructor; simpl; unfold none_list; rewrite ?repeat_length; try lia.
  - exists ep, bp. simpl in *. repeat split; auto.
    intros j Hj. apply Hat. lia.
Qed.

(** The boiling temperatures in closed form: effect [j+1] sits
    [n-1-j] steps above the last effect. *)
Lemma cascade_closed_form (n : nat) (steam : R) (bs : list R)
    (ep bp : list (option R)) (b_last : R) :
  nth_error bs (n - 1) = Some b_last ->
  (forall j, (j < n)%nat -> cascade_at n steam bs ep bp j) ->
  forall d, (d < n)%nat ->
    nth_error bp (n - 1 - d)
    = Some (Some (water_bp_temp 25 + b_last
                  + INR d * ((steam - (water_bp_temp 25 + b_last)) / INR n))).
Proof.
  intros Hbl Hat. induction d as [|d IH]; intros Hd.
  - destruct (Hat (n - 1)%nat ltac:(lia)) as (b & t & p & Hb & Ht & _ & H).
    replace (Datatypes.S (n - 1) =? n)%nat with true in H
      by (symmetry; apply Nat.eqb_eq; lia).
    destruct H as [_ ->]. rewrite Nat.sub_0_r, Ht.
    assert (b = b_last) by congruence. subst b.
    do 2 f_equal. simpl. ring.
  - destruct (Hat (n - 1 - Datatypes.S d)%nat ltac:(lia))
      as (b & t & p & Hb & Ht & _ & H).
    replace (Datatypes.S (n - 1 - Datatypes.S d) =? n)%nat with false in H
      by (symmetry; apply Nat.eqb_neq; lia).
    destruct H as (t' & bl & Ht' & Hbl' & -> & _).
    replace (Datatypes.S (n - 1 - Datatypes.S d)) with (n - 1 - d)%nat in Ht'
      by lia.
    rewrite IH in Ht' by lia. injection Ht' as <-.
    assert (bl = b_last) by congruence. subst bl.
    rewrite Ht. do 2 f_equal. rewrite S_INR. ring.
Qed.

(* ================================================================== *)
(** * Driving temperature differences and the rows *)
(* ================================================================== *)

Lemma cascade_at_filled (n : nat) (steam : R) (bs : list R)
    (ep bp : list (option R)) :
  (forall j, (j < n)%nat -> cascade_at n steam bs ep bp j) ->
  filled ep n /\ filled bp n.
Proof.
  intros H. split; intros j Hj;
    destruct (H j Hj) as (b & t & p & _ & Ht & Hp & _); eauto.
Qed.

Lemma compute_lmtds_ok (n : nat) (steam : R) (bp : list (option R)) :
  filled bp n ->
  exists lm, compute_lmtds (Z.of_nat n) steam bp = Ok lm /\ length lm = n.
Proof.
  intros Hbp. unfold compute_lmtds.
  assert (H : forall k, (k <= n)%nat ->
            exists lm, foldM (lmtd_body steam bp) (range (Z.of_nat k)) []
                       = Ok lm /\ length lm = k).
  { induction k as [|k IH]; intros Hk.
    - exists []. split; reflexivity.
    - destruct IH as (lm & Hlm & Hl); [lia|].
      rewrite range_S, foldM_snoc, Hlm. cbn [bind]. unfold lmtd_body.
      destruct (Hbp k) as (cold & Hcold); [lia|].
      assert (Hhot : exists hot,
                 (if (k =? 0)%nat then Ok steam else get_num bp (k - 1))
                 = Ok hot).
      { destruct (Nat.eqb_spec k 0); [eauto|].
        destruct (Hbp (k - 1)%nat) as (h & Hh); [lia|].
        rewrite (get_num_ok _ _ _ Hh). eauto. }
      destruct Hhot as (hot & ->). cbn [bind].
      rewrite (get_num_ok _ _ _ Hcold). cbn [bind].
      eexists; split; [reflexivity|].
      rewrite length_app, Hl. simpl. lia. }
  apply H. lia.
Qed.

Lemma results_body_eq (ep bp : list (option R)) (bs lm : list R)
    (s : mb_state) (i : nat) (p t b l v c : R) :
  nth_error ep i = Some (Some p) ->
  nth_error bp i = Some (Some t) ->
  nth_error bs i = Some b ->
  nth_error lm i = Some l ->
  nth_error (stage_vap_kgph s) i = Some v ->
  nth_error (stage_conc_flow s) (i + 1) = Some c ->
  stage_vap_m3h s = map (fun x => x / 1000) (stage_vap_kgph s) ->
  stage_conc_m3h s = map (fun x => x / 1000) (stage_conc_flow s) ->
  results_body ep bp bs lm s i =
    Ok {| Effect := i + 1;
          Abs_Pressure_kPa := round p 1;
          Boiling_Pt_C := round t 1;
          BPE_C := round b 2;
          LMTD_C := l;
          Vapour_Flow_kgph := int v;
          Vapour_Flow_m3h := round (v / 1000) 2;
          Concentrate_Flow_kgph := int c;
          Concentrate_Flow_m3h := round (c / 1000) 2 |}.
Proof.
  intros Hp Ht Hb Hl Hv Hc Ev Ec. unfold results_body.
  rewrite (get_num_ok _ _ _ Hp), (get_num_ok _ _ _ Ht). cbn [bind].
  rewrite (index_ok _ _ _ Hb), (index_ok _ _ _ Hl), (index_ok _ _ _ Hv).
  cbn [bind].
  rewrite (index_ok (stage_vap_m3h s) i (v / 1000))
    by (rewrite Ev, nth_error_map, Hv; reflexivity).
  rewrite (index_ok _ _ _ Hc).
  rewrite (index_ok (stage_conc_m3h s) (i + 1) (c / 1000))
    by (rewrite Ec, nth_error_map, Hc; reflexivity).
  reflexivity.
Qed.

Lemma build_results_ok (n : nat) (ep bp : list (option R)) (bs lm : list R)
    (ff fd : R) (tr : list R) (s : mb_state) :
  filled ep n -> filled bp n -> length bs = n -> length lm = n ->
  mb_inv ff fd tr n s ->
  exists rows, build_results (Z.of_nat n) ep bp bs lm s = Ok rows /\
    length rows = n /\
    forall i, (i < n)%nat ->
      exists p t b l v c,
        nth_error ep i = Some (Some p) /\
        nth_error bp i = Some (Some t) /\
        nth_error bs i = Some b /\
        nth_error lm i = Some l /\
        nth_error (stage_vap_kgph s) i = Some v /\
        nth_error (stage_conc_flow s) (i + 1) = Some c /\
        nth_error rows i = Some (row_of i p t b l v c).
Proof.
  intros Hep Hbp Hbs Hlm I. unfold build_results. rewrite range_nat.
  assert (Hrow : forall i, (i < n)%nat ->
            exists p t b l v c,
              nth_error ep i = Some (Some p) /\
              nth_error bp i = Some (Some t) /\
              nth_error bs i = Some b /\
              nth_error lm i = Some l /\
              nth_error (stage_vap_kgph s) i = Some v /\
              nth_error (stage_conc_flow s) (i + 1) = Some c /\
              results_body ep bp bs lm s i = Ok (row_of i p t b l v c)).
  { intros i Hi.
    destruct (Hep i Hi) as (p & Hp). destruct (Hbp i Hi) as (t & Ht).
    destruct (nth_error bs i) as [b|] eqn:Hb;
      [| apply nth_error_None in Hb; lia].
    destruct (nth_error lm i) as [l|] eqn:Hl;
      [| apply nth_error_None in Hl; lia].
    destruct (nth_error (stage_vap_kgph s) i) as [v|] eqn:Hv;
      [| apply nth_error_None in Hv;
         rewrite (inv_len_vap _ _ _ _ _ I) in Hv; lia].
    destruct (nth_error (stage_conc_flow s) (i + 1)) as [c|] eqn:Hc;
      [| apply nth_error_None in Hc;
         rewrite (inv_len_conc _ _ _ _ _ I) in Hc; lia].
    exists p, t, b, l, v, c. repeat split; auto.
    apply results_body_eq; auto;
      [apply (inv_vap_m3h _ _ _ _ _ I) | apply (inv_conc_m3h _ _ _ _ _ I)]. }
  destruct (mapM_total (results_body ep bp bs lm s) (seq 0 n))
    as (rows & Hrows & Hl & Hnth).
  - intros i Hi. apply in_seq in Hi.
    destruct (Hrow i) as (p & t & b & l & v & c & H); [lia|].
    exists (row_of i p t b l v c). apply H.
  - exists rows. split; [exact Hrows|]. split; [now rewrite Hl, length_seq|].
    intros i Hi.
    destruct (Hrow i Hi)
      as (p & t & b & l & v & c & H1 & H2 & H3 & H4 & H5 & H6 & H7).
    exists p, t, b, l, v, c. repeat split; auto.
    destruct (Hnth i i) as (y & Hy & Hf).
    + rewrite nth_error_seq. destruct (Nat.ltb_spec i n); [reflexivity | lia].
    + congruence.
Qed.

(* ================================================================== *)
(** * The whole call *)
(* ================================================================== *)

Lemma fdiv_ok (a b : R) : b <> 0 -> fdiv a b = Ok (a / b).
Proof.
  intros H. unfold fdiv.
  destruct (Req_dec_T b 0); [contradiction | reflexivity].
Qed.

Lemma steam_econ_of_pos (p : R) : 0 < steam_econ_of p.
Proof.
  unfold steam_econ_of.
  destruct (Rlt_dec p 12); [lra|]. destruct (Rlt_dec p 18); lra.
Qed.

Lemma prod_flow_ok (fd pdm : R) :
  (if Rlt_dec 0 pdm then fdiv fd (pdm / 100) else Ok 0)
  = Ok (prod_flow_of fd pdm).
Proof.
  unfold prod_flow_of. destruct (Rlt_dec 0 pdm); [|reflexivity].
  apply fdiv_ok. lra.
Qed.

Lemma steam_needed_ok (evap pdm : R) :
  (if Rlt_dec 0 (steam_econ_of pdm) then fdiv evap (steam_econ_of pdm)
   else Ok 0)
  = Ok (evap / steam_econ_of pdm).
Proof.
  pose proof (steam_econ_of_pos pdm).
  destruct (Rlt_dec 0 (steam_econ_of pdm)); [|contradiction].
  apply fdiv_ok. lra.
Qed.

Lemma build_output_ok (ff fdm tss pdm : R) (l : locals) :
  exists out, build_output ff fdm tss pdm l = Ok out /\
    Effects out = results l /\
    Error out = (if error_flag (mb l) then error_msg (mb l) else ""%string) /\
    Water_Evaporated_kgph out = int (evap_kgph l) /\
    Product_Flow_m3h out = round (prod_flow_m3h l) 2 /\
    Steam_Temp_C out = round (steam_temp_c l) 1.
Proof.
  unfold build_output.
  destruct (Rlt_dec 0 (feed_flow_kgph l)).
  - rewrite fdiv_ok by lra. cbn [bind]. eexists; split; [reflexivity|].
    repeat split.
  - cbn [bind]. eexists; split; [reflexivity|]. repeat split.
Qed.

Lemma evaporator_calc_run (n : nat) (ffm fdm tss ft pdm sp : R) :
  exists l out,
    evaporator_locals (Z.of_nat n) ffm fdm tss ft pdm sp = Ok l /\
    evaporator_calc (Z.of_nat n) ffm fdm tss ft pdm sp = Ok out /\
    run n ffm fdm tss pdm sp l out.
Proof.
  unfold evaporator_calc, evaporator_locals.
  rewrite prod_flow_ok. cbn [bind].
  destruct (linspace_ok fdm pdm n) as (tr & Htr & Ltr & _).
  rewrite Htr. cbn [bind].
  destruct (compute_bpes_ok n tr tss Ltr) as (bs & Hbs & Lbs & _).
  rewrite Hbs. cbn [bind].
  set (steam := water_bp_temp ((sp + 1) * 100)).
  destruct (cascade_ok n steam bs Lbs) as (ep & bp & Hc & Lep & Lbp & Hat).
  rewrite Hc. cbn [bind].
  destruct (cascade_at_filled n steam bs ep bp Hat) as [Fep Fbp].
  destruct (compute_lmtds_ok n steam bp Fbp) as (lm & Hlm & Llm).
  rewrite Hlm. cbn [bind].
  set (ff := ffm * 1000). set (fd := fdm / 100 * ff).
  destruct (mass_balance_inv ff fd tr n) as (s & Hs & I); [lia|].
  rewrite Hs. cbn [bind].
  rewrite steam_needed_ok. cbn [bind].
  destruct (build_results_ok n ep bp bs lm ff fd tr s Fep Fbp Lbs Llm I)
    as (rows & Hrows & Lrows & Hrow).
  rewrite Hrows. cbn [bind].
  match goal with |- exists l out, Ok ?x = Ok l /\ _ => set (l0 := x) end.
  destruct (build_output_ok ffm fdm tss pdm l0)
    as (out & Hout & E1 & E2 & E3 & _).
  exists l0, out. split; [reflexivity|]. split; [exact Hout|].
  constructor; try reflexivity; try assumption.
  intros i Hi.
  destruct (Hrow i Hi)
    as (p & t & b & l & v & c & H1 & H2 & H3 & H4 & H5 & H6 & H7).
  exists p, t, b, l, v, c. repeat split; assumption.
Qed.

Lemma evaporator_calc_negative_count (N : Z) (ffm fdm tss ft pdm sp : R) :
  (N < -1)%Z -> evaporator_calc N ffm fdm tss ft pdm sp = Raise ValueError.
Proof.
  intros HN. unfold evaporator_calc, evaporator_locals.
  rewrite prod_flow_ok. cbn [bind].
  rewrite linspace_negative by lia. reflexivity.
Qed.

Lemma evaporator_calc_minus_one (ffm fdm tss ft pdm sp : R) :
  linspace fdm pdm (-1 + 1) = Ok [] /\
  exists out, evaporator_calc (-1) ffm fdm tss ft pdm sp = Ok out /\
              Effects out = [] /\ Error out = ""%string.
Proof.
  split; [reflexivity|].
  unfold evaporator_calc, evaporator_locals.
  rewrite prod_flow_ok. cbn [bind].
  change (linspace fdm pdm (-1 + 1)) with (@Ok (list R) []). cbn [bind].
  change (compute_bpes (-1) [] tss) with (@Ok (list R) []). cbn [bind].
  change (cascade (-1) (water_bp_temp ((sp + 1) * 100)) [])
    with (@Ok (list (option R) * list (option R)) ([], [])). cbn [bind].
  change (compute_lmtds (-1) (water_bp_temp ((sp + 1) * 100)) [])
    with (@Ok (list R) []). cbn [bind].
  unfold mass_balance. change (range (-1)) with (@nil nat). cbn [foldM bind].
  rewrite steam_needed_ok. cbn [bind].
  unfold build_results. change (range (-1)) with (@nil nat). cbn [mapM bind].
  match goal with |- exists out, build_output _ _ _ _ ?x = _ /\ _ =>
    destruct (build_output_ok ffm fdm tss pdm x) as (out & -> & E1 & E2 & _)
  end.
  exists out. split; [reflexivity|]. rewrite E1, E2. split; reflexivity.
Qed.

(** ** Reading a run *)

Section RunFacts.
Variables (n : nat) (ffm fdm tss pdm sp : R) (l : locals) (out : output).
Hypothesis Hrun : run n ffm fdm tss pdm sp l out.

Lemma run_traj_facts :
  length (dm_concs l) = Datatypes.S n /\
  nth_error (dm_concs l) 0 = Some fdm /\
  ((1 <= n)%nat -> nth_error (dm_concs l) n = Some pdm) /\
  (forall i, (i < n)%nat ->
     nth_error (dm_concs l) i = Some (INR i * ((pdm - fdm) / INR n) + fdm)).
Proof.
  destruct (linspace_ok fdm pdm n) as (tr & Htr & H).
  rewrite (run_traj _ _ _ _ _ _ _ _ Hrun) in Htr.
  injection Htr as <-. exact H.
Qed.

Lemma run_target (j : nat) :
  (j < n)%nat -> exists c, nth_error (dm_concs l) (j + 1) = Some c.
Proof.
  intros Hj. destruct run_traj_facts as (Hl & _).
  destruct (nth_error (dm_concs l) (j + 1)) as [c|] eqn:E; [eauto|].
  apply nth_error_None in E. lia.
Qed.

Lemma run_stage (j : nat) (c : R) :
  (j < n)%nat -> nth_error (dm_concs l) (j + 1) = Some c ->
  exists pc,
    nth_error (stage_conc_flow (mb l)) j = Some pc /\
    nth_error (stage_conc_flow (mb l)) (j + 1)
      = Some (fst (stage_flows (feed_dm_kgph l) c pc)) /\
    nth_error (stage_vap_kgph (mb l)) j
      = Some (snd (stage_flows (feed_dm_kgph l) c pc)).
Proof.
  intros Hj Hc. pose proof (run_inv _ _ _ _ _ _ _ _ Hrun) as I.
  destruct (nth_error (stage_conc_flow (mb l)) j) as [pc|] eqn:E.
  - exists pc. split; [reflexivity|].
    apply (inv_stage _ _ _ _ _ I j c pc Hj Hc E).
  - apply nth_error_None in E. rewrite (inv_len_conc _ _ _ _ _ I) in E. lia.
Qed.

Lemma run_row (i : nat) (v c : R) :
  (i < n)%nat ->
  nth_error (stage_vap_kgph (mb l)) i = Some v ->
  nth_error (stage_conc_flow (mb l)) (i + 1) = Some c ->
  exists row, nth_error (Effects out) i = Some row /\
    Effect row = (i + 1)%nat /\
    Vapour_Flow_kgph row = int v /\
    Vapour_Flow_m3h row = round (v / 1000) 2 /\
    Concentrate_Flow_kgph row = int c /\
    Concentrate_Flow_m3h row = round (c / 1000) 2.
Proof.
  intros Hi Hv Hc.
  destruct (run_rows _ _ _ _ _ _ _ _ Hrun i Hi)
    as (p & t & b & lm & v' & c' & _ & _ & _ & Hv' & Hc' & Hrow).
  assert (v' = v) by congruence. assert (c' = c) by congruence. subst v' c'.
  exists (row_of i p t b lm v c).
  rewrite (run_effects _ _ _ _ _ _ _ _ Hrun).
  split; [exact Hrow|]. repeat split.
Qed.

Lemma run_error_last (j : nat) (c : R) (msg : string) :
  (j < n)%nat -> nth_error (dm_concs l) (j + 1) = Some c ->
  stage_error (feed_dm_kgph l) c (j + 1) = Some msg ->
  (forall j' c', (j < j' < n)%nat ->
     nth_error (dm_concs l) (j' + 1) = Some c' ->
     ~ stage_fails (feed_dm_kgph l) c') ->
  Error out = msg.
Proof.
  intros Hj Hc Hm Hlater.
  destruct (inv_error _ _ _ _ _ (run_inv _ _ _ _ _ _ _ _ Hrun)
              j c msg Hj Hc Hm Hlater) as [Hf Hmsg].
  rewrite (run_error _ _ _ _ _ _ _ _ Hrun), Hf. exact Hmsg.
Qed.

Lemma run_error_none :
  (forall j c, (j < n)%nat -> nth_error (dm_concs l) (j + 1) = Some c ->
     ~ stage_fails (feed_dm_kgph l) c) ->
  Error out = ""%string.
Proof.
  intros Hno.
  rewrite (run_error _ _ _ _ _ _ _ _ Hrun).
  now rewrite (inv_no_error _ _ _ _ _ (run_inv _ _ _ _ _ _ _ _ Hrun) Hno).
Qed.

End RunFacts.

Lemma run_failed_row (n : nat) (ffm fdm tss pdm sp : R) (l : locals)
    (out : output) (i : nat) (c : R) :
  run n ffm fdm tss pdm sp l out ->
  (i < n)%nat -> nth_error (dm_concs l) (i + 1) = Some c ->
  stage_fails (feed_dm_kgph l) c ->
  exists row, nth_error (Effects out) i = Some row /\
              Effect row = (i + 1)%nat /\ zero_flows row.
Proof.
  intros Hrun Hi Hc Hf.
  destruct (run_stage _ _ _ _ _ _ _ _ Hrun i c Hi Hc) as (pc & _ & H1 & H2).
  rewrite (stage_flows_fails _ _ _ Hf) in H1, H2. simpl in H1, H2.
  destruct (run_row _ _ _ _ _ _ _ _ Hrun i 0 0 Hi H2 H1)
    as (row & Hrow & He & E1 & E2 & E3 & E4).
  exists row. split; [exact Hrow|]. split; [exact He|].
  unfold zero_flows. rewrite E1, E2, E3, E4.
  replace (0 / 1000) with 0 by lra.
  rewrite int_0, round_0. auto.
Qed.

Lemma msg_dm_nonpos_nonempty (k : nat) : msg_dm_nonpos k <> ""%string.
Proof. unfold msg_dm_nonpos. simpl. discriminate. Qed.

Lemma msg_dm_zero_nonempty (k : nat) : msg_dm_zero k <> ""%string.
Proof. unfold msg_dm_zero. simpl. discriminate. Qed.

Lemma stage_error_nonempty (fd c : R) (k : nat) (msg : string) :
  stage_error fd c k = Some msg -> msg <> ""%string.
Proof.
  unfold stage_error.
  destruct (Rle_dec (c / 100) 0);
    [intros [= <-]; apply msg_dm_nonpos_nonempty|].
  destruct (Req_dec_T fd 0); [intros [= <-]; apply msg_dm_zero_nonempty|].
  discriminate.
Qed.

(** Among finitely many stages, a failing one is followed by a last one. *)
Lemma last_such (P : nat -> Prop) (k : nat) :
  (forall j, P j \/ ~ P j) ->
  (exists j, (j < k)%nat /\ P j) ->
  exists j, (j < k)%nat /\ P j /\ forall j', (j < j' < k)%nat -> ~ P j'.
Proof.
  intros dec. induction k as [|k IH]; intros (j & Hj & Pj); [lia|].
  destruct (dec k) as [Pk|NPk].
  - exists k. repeat split; [lia | exact Pk | intros; lia].
  - destruct IH as (j0 & Hj0 & Pj0 & Hlast).
    + exists j. split; [|exact Pj].
      destruct (Nat.eq_dec j k) as [->|]; [contradiction | lia].
    + exists j0. repeat split; [lia | exact Pj0 |].
      intros j' Hj'. destruct (Nat.eq_dec j' k) as [->|]; [exact NPk|].
      apply Hlast. lia.
Qed.

Lemma stage_fails_dec (fd c : R) : stage_fails fd c \/ ~ stage_fails fd c.
Proof.
  unfold stage_fails. destruct (Rle_dec (c / 100) 0); [auto|].
  destruct (Req_dec_T fd 0); [auto | right; intros [H|H]; contradiction].
Qed.

Lemma run_error_nonempty (n : nat) (ffm fdm tss pdm sp : R) (l : locals)
    (out : output) (i : nat) (c : R) :
  run n ffm fdm tss pdm sp l out ->
  (i < n)%nat -> nth_error (dm_concs l) (i + 1) = Some c ->
  stage_fails (feed_dm_kgph l) c ->
  Error out <> ""%string.
Proof.
  intros Hrun Hi Hc Hf.
  set (P := fun j => exists c, nth_error (dm_concs l) (j + 1) = Some c /\
                               stage_fails (feed_dm_kgph l) c).
  destruct (last_such P n) as (j & Hj & (cj & Hcj & Fj) & Hlast).
  - intros j. unfold P.
    destruct (nth_error (dm_concs l) (j + 1)) as [cj|].
    + destruct (stage_fails_dec (feed_dm_kgph l) cj) as [F|F].
      * left. eauto.
      * right. intros (c' & [= <-] & F'). contradiction.
    + right. intros (c' & E & _). discriminate.
  - exists i. split; [exact Hi|]. exists c. auto.
  - apply (stage_error_fails _ _ (j + 1)) in Fj.
    destruct (stage_error (feed_dm_kgph l) cj (j + 1)) as [msg|] eqn:Em;
      [|contradiction].
    rewrite (run_error_last _ _ _ _ _ _ _ _ Hrun j cj msg Hj Hcj Em).
    + apply (stage_error_nonempty _ _ _ _ Em).
    + intros j' c' Hj' Hc' F'. apply (Hlast j' Hj'). exists c'. auto.
Qed.

Lemma run_bpes_len (n : nat) (ffm fdm tss pdm sp : R) (l : locals)
    (out : output) :
  run n ffm fdm tss pdm sp l out -> length (bpes l) = n.
Proof.
  intros Hrun.
  destruct (run_traj_facts _ _ _ _ _ _ _ _ Hrun) as (Hlen & _).
  destruct (compute_bpes_ok n (dm_concs l) tss Hlen) as (bs & Hbs & Hl & _).
  rewrite (run_bpes _ _ _ _ _ _ _ _ Hrun) in Hbs. injection Hbs as <-.
  exact Hl.
Qed.

Lemma run_cascade_at (n : nat) (ffm fdm tss pdm sp : R) (l : locals)
    (out : output) (j : nat) :
  run n ffm fdm tss pdm sp l out -> (j < n)%nat ->
  cascade_at n (steam_temp_c l) (bpes l) (eff_press_kpa l) (bp_temp_c l) j.
Proof.
  intros Hrun Hj.
  destruct (cascade_ok n (steam_temp_c l) (bpes l)
              (run_bpes_len _ _ _ _ _ _ _ _ Hrun))
    as (ep & bp & Hc & _ & _ & Hat).
  rewrite (run_cascade _ _ _ _ _ _ _ _ Hrun) in Hc.
  injection Hc as <- <-. apply Hat, Hj.
Qed.

(** The row of the last effect shows the condenser pressure. *)
Lemma run_last_row_pressure (n : nat) (ffm fdm tss pdm sp : R) (l : locals)
    (out : output) :
  run n ffm fdm tss pdm sp l out -> (1 <= n)%nat ->
  exists row, nth_error (Effects out) (n - 1) = Some row /\
              Abs_Pressure_kPa row = 25.
Proof.
  intros Hrun Hn.
  destruct (run_rows _ _ _ _ _ _ _ _ Hrun (n - 1)%nat ltac:(lia))
    as (p & t & b & lm & v & c & Hp & _ & _ & _ & _ & Hrow).
  destruct (run_cascade_at n _ _ _ _ _ l out (n - 1) Hrun ltac:(lia))
    as (b' & t' & p' & _ & _ & Hp' & H).
  replace (Datatypes.S (n - 1) =? n)%nat with true in H
    by (symmetry; apply Nat.eqb_eq; lia).
  destruct H as [-> _].
  assert (p = 25) by congruence. subst p.
  exists (row_of (n - 1) 25 t b lm v c).
  rewrite (run_effects _ _ _ _ _ _ _ _ Hrun). split; [exact Hrow|].
  cbn [row_of Abs_Pressure_kPa]. unfold round.
  replace (25 * 10 ^ 1) with (IZR 250) by (simpl; lra).
  rewrite rint_IZR. simpl. lra.
Qed.

(** Two runs that differ only in the steam pressure share the trajectory
    and the boiling-point elevations. *)
Lemma run_same_feed (n : nat) (ffm fdm tss pdm p1 p2 : R)
    (l1 l2 : locals) (o1 o2 : output) :
  run n ffm fdm tss pdm p1 l1 o1 -> run n ffm fdm tss pdm p2 l2 o2 ->
  dm_concs l1 = dm_concs l2 /\ bpes l1 = bpes l2.
Proof.
  intros R1 R2.
  pose proof (run_traj _ _ _ _ _ _ _ _ R1) as T1.
  pose proof (run_traj _ _ _ _ _ _ _ _ R2) as T2.
  assert (E : dm_concs l1 = dm_concs l2) by congruence.
  split; [exact E|].
  pose proof (run_bpes _ _ _ _ _ _ _ _ R1) as B1.
  pose proof (run_bpes _ _ _ _ _ _ _ _ R2) as B2.
  rewrite E in B1. congruence.
Qed.

Lemma run_bp_closed_form (n : nat) (ffm fdm tss pdm sp : R) (l : locals)
    (out : output) (b_last : R) (i : nat) :
  run n ffm fdm tss pdm sp l out ->
  nth_error (bpes l) (n - 1) = Some b_last -> (i < n)%nat ->
  nth_error (bp_temp_c l) i
  = Some (Some (water_bp_temp 25 + b_last
                + INR (n - 1 - i)
                  * ((steam_temp_c l - (water_bp_temp 25 + b_last)) / INR n))).
Proof.
  intros Hrun Hbl Hi.
  assert (Hat : forall j, (j < n)%nat ->
            cascade_at n (steam_temp_c l) (bpes l) (eff_press_kpa l)
              (bp_temp_c l) j)
    by (intros j Hj; apply (run_cascade_at n _ _ _ _ _ l out j Hrun Hj)).
  rewrite <- (cascade_closed_form n (steam_temp_c l) (bpes l)
                (eff_press_kpa l) (bp_temp_c l) b_last Hbl Hat) by lia.
  f_equal. lia.
Qed.

(** The run on 2 effects, feed flow 1 m3/h, feed dry matter -5 %, product
    dry matter 5 %: effect 1 has target 0 and fails, effect 2 has target 5
    and computes its flows from the carried dry-matter mass. *)
Lemma run_neg5_to_5 :
  exists l out row,
    evaporator_locals 2 1 (-5) 0 25 5 1 = Ok l /\
    evaporator_calc 2 1 (-5) 0 25 5 1 = Ok out /\
    nth_error (dm_concs l) 1 = Some 0 /\
    Error out = "Error: Dry matter in effect 1 is zero or negative."%string /\
    nth_error (Effects out) 1 = Some row /\
    Effect row = 2%nat /\
    Vapour_Flow_kgph row = 1000%Z /\
    Concentrate_Flow_kgph row = (-1000)%Z /\
    Abs_Pressure_kPa row = 25.
Proof.
  destruct (evaporator_calc_run 2 1 (-5) 0 25 5 1)
    as (l & out & Hl & Hout & Hrun).
  destruct (run_last_row_pressure _ _ _ _ _ _ _ _ Hrun ltac:(lia))
    as (row' & Hrow' & Hp').
  destruct (run_traj_facts _ _ _ _ _ _ _ _ Hrun) as (_ & _ & Hlast & Hmid).
  assert (H1 : nth_error (dm_concs l) 1 = Some 0).
  { rewrite (Hmid 1%nat) by lia. f_equal. simpl. field. }
  pose proof (Hlast ltac:(lia)) as H2.
  pose proof (run_fd _ _ _ _ _ _ _ _ Hrun) as Hfd.
  destruct (run_stage _ _ _ _ _ _ _ _ Hrun 0 _ ltac:(lia) H1)
    as (pc & _ & Hc1 & _).
  rewrite stage_flows_fails in Hc1 by (left; lra).
  simpl fst in Hc1. cbn [Nat.add] in Hc1.
  destruct (run_stage _ _ _ _ _ _ _ _ Hrun 1 _ ltac:(lia) H2)
    as (pc1 & Hpc1 & Hc2 & Hv1).
  assert (pc1 = 0) by congruence. subst pc1.
  rewrite stage_flows_ok in Hc2, Hv1 by (rewrite ?Hfd; lra).
  simpl fst in Hc2. simpl snd in Hv1.
  destruct (run_row _ _ _ _ _ _ _ _ Hrun 1 _ _ ltac:(lia) Hv1 Hc2)
    as (row & Hrow & He & Ev & _ & Ec & _).
  exists l, out, row. repeat split; try assumption.
  - apply (run_error_last _ _ _ _ _ _ _ _ Hrun 0 0); [lia | exact H1 | |].
    + unfold stage_error. destruct (Rle_dec (0 / 100) 0); [reflexivity | lra].
    + intros j' c' Hj' Hc'. assert (j' = 1%nat) by lia. subst j'.
      cbn [Nat.add] in Hc'. assert (c' = 5) by congruence. subst c'.
      unfold stage_fails. rewrite Hfd. lra.
  - rewrite Ev, Hfd. apply int_eq. field.
  - rewrite Ec, Hfd. apply int_eq. field.
  - change (2 - 1)%nat with 1%nat in Hrow'. congruence.
Qed.

(* ================================================================== *)
(** * Monotonicity of the interpolation tables *)
(* ================================================================== *)

Section Interp.

Lemma segment_slope (x0 y0 x1 y1 : R) :
  x0 < x1 -> y0 < y1 ->
  0 < (y1 - y0) / (x1 - x0) /\
  (y1 - y0) / (x1 - x0) * (x1 - x0) = y1 - y0.
Proof.
  intros Hx Hy. split.
  - apply Rdiv_lt_0_compat; lra.
  - field. lra.
Qed.

Lemma interp_from_lb (pts : list (R * R)) :
  forall x x0 y0, ascending_from x0 y0 pts -> x0 <= x ->
    y0 <= interp_from x x0 y0 pts.
Proof.
  induction pts as [|[x1 y1] rest IH]; intros x x0 y0 Hasc Hx; simpl.
  - lra.
  - destruct Hasc as (Hx1 & Hy1 & Hrest).
    destruct (segment_slope x0 y0 x1 y1 Hx1 Hy1) as [Hs _].
    destruct (Rlt_dec x x1) as [Hlt|Hge].
    + assert (0 <= (y1 - y0) / (x1 - x0) * (x - x0))
        by (apply Rmult_le_pos; lra).
      lra.
    + specialize (IH x x1 y1 Hrest ltac:(lra)). lra.
Qed.

Lemma interp_from_mono (pts : list (R * R)) :
  forall x x' x0 y0, ascending_from x0 y0 pts -> x0 <= x -> x <= x' ->
    interp_from x x0 y0 pts <= interp_from x' x0 y0 pts.
Proof.
  induction pts as [|[x1 y1] rest IH]; intros x x' x0 y0 Hasc Hx Hxx'; simpl.
  - lra.
  - destruct Hasc as (Hx1 & Hy1 & Hrest).
    destruct (segment_slope x0 y0 x1 y1 Hx1 Hy1) as [Hs Hfull].
    set (s := (y1 - y0) / (x1 - x0)) in *.
    destruct (Rlt_dec x x1) as [Hlt|Hge];
      destruct (Rlt_dec x' x1) as [Hlt'|Hge']; try lra.
    + assert (s * (x - x0) <= s * (x' - x0))
        by (apply Rmult_le_compat_l; lra).
      lra.
    + pose proof (interp_from_lb rest x' x1 y1 Hrest ltac:(lra)).
      assert (s * (x - x0) <= s * (x1 - x0))
        by (apply Rmult_le_compat_l; lra).
      lra.
    + apply IH; [exact Hrest | lra | lra].
Qed.

Lemma interp_from_strict (pts : list (R * R)) :
  forall x x' x0 y0, ascending_from x0 y0 pts ->
    x0 <= x -> x < x' -> x' <= last_x x0 pts ->
    interp_from x x0 y0 pts < interp_from x' x0 y0 pts.
Proof.
  induction pts as [|[x1 y1] rest IH];
    intros x x' x0 y0 Hasc Hx Hxx' Hlast; simpl in *.
  - lra.
  - destruct Hasc as (Hx1 & Hy1 & Hrest).
    destruct (segment_slope x0 y0 x1 y1 Hx1 Hy1) as [Hs Hfull].
    set (s := (y1 - y0) / (x1 - x0)) in *.
    destruct (Rlt_dec x x1) as [Hlt|Hge];
      destruct (Rlt_dec x' x1) as [Hlt'|Hge']; try lra.
    + assert (s * (x - x0) < s * (x' - x0))
        by (apply Rmult_lt_compat_l; lra).
      lra.
    + pose proof (interp_from_lb rest x' x1 y1 Hrest ltac:(lra)).
      assert (s * (x - x0) < s * (x1 - x0))
        by (apply Rmult_lt_compat_l; lra).
      lra.
    + apply IH; [exact Hrest | lra | lra | exact Hlast].
Qed.

Lemma interp_pts_mono (pts : list (R * R)) (x x' : R) :
  ascending pts -> x <= x' -> interp_pts x pts <= interp_pts x' pts.
Proof.
  destruct pts as [|[x0 y0] rest]; simpl; intros Hasc Hxx'; [lra|].
  destruct (Rlt_dec x x0) as [Hlt|Hge];
    destruct (Rlt_dec x' x0) as [Hlt'|Hge']; try lra.
  - apply interp_from_lb; [exact Hasc | lra].
  - apply interp_from_mono; [exact Hasc | lra | exact Hxx'].
Qed.

Lemma interp_pts_strict (x0 y0 : R) (rest : list (R * R)) (x x' : R) :
  ascending_from x0 y0 rest ->
  x0 <= x -> x < x' -> x' <= last_x x0 rest ->
  interp_pts x ((x0, y0) :: rest) < interp_pts x' ((x0, y0) :: rest).
Proof.
  simpl. intros Hasc Hx Hxx' Hlast.
  destruct (Rlt_dec x x0); destruct (Rlt_dec x' x0); try lra.
  apply interp_from_strict; assumption.
Qed.

End Interp.

Lemma water_bp_temp_pts (p : R) : water_bp_temp p = interp_pts p bp_table.
Proof. reflexivity. Qed.

Lemma bp_table_ascending : ascending bp_table.
Proof. simpl. repeat split; lra. Qed.

(** The steam table is non-decreasing everywhere ... *)
Lemma water_bp_temp_mono (p p' : R) :
  p <= p' -> water_bp_temp p <= water_bp_temp p'.
Proof.
  intros H. rewrite !water_bp_temp_pts.
  apply interp_pts_mono; [apply bp_table_ascending | exact H].
Qed.

(** ... strictly increasing between its end points 0.6 and 500 kPa ... *)
Lemma water_bp_temp_strict (p p' : R) :
  0.6 <= p -> p < p' -> p' <= 500 -> water_bp_temp p < water_bp_temp p'.
Proof.
  intros H1 H2 H3. rewrite !water_bp_temp_pts. unfold bp_table.
  apply interp_pts_strict; [apply bp_table_ascending | lra | lra |].
  simpl. lra.
Qed.

(** ... and constant from 500 kPa on. *)
Lemma water_bp_temp_clamped (p : R) : 500 <= p -> water_bp_temp p = 151.
Proof.
  intros H. rewrite water_bp_temp_pts. unfold bp_table, interp_pts, interp_from.
  repeat match goal with
         | |- context [Rlt_dec ?a ?b] => destruct (Rlt_dec a b); [lra|]
         end.
  reflexivity.
Qed.

(* ================================================================== *)
(** * Powers of ten and the grid of the round trip *)
(* ================================================================== *)

Lemma pw_scale_pos : 0 < IZR pw_scale.
Proof. apply IZR_lt. reflexivity. Qed.

Lemma Rpower_half (y : R) :
  Rpower 10 (y / 2) * Rpower 10 (y / 2) = Rpower 10 y.
Proof. rewrite <- Rpower_plus. f_equal. field. Qed.

Lemma root_bounds_sound (m : nat) :
  brackets (root_bounds m) (Rpower 10 (/ 2 ^ m)).
Proof.
  pose proof pw_scale_pos as HS.
  induction m as [|m IH].
  - unfold brackets. cbn [root_bounds fst snd].
    change (2 ^ 0) with 1. rewrite Rinv_1, Rpower_1 by lra.
    rewrite mult_IZR. split; [discriminate|].
    split; right; field; lra.
  - cbn [root_bounds]. destruct (root_bounds m) as [l u].
    destruct IH as (Hl & Hlo & Hhi). cbn [fst snd] in *.
    set (y := Rpower 10 (/ 2 ^ Datatypes.S m)).
    assert (Hy : 0 < y) by (apply exp_pos).
    assert (Hyy : y * y = Rpower 10 (/ 2 ^ m)).
    { unfold y. replace (/ 2 ^ Datatypes.S m) with (/ 2 ^ m / 2).
      - apply Rpower_half.
      - simpl. field. apply pow_nonzero. lra. }
    assert (Hu : (0 <= u)%Z).
    { apply le_IZR. apply Rmult_le_reg_r with (/ IZR pw_scale).
      - apply Rinv_0_lt_compat, HS.
      - rewrite Rmult_0_l. unfold Rdiv in Hhi.
        pose proof (exp_pos (/ 2 ^ m * ln 10)). unfold Rpower in Hhi. lra. }
    pose proof (Z.sqrt_spec (l * pw_scale) ltac:(unfold pw_scale in *; lia))
      as [Sl _].
    pose proof (Z.sqrt_spec (u * pw_scale) ltac:(unfold pw_scale in *; lia))
      as [_ Su].
    pose proof (Z.sqrt_nonneg (l * pw_scale)) as Nl.
    pose proof (Z.sqrt_nonneg (u * pw_scale)) as Nu.
    set (sl := Z.sqrt (l * pw_scale)) in *.
    set (su := Z.sqrt (u * pw_scale)) in *.
    apply IZR_le in Sl. apply IZR_lt in Su.
    rewrite !mult_IZR in Sl. rewrite !mult_IZR in Su.
    unfold Z.succ in Su. fold (su + 1)%Z in Su.
    unfold brackets. cbn [fst snd].
    split; [exact Nl|]. split.
    + apply Rsqr_incr_0; [| apply Rmult_le_pos;
                             [apply IZR_le; exact Nl
                             | left; apply Rinv_0_lt_compat, HS]
                          | lra].
      unfold Rsqr. rewrite Hyy.
      apply Rle_trans with (IZR l / IZR pw_scale); [|exact Hlo].
      apply Rmult_le_reg_r with (IZR pw_scale * IZR pw_scale);
        [apply Rmult_lt_0_compat; exact HS|].
      replace (IZR sl / IZR pw_scale * (IZR sl / IZR pw_scale)
               * (IZR pw_scale * IZR pw_scale)) with (IZR sl * IZR sl)
        by (field; lra).
      replace (IZR l / IZR pw_scale * (IZR pw_scale * IZR pw_scale))
        with (IZR l * IZR pw_scale) by (field; lra).
      exact Sl.
    + apply Rsqr_incr_0; [| lra
                          | apply Rmult_le_pos;
                             [apply IZR_le; lia
                             | left; apply Rinv_0_lt_compat, HS]].
      unfold Rsqr. rewrite Hyy.
      apply Rle_trans with (IZR u / IZR pw_scale); [exact Hhi|].
      apply Rmult_le_reg_r with (IZR pw_scale * IZR pw_scale);
        [apply Rmult_lt_0_compat; exact HS|].
      replace (IZR (su + 1) / IZR pw_scale * (IZR (su + 1) / IZR pw_scale)
               * (IZR pw_scale * IZR pw_scale))
        with (IZR (su + 1) * IZR (su + 1)) by (field; lra).
      replace (IZR u / IZR pw_scale * (IZR pw_scale * IZR pw_scale))
        with (IZR u * IZR pw_scale) by (field; lra).
      left. exact Su.
Qed.

Section Powers.
Variables (rl ru : Z) (rho : R).
Hypothesis Hrho : brackets (rl, ru) rho.

Lemma pw_step_sound (lu : Z * Z) (y : R) :
  brackets lu y -> brackets (pw_step rl ru lu) (y * rho).
Proof.
  pose proof pw_scale_pos as HS.
  destruct lu as [l u]. destruct Hrho as (Hrl & Hrlo & Hrhi).
  intros (Hl & Hlo & Hhi). cbn [fst snd] in *.
  assert (HSz : (0 < pw_scale)%Z) by reflexivity.
  pose proof (Z.mul_div_le (l * rl) pw_scale HSz) as Dl.
  pose proof (Z.mul_succ_div_gt (u * ru) pw_scale HSz) as Du.
  unfold Z.succ in Du.
  apply IZR_le in Dl. apply IZR_lt in Du.
  rewrite !mult_IZR in Dl. rewrite !mult_IZR in Du.
  assert (Hl0 : 0 <= IZR l) by (apply IZR_le; exact Hl).
  assert (Hrl0 : 0 <= IZR rl) by (apply IZR_le; exact Hrl).
  assert (Hy0 : 0 <= y).
  { apply Rle_trans with (IZR l / IZR pw_scale); [|exact Hlo].
    apply Rmult_le_pos; [exact Hl0 | left; apply Rinv_0_lt_compat, HS]. }
  assert (Hr0 : 0 <= rho).
  { apply Rle_trans with (IZR rl / IZR pw_scale); [|exact Hrlo].
    apply Rmult_le_pos; [exact Hrl0 | left; apply Rinv_0_lt_compat, HS]. }
  unfold brackets, pw_step. cbn [fst snd].
  split;
    [apply Z.div_pos; [apply Z.mul_nonneg_nonneg; assumption | exact HSz]|].
  split.
  - apply Rle_trans
      with (IZR l / IZR pw_scale * (IZR rl / IZR pw_scale)).
    + apply Rmult_le_reg_r with (IZR pw_scale * IZR pw_scale);
        [apply Rmult_lt_0_compat; exact HS|].
      replace (IZR l / IZR pw_scale * (IZR rl / IZR pw_scale)
               * (IZR pw_scale * IZR pw_scale)) with (IZR l * IZR rl)
        by (field; lra).
      replace (IZR (l * rl / pw_scale) / IZR pw_scale
               * (IZR pw_scale * IZR pw_scale))
        with (IZR pw_scale * IZR (l * rl / pw_scale)) by (field; lra).
      exact Dl.
    + apply Rmult_le_compat; try assumption.
      * apply Rmult_le_pos; [exact Hl0 | left; apply Rinv_0_lt_compat, HS].
      * apply Rmult_le_pos; [exact Hrl0 | left; apply Rinv_0_lt_compat, HS].
  - apply Rle_trans
      with (IZR u / IZR pw_scale * (IZR ru / IZR pw_scale)).
    + apply Rmult_le_compat; assumption.
    + apply Rmult_le_reg_r with (IZR pw_scale * IZR pw_scale);
        [apply Rmult_lt_0_compat; exact HS|].
      replace (IZR u / IZR pw_scale * (IZR ru / IZR pw_scale)
               * (IZR pw_scale * IZR pw_scale)) with (IZR u * IZR ru)
        by (field; lra).
      replace (IZR (u * ru / pw_scale + 1) / IZR pw_scale
               * (IZR pw_scale * IZR pw_scale))
        with (IZR pw_scale * IZR (u * ru / pw_scale + 1)) by (field; lra).
      left. exact Du.
Qed.

Lemma pw_bounds_sound (k : nat) :
  brackets (pw_bounds rl ru k) (rho ^ k).
Proof.
  pose proof pw_scale_pos as HS.
  induction k as [|k IH].
  - unfold brackets. cbn [pw_bounds fst snd pow].
    split; [discriminate|]. split; right; field; lra.
  - cbn [pw_bounds]. rewrite <- tech_pow_Rmult, Rmult_comm.
    apply pw_step_sound, IH.
Qed.

End Powers.

Lemma Rpower_root_pow (m k : nat) :
  Rpower 10 (/ 2 ^ m) ^ k = Rpower 10 (INR k / 2 ^ m).
Proof.
  rewrite <- Rpower_pow by apply exp_pos.
  rewrite Rpower_mult. f_equal. field. apply pow_nonzero. lra.
Qed.

(** The bounds of [10^(k/2^m)] the checker uses. *)
Lemma pw_bounds_ten (m k : nat) :
  brackets (pw_bounds (fst (root_bounds m)) (snd (root_bounds m)) k)
           (Rpower 10 (INR k / 2 ^ m)).
Proof.
  rewrite <- Rpower_root_pow.
  apply pw_bounds_sound.
  pose proof (root_bounds_sound m) as H.
  destruct (root_bounds m); exact H.
Qed.

Lemma interpQ_from_Q2R (pts : list (Q * Q)) :
  forall x x0 y0, ascQ_from x0 pts ->
    Q2R (interpQ_from x x0 y0 pts)
    = interp_from (Q2R x) (Q2R x0) (Q2R y0) (map q2r2 pts).
Proof.
  induction pts as [|[x1 y1] rest IH]; intros x x0 y0 Hasc; simpl.
  - reflexivity.
  - destruct Hasc as [Hx Hrest]. unfold q2r2 at 1. cbn [fst snd].
    destruct (Qlt_le_dec x x1) as [Hlt|Hge];
      destruct (Rlt_dec (Q2R x) (Q2R x1)) as [Hlt'|Hge'].
    + rewrite Q2R_plus, Q2R_mult, Q2R_div, !Q2R_minus; [reflexivity|].
      intros E. apply Qlt_Rlt in Hx. apply Qeq_eqR in E.
      rewrite Q2R_minus, RMicromega.Q2R_0 in E. lra.
    + exfalso. apply Hge'. apply Qlt_Rlt, Hlt.
    + exfalso. apply Qle_Rle in Hge. lra.
    + apply IH, Hrest.
Qed.

Lemma interpQ_pts_Q2R (x x0 y0 : Q) (rest : list (Q * Q)) :
  ascQ_from x0 rest ->
  Q2R (interpQ_pts x ((x0, y0) :: rest))
  = interp_pts (Q2R x) (map q2r2 ((x0, y0) :: rest)).
Proof.
  intros Hasc. simpl. unfold q2r2 at 1. cbn [fst snd].
  destruct (Qlt_le_dec x x0) as [Hlt|Hge];
    destruct (Rlt_dec (Q2R x) (Q2R x0)) as [Hlt'|Hge'].
  - reflexivity.
  - exfalso. apply Hge'. apply Qlt_Rlt, Hlt.
  - exfalso. apply Qle_Rle in Hge. lra.
  - apply interpQ_from_Q2R, Hasc.
Qed.

Lemma bp_tableQ_R : map q2r2 bp_tableQ = bp_table.
Proof.
  unfold bp_tableQ, bp_table, q2r2. cbn [map fst snd].
  repeat (apply f_equal2;
          [apply f_equal2; unfold Q2R; cbn [Qnum Qden]; lra|]).
  reflexivity.
Qed.

Lemma water_bp_temp_Q (x : Q) :
  water_bp_temp (Q2R x) = Q2R (interpQ_pts x bp_tableQ).
Proof.
  rewrite water_bp_temp_pts, <- bp_tableQ_R. unfold bp_tableQ.
  rewrite interpQ_pts_Q2R; [reflexivity|].
  cbn [ascQ_from]. repeat split.
Qed.

Lemma water_bp_kpa_eq (T : R) :
  water_bp_kpa T = Rpower 10 (8.07131 - 1730.63 / (T + 233.426)) * 0.133322.
Proof. reflexivity. Qed.

(** One cell of the grid, on the reals: when the Antoine exponent of [T]
    lies in [[q, q']], bounds of [10^q] and [10^q'] bound the pressure, the
    monotone table bounds the temperature read back, and the exponent bounds
    bound [T] itself. *)
Lemma cell_sound (T q q' pl pu glo ghi tol : R) :
  0 < T + 233.426 -> q' < 8.07131 -> q <= q' ->
  q <= 8.07131 - 1730.63 / (T + 233.426) <= q' ->
  pl <= Rpower 10 q -> Rpower 10 q' <= pu ->
  glo = water_bp_temp (pl * 0.133322) ->
  ghi = water_bp_temp (pu * 0.133322) ->
  (ghi - tol + 233.426) * (8.07131 - q) <= 1730.63 ->
  1730.63 <= (glo + tol + 233.426) * (8.07131 - q') ->
  Rabs (water_bp_temp (water_bp_kpa T) - T) <= tol.
Proof.
  intros HT Hq' Hqq' [Hx1 Hx2] Hpl Hpu -> -> Hhi Hlo.
  rewrite water_bp_kpa_eq.
  set (x := 8.07131 - 1730.63 / (T + 233.426)) in *.
  assert (P1 : Rpower 10 q <= Rpower 10 x) by (apply Rle_Rpower; lra).
  assert (P2 : Rpower 10 x <= Rpower 10 q') by (apply Rle_Rpower; lra).
  assert (G1 : water_bp_temp (pl * 0.133322)
               <= water_bp_temp (Rpower 10 x * 0.133322))
    by (apply water_bp_temp_mono; lra).
  assert (G2 : water_bp_temp (Rpower 10 x * 0.133322)
               <= water_bp_temp (pu * 0.133322))
    by (apply water_bp_temp_mono; lra).
  set (g := water_bp_temp (Rpower 10 x * 0.133322)) in *.
  set (glo := water_bp_temp (pl * 0.133322)) in *.
  set (ghi := water_bp_temp (pu * 0.133322)) in *.
  set (d := 1730.63 / (T + 233.426)) in *.
  assert (Hd : d * (T + 233.426) = 1730.63) by (unfold d; field; lra).
  assert (U : ghi - tol <= T).
  { assert (E : (ghi - tol + 233.426) * (8.07131 - q)
                <= (T + 233.426) * (8.07131 - q)).
    { apply Rle_trans with 1730.63; [exact Hhi|].
      rewrite <- Hd. rewrite Rmult_comm.
      apply Rmult_le_compat_l; [lra | unfold x in Hx1; lra]. }
    apply Rmult_le_reg_r in E; lra. }
  assert (L : T <= glo + tol).
  { assert (E : (T + 233.426) * (8.07131 - q')
                <= (glo + tol + 233.426) * (8.07131 - q')).
    { apply Rle_trans with 1730.63; [|exact Hlo].
      rewrite <- Hd. rewrite Rmult_comm.
      apply Rmult_le_compat_r; [lra | unfold x in Hx2; lra]. }
    apply Rmult_le_reg_r in E; lra. }
  apply Rabs_le. lra.
Qed.

Lemma Q2R_make (z : Z) (p : positive) : Q2R (z # p) = IZR z / IZR (Z.pos p).
Proof. reflexivity. Qed.

Lemma check_cell_sound (k k' l u' : Z) (T : R) :
  check_cell k k' l u' = true ->
  (k <= k')%Z ->
  IZR l / IZR pw_scale <= Rpower 10 (IZR k / 2048) ->
  Rpower 10 (IZR k' / 2048) <= IZR u' / IZR pw_scale ->
  0 < T + 233.426 ->
  IZR k / 2048 <= 8.07131 - 1730.63 / (T + 233.426) <= IZR k' / 2048 ->
  Rabs (water_bp_temp (water_bp_kpa T) - T) <= 1.2.
Proof.
  unfold check_cell. intros Hc Hkk Hl Hu HT Hx. cbv zeta in Hc.
  apply andb_prop in Hc. destruct Hc as [Hc H3].
  apply andb_prop in Hc. destruct Hc as [H1 H2].
  apply RMicromega.Qle_true in H1. apply RMicromega.Qle_true in H2.
  apply negb_true_iff in H3.
  assert (H3' : Q2R (k' # 2048) < Q2R antoine_A).
  { apply Qlt_Rlt. apply Qnot_le_lt. intros E.
    apply Qle_bool_iff in E. congruence. }
  rewrite !Q2R_mult, ?Q2R_plus, !Q2R_minus in H1.
  rewrite !Q2R_mult, ?Q2R_plus, !Q2R_minus in H2.
  rewrite ?Q2R_plus in H1, H2.
  rewrite <- !water_bp_temp_Q in H1. rewrite <- !water_bp_temp_Q in H2.
  rewrite !Q2R_mult in H1, H2.
  rewrite !Q2R_make in H1, H2, H3'.
  change (Z.pos (Z.to_pos pw_scale)) with pw_scale in H1, H2.
  assert (EA : Q2R antoine_A = 8.07131)
    by (unfold Q2R, antoine_A; cbn [Qnum Qden]; lra).
  assert (EB : Q2R antoine_B = 1730.63)
    by (unfold Q2R, antoine_B; cbn [Qnum Qden]; lra).
  assert (EC : Q2R antoine_C = 233.426)
    by (unfold Q2R, antoine_C; cbn [Qnum Qden]; lra).
  assert (Ec : Q2R mmHg_kPa = 0.133322)
    by (unfold Q2R, mmHg_kPa; cbn [Qnum Qden]; lra).
  assert (Et : Q2R round_trip_tol = 1.2)
    by (unfold Q2R, round_trip_tol; cbn [Qnum Qden]; lra).
  rewrite EA, EB, EC, Ec, Et in *.
  rewrite ?Q2R_make in H1, H2.
  apply (cell_sound T (IZR k / 2048) (IZR k' / 2048)
           (IZR l / IZR pw_scale) (IZR u' / IZR pw_scale)
           (water_bp_temp (IZR l / IZR pw_scale * 0.133322))
           (water_bp_temp (IZR u' / IZR pw_scale * 0.133322)) 1.2
           HT H3'); try assumption; try reflexivity.
  apply IZR_le in Hkk. lra.
Qed.

Lemma scan_sound (rl ru w : Z) :
  (0 <= w)%Z ->
  brackets (rl, ru) (Rpower 10 (IZR w / 2048)) ->
  forall fuel k lu,
    brackets lu (Rpower 10 (IZR k / 2048)) ->
    scan rl ru w fuel k lu = true ->
    forall i T, (i < fuel)%nat ->
      (grid_first <= k + w * Z.of_nat i)%Z ->
      0 < T + 233.426 ->
      IZR (k + w * Z.of_nat i) / 2048
        <= 8.07131 - 1730.63 / (T + 233.426)
        <= IZR (k + w * Z.of_nat i + w) / 2048 ->
      Rabs (water_bp_temp (water_bp_kpa T) - T) <= 1.2.
Proof.
  intros Hw Hrho.
  induction fuel as [|fuel IH]; intros k lu Hlu Hs i T Hi Hk HT Hx; [lia|].
  cbn [scan] in Hs. apply andb_prop in Hs. destruct Hs as [Hc Hs].
  assert (Hlu' : brackets (pw_step rl ru lu)
                   (Rpower 10 (IZR (k + w) / 2048))).
  { replace (Rpower 10 (IZR (k + w) / 2048))
      with (Rpower 10 (IZR k / 2048) * Rpower 10 (IZR w / 2048)).
    - apply (pw_step_sound rl ru _ Hrho), Hlu.
    - rewrite <- Rpower_plus. f_equal. rewrite plus_IZR. field. }
  destruct i as [|i].
  - replace (k + w * Z.of_nat 0)%Z with k in * by lia.
    replace (grid_first <=? k)%Z with true in Hc
      by (symmetry; apply Z.leb_le; exact Hk).
    apply (check_cell_sound k (k + w) (fst lu) (snd (pw_step rl ru lu)) T Hc);
      try assumption.
    + lia.
    + apply Hlu.
    + apply Hlu'.
  - replace (k + w * Z.of_nat (Datatypes.S i))%Z
      with (k + w + w * Z.of_nat i)%Z in * by lia.
    apply (IH (k + w)%Z (pw_step rl ru lu) Hlu' Hs i T); try assumption. lia.
Qed.

Lemma root_brackets (m : nat) (w : Z) :
  IZR w * 2 ^ m = 2048 ->
  brackets (fst (root_bounds m), snd (root_bounds m))
           (Rpower 10 (IZR w / 2048)).
Proof.
  intros E. rewrite <- surjective_pairing.
  replace (IZR w / 2048) with (/ 2 ^ m).
  - apply root_bounds_sound.
  - rewrite <- E. field. split; [apply pow_nonzero; lra|].
    intros E0. rewrite E0 in E. lra.
Qed.

Lemma coarse_root_brackets :
  brackets (fst (root_bounds coarse_log), snd (root_bounds coarse_log))
           (Rpower 10 (IZR 8 / 2048)).
Proof. apply root_brackets. unfold coarse_log. simpl. lra. Qed.

Lemma fine_root_brackets :
  brackets (fst (root_bounds fine_log), snd (root_bounds fine_log))
           (Rpower 10 (IZR 1 / 2048)).
Proof. apply root_brackets. unfold fine_log. simpl. lra. Qed.

Lemma grid_start_brackets :
  brackets (pw_scale, pw_scale) (Rpower 10 (IZR 0 / 2048)).
Proof.
  unfold brackets. cbn [fst snd]. pose proof pw_scale_pos.
  replace (IZR 0 / 2048) with 0 by lra. rewrite Rpower_O by lra.
  split; [discriminate|]. split; right; field; lra.
Qed.

Lemma fine_start_brackets :
  brackets (pw_bounds (fst (root_bounds coarse_log))
              (snd (root_bounds coarse_log)) coarse_cells)
           (Rpower 10 (IZR fine_start / 2048)).
Proof.
  replace (IZR fine_start / 2048) with (INR coarse_cells / 2 ^ coarse_log).
  - apply pw_bounds_ten.
  - unfold coarse_cells, coarse_log, fine_start.
    rewrite INR_IZR_INZ. simpl. lra.
Qed.

Lemma coarse_cells_checked :
  scan (fst (root_bounds coarse_log)) (snd (root_bounds coarse_log)) 8
       coarse_cells 0 (pw_scale, pw_scale) = true.
Proof. vm_cast_no_check (eq_refl true). Qed.

Lemma fine_cells_checked :
  scan (fst (root_bounds fine_log)) (snd (root_bounds fine_log)) 1
       fine_cells fine_start
       (pw_bounds (fst (root_bounds coarse_log))
          (snd (root_bounds coarse_log)) coarse_cells) = true.
Proof. vm_cast_no_check (eq_refl true). Qed.

(** Every exponent reached from [10 <= T <= 90] lies in a cell of one unit
    between [grid_first] and [grid_last]. *)
Lemma grid_covers (T : R) :
  10 <= T <= 90 ->
  exists j : Z,
    (grid_first <= j)%Z /\ (j < grid_last)%Z /\
    (IZR j / 2048 <= 8.07131 - 1730.63 / (T + 233.426)
                  <= IZR (j + 1) / 2048).
Proof.
  intros [H10 H90].
  set (x := 8.07131 - 1730.63 / (T + 233.426)).
  assert (Hx10 : 8.07131 - 1730.63 / (10 + 233.426) <= x).
  { unfold x. apply Rplus_le_compat_l, Ropp_le_contravar.
    unfold Rdiv. apply Rmult_le_compat_l; [lra|].
    apply Rinv_le_contravar; lra. }
  assert (Hx90 : x <= 8.07131 - 1730.63 / (90 + 233.426)).
  { unfold x. apply Rplus_le_compat_l, Ropp_le_contravar.
    unfold Rdiv. apply Rmult_le_compat_l; [lra|].
    apply Rinv_le_contravar; lra. }
  assert (Hlo : 1969 / 2048 <= x) by lra.
  assert (Hhi : x < 5572 / 2048) by lra.
  set (j := Int_part (x * 2048)).
  destruct (base_Int_part (x * 2048)) as [J1 J2]. fold j in J1, J2.
  exists j. split; [|split].
  - apply Z.lt_succ_r. apply lt_IZR. unfold Z.succ, grid_first.
    rewrite plus_IZR. lra.
  - apply lt_IZR. unfold grid_last. lra.
  - rewrite plus_IZR. lra.
Qed.

Lemma pressure_at_89_checked :
  Qle_bool (1801 # 20)
    (interpQ_pts
       (Qmake (fst (pw_bounds (fst (root_bounds coarse_log))
                      (snd (root_bounds coarse_log)) 692))
              (Z.to_pos pw_scale) * mmHg_kPa)
       bp_tableQ) = true.
Proof. vm_cast_no_check (eq_refl true). Qed.

(* ================================================================== *)
(** * The properties of the engine *)
(* ================================================================== *)

(** [C1] fails as the specification states it: on 2 effects, feed flow 1
    m3/h, feed dry matter 10 %, product dry matter 0 %, the targets are 5
    and 0 %. The report carries the message of effect 2, not of effect 1,
    and the row of effect 1 has non-zero flows. *)
Lemma C1_counterexample :
  exists out row,
    evaporator_calc 2 1 10 0 25 0 1 = Ok out /\
    Error out = "Error: Dry matter in effect 2 is zero or negative."%string /\
    Error out <> msg_dm_nonpos 1 /\
    nth_error (Effects out) 0 = Some row /\
    Effect row = 1%nat /\
    Vapour_Flow_kgph row = (-1000)%Z /\
    Concentrate_Flow_kgph row = 2000%Z /\
    ~ zero_flows row.
Proof.
  destruct (evaporator_calc_run 2 1 10 0 25 0 1) as (l & out & _ & Hout & Hrun).
  destruct (run_traj_facts _ _ _ _ _ _ _ _ Hrun) as (_ & _ & Hlast & Hmid).
  pose proof (Hmid 1%nat ltac:(lia)) as H1. pose proof (Hlast ltac:(lia)) as H2.
  pose proof (run_fd _ _ _ _ _ _ _ _ Hrun) as Hfd.
  pose proof (run_ff _ _ _ _ _ _ _ _ Hrun) as Hff.
  pose proof (inv_conc0 _ _ _ _ _ (run_inv _ _ _ _ _ _ _ _ Hrun)) as H0.
  destruct (run_stage _ _ _ _ _ _ _ _ Hrun 0 _ ltac:(lia) H1)
    as (pc & Hpc & Hc1 & Hv0).
  assert (pc = feed_flow_kgph l) by congruence. subst pc.
  rewrite stage_flows_ok in Hc1, Hv0 by (rewrite ?Hfd; simpl; lra).
  simpl fst in Hc1. simpl snd in Hv0.
  destruct (run_row _ _ _ _ _ _ _ _ Hrun 0 _ _ ltac:(lia) Hv0 Hc1)
    as (row & Hrow & He & Ev & _ & Ec & _).
  assert (Em : Error out = msg_dm_nonpos 2).
  { apply (run_error_last _ _ _ _ _ _ _ _ Hrun 1 0);
      [lia | exact H2 | | intros; lia].
    unfold stage_error. destruct (Rle_dec (0 / 100) 0); [reflexivity | lra]. }
  assert (Ev' : Vapour_Flow_kgph row = (-1000)%Z).
  { rewrite Ev, Hff, Hfd. apply int_eq. simpl. field. }
  assert (Ec' : Concentrate_Flow_kgph row = 2000%Z).
  { rewrite Ec, Hfd. apply int_eq. simpl. field. }
  exists out, row. repeat split; try assumption.
  - rewrite Em. discriminate.
  - intros (Z1 & _). rewrite Ev' in Z1. discriminate.
Qed.

(** [C1], in the form that holds. With product dry matter 0 and positive
    feed dry matter, for every effect count [N >= 1] the call returns a
    report whose error message names the last effect, [N] (effect 1 only
    when [N = 1]), and the row of effect [N] has zero vapour and concentrate
    flows. *)
Theorem C1_zero_product_dm_fails_last_effect
    (N : Z) (ffm fdm tss ft sp : R) :
  (1 <= N)%Z -> 0 < fdm ->
  exists out row,
    evaporator_calc N ffm fdm tss ft 0 sp = Ok out /\
    Error out = msg_dm_nonpos (Z.to_nat N) /\
    nth_error (Effects out) (Z.to_nat N - 1) = Some row /\
    Effect row = Z.to_nat N /\
    zero_flows row.
Proof.
  intros HN Hfdm. set (n := Z.to_nat N).
  replace N with (Z.of_nat n) by lia.
  destruct (evaporator_calc_run n ffm fdm tss ft 0 sp)
    as (l & out & _ & Hout & Hrun).
  destruct (run_traj_facts _ _ _ _ _ _ _ _ Hrun) as (_ & _ & Hlast & _).
  assert (Hc : nth_error (dm_concs l) (n - 1 + 1) = Some 0)
    by (replace (n - 1 + 1)%nat with n by lia; apply Hlast; lia).
  assert (Hf : stage_fails (feed_dm_kgph l) 0) by (left; lra).
  destruct (run_failed_row n _ _ _ _ _ l out (n - 1) 0 Hrun ltac:(lia) Hc Hf)
    as (row & Hrow & He & Hz).
  exists out, row. split; [exact Hout|]. split; [|split; [exact Hrow|split]].
  - apply (run_error_last _ _ _ _ _ _ _ _ Hrun (n - 1) 0);
      [lia | exact Hc | | intros; lia].
    unfold stage_error. replace (n - 1 + 1)%nat with n by lia.
    destruct (Rle_dec (0 / 100) 0); [reflexivity | lra].
  - rewrite He. lia.
  - exact Hz.
Qed.

Lemma C1_witness :
  (1 <= 3)%Z /\ 0 < 2.38 /\
  exists out row,
    evaporator_calc 3 41.67 2.38 1.5 25 0 1 = Ok out /\
    Error out = msg_dm_nonpos (Z.to_nat 3) /\
    nth_error (Effects out) (Z.to_nat 3 - 1) = Some row /\
    Effect row = Z.to_nat 3 /\
    zero_flows row.
Proof.
  split; [lia|]. split; [lra|].
  apply (C1_zero_product_dm_fails_last_effect 3 41.67 2.38 1.5 25 1); [lia|lra].
Defined.

(** [C2] fails as the specification states it: an effect count below -1
    makes [np.linspace] raise, and on 2 effects with feed dry matter -5 %
    and product dry matter 5 % the report carries the error of effect 1
    while the row of the following effect 2 has non-zero flows and a
    non-zero pressure. *)
Lemma C2_counterexample :
  evaporator_calc (-2) 1 10 0 25 15 1 = Raise ValueError /\
  exists out row,
    evaporator_calc 2 1 (-5) 0 25 5 1 = Ok out /\
    Error out = "Error: Dry matter in effect 1 is zero or negative."%string /\
    nth_error (Effects out) 1 = Some row /\
    Effect row = 2%nat /\
    Vapour_Flow_kgph row = 1000%Z /\
    Concentrate_Flow_kgph row = (-1000)%Z /\
    Abs_Pressure_kPa row = 25 /\
    ~ zero_flows row.
Proof.
  split; [apply evaporator_calc_negative_count; lia|].
  destruct run_neg5_to_5
    as (l & out & row & _ & Ho & _ & He & Hr & Hn & Hv & Hc & Hp).
  exists out, row. repeat split; try assumption.
  intros (Z1 & _). rewrite Hv in Z1. discriminate.
Qed.

(** [C2], in the form that holds.  The call does not return a report for
    every input: a report is returned only for an effect count [N >= -1].
    Every report the call returns is complete: it has one row per effect,
    numbered from 1; and whenever a stage of the mass balance fails (its
    target is [<= 0] or the carried dry-matter mass is 0) the error field is
    non-empty and the row of that stage has zero flows. *)
Theorem C2_returned_report_complete
    (N : Z) (ffm fdm tss ft pdm sp : R) (out : output) :
  evaporator_calc N ffm fdm tss ft pdm sp = Ok out ->
  (-1 <= N)%Z /\
  exists tr,
    linspace fdm pdm (N + 1) = Ok tr /\
    length (Effects out) = Z.to_nat N /\
    (forall i row, nth_error (Effects out) i = Some row ->
       Effect row = (i + 1)%nat) /\
    forall i c, (i < Z.to_nat N)%nat -> nth_error tr (i + 1) = Some c ->
      stage_fails (fdm / 100 * (ffm * 1000)) c ->
      Error out <> ""%string /\
      exists row, nth_error (Effects out) i = Some row /\
                  Effect row = (i + 1)%nat /\ zero_flows row.
Proof.
  intros Hret.
  destruct (Z_lt_le_dec N (-1)) as [Hlt|HN].
  { rewrite (evaporator_calc_negative_count N ffm fdm tss ft pdm sp Hlt)
      in Hret.
    discriminate. }
  split; [exact HN|].
  destruct (Z.eq_dec N (-1)) as [E1|Hne].
  - subst N.
    destruct (evaporator_calc_minus_one ffm fdm tss ft pdm sp)
      as (Htr & out' & Hout & Hrows & He).
    rewrite Hret in Hout. injection Hout as <-.
    exists []. split; [exact Htr|]. rewrite Hrows.
    split; [reflexivity|].
    split; [intros [|i] row Hrow; discriminate|].
    intros i c Hi. simpl in Hi. lia.
  - set (n := Z.to_nat N). replace N with (Z.of_nat n) in * by lia.
    destruct (evaporator_calc_run n ffm fdm tss ft pdm sp)
      as (l & out' & _ & Hout & Hrun).
    rewrite Hret in Hout. injection Hout as <-.
    pose proof (run_effects _ _ _ _ _ _ _ _ Hrun) as Heff.
    pose proof (run_len _ _ _ _ _ _ _ _ Hrun) as Hlen.
    exists (dm_concs l).
    split; [apply (run_traj _ _ _ _ _ _ _ _ Hrun)|].
    split; [now rewrite Heff|].
    split.
    + intros i row Hrow.
      assert (Hi : (i < n)%nat).
      { rewrite <- Hlen, <- Heff. apply nth_error_Some. congruence. }
      destruct (run_rows _ _ _ _ _ _ _ _ Hrun i Hi)
        as (p & t & b & lm & v & c & _ & _ & _ & _ & _ & Hr).
      rewrite Heff, Hr in Hrow. injection Hrow as <-. reflexivity.
    + intros i c Hi Hc Hf.
      rewrite <- (run_ff _ _ _ _ _ _ _ _ Hrun) in Hf.
      assert (E : fdm / 100 * feed_flow_kgph l = feed_dm_kgph l)
        by (rewrite (run_fd _ _ _ _ _ _ _ _ Hrun),
                    (run_ff _ _ _ _ _ _ _ _ Hrun); reflexivity).
      rewrite E in Hf.
      split.
      * apply (run_error_nonempty n _ _ _ _ _ l out i c Hrun Hi Hc Hf).
      * apply (run_failed_row n _ _ _ _ _ l out i c Hrun Hi Hc Hf).
Qed.

Lemma C2_witness :
  exists out,
    evaporator_calc 3 41.67 2.38 1.5 25 0 1 = Ok out /\
    (-1 <= 3)%Z /\
    length (Effects out) = Z.to_nat 3 /\
    Error out <> ""%string /\
    exists row, nth_error (Effects out) 2 = Some row /\
                Effect row = 3%nat /\ zero_flows row.
Proof.
  destruct (evaporator_calc_run 3 41.67 2.38 1.5 25 0 1)
    as (l & out & _ & Hout & _).
  change (Z.of_nat 3) with 3%Z in Hout.
  exists out. split; [exact Hout|].
  destruct (C2_returned_report_complete 3 41.67 2.38 1.5 25 0 1 out Hout)
    as (HN & tr & Htr & Hlen & _ & Hfail).
  split; [exact HN|]. split; [exact Hlen|].
  destruct (linspace_ok 2.38 0 3) as (tr' & Htr' & _ & _ & Hn & _).
  change (Z.of_nat 3 + 1)%Z with (3 + 1)%Z in Htr'.
  rewrite Htr in Htr'. injection Htr' as <-.
  apply (Hfail 2%nat 0).
  - simpl. lia.
  - apply Hn. lia.
  - left. lra.
Defined.

(** [C3] fails as the specification states it.  On 2 effects with feed dry
    matter 1 % and product dry matter -3 % the targets are -1 and -3 %:
    both effects fail, and the report carries the message of effect 2, not
    of effect 1.  On 4 effects with feed dry matter -5 % and product dry
    matter 5 % the targets are -2.5, 0, 2.5 and 5 %: effects 1 and 2 fail,
    the report carries the message of effect 2, and the row of the
    following effect 3 has non-zero flows. *)
Lemma C3_counterexample :
  (exists l out,
     evaporator_locals 2 1 1 0 25 (-3) 1 = Ok l /\
     evaporator_calc 2 1 1 0 25 (-3) 1 = Ok out /\
     nth_error (dm_concs l) 1 = Some (-1) /\
     nth_error (dm_concs l) 2 = Some (-3) /\
     stage_fails (feed_dm_kgph l) (-1) /\
     stage_fails (feed_dm_kgph l) (-3) /\
     Error out = "Error: Dry matter in effect 2 is zero or negative."%string /\
     Error out <> msg_dm_nonpos 1) /\
  (exists l out row,
    evaporator_locals 4 1 (-5) 0 25 5 1 = Ok l /\
    evaporator_calc 4 1 (-5) 0 25 5 1 = Ok out /\
    nth_error (dm_concs l) 1 = Some (-2.5) /\
    nth_error (dm_concs l) 2 = Some 0 /\
    stage_fails (feed_dm_kgph l) (-2.5) /\
    stage_fails (feed_dm_kgph l) 0 /\
    Error out = "Error: Dry matter in effect 2 is zero or negative."%string /\
    Error out <> msg_dm_nonpos 1 /\
    nth_error (Effects out) 2 = Some row /\
    Effect row = 3%nat /\
    Vapour_Flow_kgph row = 2000%Z /\
    Concentrate_Flow_kgph row = (-2000)%Z /\
    ~ zero_flows row).
Proof.
  split.
  { destruct (evaporator_calc_run 2 1 1 0 25 (-3) 1)
      as (l & out & Hl & Hout & Hrun).
    destruct (run_traj_facts _ _ _ _ _ _ _ _ Hrun) as (_ & _ & Hlast & Hmid).
    assert (H1 : nth_error (dm_concs l) 1 = Some (-1))
      by (rewrite (Hmid 1%nat) by lia; f_equal; cbn [INR]; lra).
    pose proof (Hlast ltac:(lia)) as H2.
    assert (Em : Error out = msg_dm_nonpos 2).
    { apply (run_error_last _ _ _ _ _ _ _ _ Hrun 1 (-3));
        [lia | exact H2 | | intros; lia].
      unfold stage_error.
      destruct (Rle_dec (-3 / 100) 0); [reflexivity | lra]. }
    exists l, out. repeat split; try assumption.
    - left. lra.
    - left. lra.
    - rewrite Em. discriminate. }
  destruct (evaporator_calc_run 4 1 (-5) 0 25 5 1)
    as (l & out & Hl & Hout & Hrun).
  destruct (run_traj_facts _ _ _ _ _ _ _ _ Hrun) as (_ & _ & Hlast & Hmid).
  assert (H1 : nth_error (dm_concs l) 1 = Some (-2.5))
    by (rewrite (Hmid 1%nat) by lia; f_equal; cbn [INR]; lra).
  assert (H2 : nth_error (dm_concs l) 2 = Some 0)
    by (rewrite (Hmid 2%nat) by lia; f_equal; cbn [INR]; lra).
  assert (H3 : nth_error (dm_concs l) 3 = Some 2.5)
    by (rewrite (Hmid 3%nat) by lia; f_equal; cbn [INR]; lra).
  pose proof (Hlast ltac:(lia)) as H4.
  pose proof (run_fd _ _ _ _ _ _ _ _ Hrun) as Hfd.
  destruct (run_stage _ _ _ _ _ _ _ _ Hrun 1 _ ltac:(lia) H2)
    as (pc & _ & Hc2 & _).
  rewrite stage_flows_fails in Hc2 by (left; lra).
  simpl fst in Hc2. cbn [Nat.add] in Hc2.
  destruct (run_stage _ _ _ _ _ _ _ _ Hrun 2 _ ltac:(lia) H3)
    as (pc2 & Hpc2 & Hc3 & Hv2).
  assert (pc2 = 0) by congruence. subst pc2.
  rewrite stage_flows_ok in Hc3, Hv2 by (rewrite ?Hfd; lra).
  simpl fst in Hc3. simpl snd in Hv2.
  destruct (run_row _ _ _ _ _ _ _ _ Hrun 2 _ _ ltac:(lia) Hv2 Hc3)
    as (row & Hrow & He & Ev & _ & Ec & _).
  assert (Em : Error out = msg_dm_nonpos 2).
  { apply (run_error_last _ _ _ _ _ _ _ _ Hrun 1 0); [lia | exact H2 | |].
    - unfold stage_error. destruct (Rle_dec (0 / 100) 0); [reflexivity | lra].
    - intros j' c' Hj' Hc'. unfold stage_fails. rewrite Hfd.
      assert (Hj : j' = 2%nat \/ j' = 3%nat) by lia.
      destruct Hj as [-> | ->]; cbn [Nat.add] in Hc';
        [assert (c' = 2.5) by congruence | assert (c' = 5) by congruence];
        subst c'; lra. }
  assert (Ev' : Vapour_Flow_kgph row = 2000%Z)
    by (rewrite Ev, Hfd; apply int_eq; lra).
  exists l, out, row. repeat split; try assumption.
  - left. lra.
  - left. lra.
  - rewrite Em. discriminate.
  - rewrite Ec, Hfd. apply int_eq. lra.
  - intros (Z1 & _). rewrite Ev' in Z1. discriminate.
Qed.

(** [C3], in the form that holds. The error field holds the message of the
    last failing stage in forward order (each failing stage overwrites it),
    the row of every failing stage has zero flows, and the balance is not
    aborted: a stage that does not fail computes its concentrate flow from
    the carried dry-matter mass even when an earlier stage has failed. *)
Theorem C3_last_failing_stage_reported (N : Z) (ffm fdm tss ft pdm sp : R) :
  (0 <= N)%Z ->
  exists out tr,
    evaporator_calc N ffm fdm tss ft pdm sp = Ok out /\
    linspace fdm pdm (N + 1) = Ok tr /\
    (forall j c msg, (j < Z.to_nat N)%nat ->
       nth_error tr (j + 1) = Some c ->
       stage_error (fdm / 100 * (ffm * 1000)) c (j + 1) = Some msg ->
       (forall j' c', (j < j' < Z.to_nat N)%nat ->
          nth_error tr (j' + 1) = Some c' ->
          ~ stage_fails (fdm / 100 * (ffm * 1000)) c') ->
       Error out = msg) /\
    (forall i c, (i < Z.to_nat N)%nat -> nth_error tr (i + 1) = Some c ->
       stage_fails (fdm / 100 * (ffm * 1000)) c ->
       exists row, nth_error (Effects out) i = Some row /\
                   Effect row = (i + 1)%nat /\ zero_flows row) /\
    (forall i c, (i < Z.to_nat N)%nat -> nth_error tr (i + 1) = Some c ->
       ~ stage_fails (fdm / 100 * (ffm * 1000)) c ->
       exists row, nth_error (Effects out) i = Some row /\
                   Effect row = (i + 1)%nat /\
                   Concentrate_Flow_kgph row
                   = int (fdm / 100 * (ffm * 1000) / (c / 100))).
Proof.
  intros HN. set (n := Z.to_nat N). replace N with (Z.of_nat n) by lia.
  destruct (evaporator_calc_run n ffm fdm tss ft pdm sp)
    as (l & out & _ & Hout & Hrun).
  assert (E : fdm / 100 * (ffm * 1000) = feed_dm_kgph l)
    by (now rewrite (run_fd _ _ _ _ _ _ _ _ Hrun)).
  rewrite E.
  exists out, (dm_concs l). split; [exact Hout|].
  split; [apply (run_traj _ _ _ _ _ _ _ _ Hrun)|].
  split; [|split].
  - intros j c msg Hj Hc Hm Hlater.
    apply (run_error_last _ _ _ _ _ _ _ _ Hrun j c msg Hj Hc Hm Hlater).
  - intros i c Hi Hc Hf.
    apply (run_failed_row n _ _ _ _ _ l out i c Hrun Hi Hc Hf).
  - intros i c Hi Hc Hnf.
    destruct (run_stage _ _ _ _ _ _ _ _ Hrun i c Hi Hc) as (pc & _ & H1 & H2).
    destruct (run_row _ _ _ _ _ _ _ _ Hrun i _ _ Hi H2 H1)
      as (row & Hrow & He & _ & _ & Ec & _).
    exists row. split; [exact Hrow|]. split; [exact He|].
    rewrite Ec. f_equal. unfold stage_flows, stage_fails in *.
    destruct (Rle_dec (c / 100) 0); [tauto|].
    destruct (Req_dec_T (feed_dm_kgph l) 0); [tauto | reflexivity].
Qed.

Lemma C3_witness :
  (0 <= 2)%Z /\
  exists out,
    evaporator_calc 2 1 1 0 25 (-3) 1 = Ok out /\
    Error out = "Error: Dry matter in effect 2 is zero or negative."%string.
Proof.
  split; [lia|].
  destruct (C3_last_failing_stage_reported 2 1 1 0 25 (-3) 1 ltac:(lia))
    as (out & tr & Hout & Htr & Hlast & _).
  exists out. split; [exact Hout|].
  destruct (linspace_ok 1 (-3) 2) as (tr' & Htr' & _ & _ & Hn & _).
  change (Z.of_nat 2 + 1)%Z with (2 + 1)%Z in Htr'.
  rewrite Htr in Htr'. injection Htr' as <-.
  apply (Hlast 1%nat (-3)).
  - simpl. lia.
  - apply Hn. lia.
  - unfold stage_error. destruct (Rle_dec (-3 / 100) 0); [reflexivity | lra].
  - simpl. intros j' c' Hj'. lia.
Defined.

(** [C4].  When every value of the dry-matter trajectory and the feed
    dry-matter mass are positive, the concentrate flow leaving the last
    effect times the last dry-matter fraction is the feed dry-matter mass. *)
Theorem C4_dry_matter_conserved (N : Z) (ffm fdm tss ft pdm sp : R)
    (tr : list R) :
  (0 <= N)%Z ->
  linspace fdm pdm (N + 1) = Ok tr ->
  Forall (fun c => 0 < c) tr ->
  0 < fdm / 100 * (ffm * 1000) ->
  exists l cN dN,
    evaporator_locals N ffm fdm tss ft pdm sp = Ok l /\
    dm_concs l = tr /\
    feed_dm_kgph l = fdm / 100 * (ffm * 1000) /\
    nth_error (stage_conc_flow (mb l)) (Z.to_nat N) = Some cN /\
    nth_error (dm_concs l) (Z.to_nat N) = Some dN /\
    cN * dN / 100 = feed_dm_kgph l.
Proof.
  intros HN Htr Hpos Hfd. set (n := Z.to_nat N).
  replace N with (Z.of_nat n) in * by lia.
  destruct (evaporator_calc_run n ffm fdm tss ft pdm sp)
    as (l & out & Hl & _ & Hrun).
  pose proof (run_traj _ _ _ _ _ _ _ _ Hrun) as Htr'.
  rewrite Htr in Htr'. injection Htr' as Etr.
  pose proof (run_fd _ _ _ _ _ _ _ _ Hrun) as Efd.
  pose proof (run_ff _ _ _ _ _ _ _ _ Hrun) as Eff.
  exists l. destruct n as [|m].
  - destruct (run_traj_facts _ _ _ _ _ _ _ _ Hrun) as (_ & H0 & _).
    exists (feed_flow_kgph l), fdm.
    repeat split; auto.
    + apply (inv_conc0 _ _ _ _ _ (run_inv _ _ _ _ _ _ _ _ Hrun)).
    + rewrite Efd, Eff. lra.
  - destruct (run_target _ _ _ _ _ _ _ _ Hrun m ltac:(lia)) as (c & Hc).
    destruct (run_stage _ _ _ _ _ _ _ _ Hrun m c ltac:(lia) Hc)
      as (pc & _ & H1 & _).
    assert (Hcpos : 0 < c)
      by (apply (Forall_nth_error _ tr (m + 1) c Hpos); now rewrite Etr).
    rewrite stage_flows_ok in H1 by (rewrite ?Efd; lra). simpl fst in H1.
    replace (m + 1)%nat with (Datatypes.S m) in * by lia.
    exists (feed_dm_kgph l / (c / 100)), c.
    repeat split; auto. field. lra.
Qed.

Lemma C4_witness :
  (0 <= 1)%Z /\ linspace 10 20 (1 + 1) = Ok [10; 20] /\
  Forall (fun c => 0 < c) [10; 20] /\
  0 < 10 / 100 * (1 * 1000) /\
  exists l cN dN,
    evaporator_locals 1 1 10 0 25 20 1 = Ok l /\
    dm_concs l = [10; 20] /\
    feed_dm_kgph l = 10 / 100 * (1 * 1000) /\
    nth_error (stage_conc_flow (mb l)) (Z.to_nat 1) = Some cN /\
    nth_error (dm_concs l) (Z.to_nat 1) = Some dN /\
    cN * dN / 100 = feed_dm_kgph l.
Proof.
  assert (H1 : linspace 10 20 (1 + 1) = Ok [10; 20]).
  { unfold linspace. simpl. do 2 f_equal. lra. }
  assert (H2 : Forall (fun c => 0 < c) [10; 20])
    by (repeat constructor; lra).
  assert (H3 : 0 < 10 / 100 * (1 * 1000)) by lra.
  split; [lia|]. split; [exact H1|]. split; [exact H2|]. split; [exact H3|].
  apply (C4_dry_matter_conserved 1 1 10 0 25 20 1 _ ltac:(lia) H1 H2 H3).
Defined.

(** [C5].  When every value of the dry-matter trajectory and the feed
    dry-matter mass are positive (at least one effect), the evaporated water
    is the feed mass flow minus the product mass flow, the product mass flow
    is the feed dry-matter mass over the product dry-matter fraction, and
    the evaporated water is the sum of the per-stage vapour flows. *)
Theorem C5_evaporated_water_balance (N : Z) (ffm fdm tss ft pdm sp : R)
    (tr : list R) :
  (1 <= N)%Z ->
  linspace fdm pdm (N + 1) = Ok tr ->
  Forall (fun c => 0 < c) tr ->
  0 < fdm / 100 * (ffm * 1000) ->
  exists l,
    evaporator_locals N ffm fdm tss ft pdm sp = Ok l /\
    feed_flow_kgph l = ffm * 1000 /\
    feed_dm_kgph l = fdm / 100 * (ffm * 1000) /\
    prod_flow_kgph l = feed_dm_kgph l / (pdm / 100) /\
    evap_kgph l = feed_flow_kgph l - prod_flow_kgph l /\
    length (stage_vap_kgph (mb l)) = Z.to_nat N /\
    evap_kgph l = fold_right Rplus 0 (stage_vap_kgph (mb l)).
Proof.
  intros HN Htr Hpos Hfd. set (n := Z.to_nat N).
  replace N with (Z.of_nat n) in * by lia.
  destruct (evaporator_calc_run n ffm fdm tss ft pdm sp)
    as (l & out & Hl & _ & Hrun).
  pose proof (run_traj _ _ _ _ _ _ _ _ Hrun) as Htr'.
  rewrite Htr in Htr'. injection Htr' as Etr.
  pose proof (run_fd _ _ _ _ _ _ _ _ Hrun) as Efd.
  pose proof (run_ff _ _ _ _ _ _ _ _ Hrun) as Eff.
  pose proof (run_inv _ _ _ _ _ _ _ _ Hrun) as I.
  destruct (run_traj_facts _ _ _ _ _ _ _ _ Hrun) as (_ & _ & Hlast & _).
  assert (Hpdm : 0 < pdm).
  { apply (Forall_nth_error _ tr n pdm Hpos). rewrite Etr. apply Hlast. lia. }
  assert (Hprod : prod_flow_kgph l = feed_dm_kgph l / (pdm / 100)).
  { rewrite (run_prod _ _ _ _ _ _ _ _ Hrun). unfold prod_flow_of.
    destruct (Rlt_dec 0 pdm); [reflexivity | contradiction]. }
  assert (Hstage : forall j, (j < n)%nat ->
            exists c pc, nth_error (dm_concs l) (j + 1) = Some c /\ 0 < c /\
              nth_error (stage_conc_flow (mb l)) j = Some pc /\
              nth_error (stage_conc_flow (mb l)) (j + 1)
                = Some (feed_dm_kgph l / (c / 100)) /\
              nth_error (stage_vap_kgph (mb l)) j
                = Some (pc - feed_dm_kgph l / (c / 100))).
  { intros j Hj.
    destruct (run_target _ _ _ _ _ _ _ _ Hrun j Hj) as (c & Hc).
    destruct (run_stage _ _ _ _ _ _ _ _ Hrun j c Hj Hc) as (pc & H0 & H1 & H2).
    assert (Hcpos : 0 < c)
      by (apply (Forall_nth_error _ tr (j + 1) c Hpos); now rewrite Etr).
    rewrite stage_flows_ok in H1, H2 by (rewrite ?Efd; lra).
    exists c, pc. auto. }
  exists l. repeat split; auto.
  - apply (run_evap _ _ _ _ _ _ _ _ Hrun).
  - apply (inv_len_vap _ _ _ _ _ I).
  - destruct (telescope_sum (stage_vap_kgph (mb l)) (stage_conc_flow (mb l)))
      as (a & b & Ha & Hb & Hsum).
    + rewrite (inv_len_conc _ _ _ _ _ I), (inv_len_vap _ _ _ _ _ I).
      reflexivity.
    + intros j v Hv.
      assert (Hj : (j < n)%nat).
      { rewrite <- (inv_len_vap _ _ _ _ _ I). apply nth_error_Some.
        congruence. }
      destruct (Hstage j Hj) as (c & pc & _ & _ & H0 & H1 & H2).
      exists pc, (feed_dm_kgph l / (c / 100)).
      replace (Datatypes.S j) with (j + 1)%nat by lia.
      repeat split; auto. congruence.
    + rewrite (inv_len_vap _ _ _ _ _ I) in Hb.
      rewrite (inv_conc0 _ _ _ _ _ I) in Ha. injection Ha as <-.
      destruct (Hstage (n - 1)%nat ltac:(lia))
        as (c & pc & Hc & _ & _ & H1 & _).
      replace (n - 1 + 1)%nat with n in * by lia.
      assert (c = pdm) by (rewrite Hlast in Hc by lia; congruence). subst c.
      assert (b = feed_dm_kgph l / (pdm / 100)) by congruence. subst b.
      rewrite Hsum, (run_evap _ _ _ _ _ _ _ _ Hrun), Hprod. reflexivity.
Qed.

Lemma C5_witness :
  (1 <= 1)%Z /\ linspace 10 20 (1 + 1) = Ok [10; 20] /\
  Forall (fun c => 0 < c) [10; 20] /\
  0 < 10 / 100 * (1 * 1000) /\
  exists l,
    evaporator_locals 1 1 10 0 25 20 1 = Ok l /\
    feed_flow_kgph l = 1 * 1000 /\
    feed_dm_kgph l = 10 / 100 * (1 * 1000) /\
    prod_flow_kgph l = feed_dm_kgph l / (20 / 100) /\
    evap_kgph l = feed_flow_kgph l - prod_flow_kgph l /\
    length (stage_vap_kgph (mb l)) = Z.to_nat 1 /\
    evap_kgph l = fold_right Rplus 0 (stage_vap_kgph (mb l)).
Proof.
  assert (H1 : linspace 10 20 (1 + 1) = Ok [10; 20]).
  { unfold linspace. simpl. do 2 f_equal. lra. }
  assert (H2 : Forall (fun c => 0 < c) [10; 20])
    by (repeat constructor; lra).
  assert (H3 : 0 < 10 / 100 * (1 * 1000)) by lra.
  split; [lia|]. split; [exact H1|]. split; [exact H2|]. split; [exact H3|].
  apply (C5_evaporated_water_balance 1 1 10 0 25 20 1 _ ltac:(lia) H1 H2 H3).
Defined.

(** [C6] fails as the specification states it: steam at 5 and at 6 bar(g) is
    at 600 and 700 kPa, both beyond the last table point, so the steam
    temperature is 151 degrees for both, and so are all boiling
    temperatures. *)
Lemma C6_counterexample :
  exists l1 l2,
    evaporator_locals 3 41.67 2.38 1.5 25 15 5 = Ok l1 /\
    evaporator_locals 3 41.67 2.38 1.5 25 15 6 = Ok l2 /\
    5 < 6 /\
    steam_temp_c l1 = 151 /\ steam_temp_c l2 = 151 /\
    ~ steam_temp_c l1 < steam_temp_c l2 /\
    bp_temp_c l1 = bp_temp_c l2.
Proof.
  destruct (evaporator_calc_run 3 41.67 2.38 1.5 25 15 5)
    as (l1 & o1 & H1 & _ & R1).
  destruct (evaporator_calc_run 3 41.67 2.38 1.5 25 15 6)
    as (l2 & o2 & H2 & _ & R2).
  assert (S1 : steam_temp_c l1 = 151)
    by (rewrite (run_steam _ _ _ _ _ _ _ _ R1);
        apply water_bp_temp_clamped; lra).
  assert (S2 : steam_temp_c l2 = 151)
    by (rewrite (run_steam _ _ _ _ _ _ _ _ R2);
        apply water_bp_temp_clamped; lra).
  exists l1, l2. repeat split; try assumption; try lra.
  destruct (run_same_feed _ _ _ _ _ _ _ _ _ _ _ R1 R2) as [_ Eb].
  pose proof (run_cascade _ _ _ _ _ _ _ _ R1) as C1.
  pose proof (run_cascade _ _ _ _ _ _ _ _ R2) as C2.
  rewrite S1, Eb in C1. rewrite S2 in C2. congruence.
Qed.

(** [C6], in the form that holds. For fixed effect count and feed conditions
    and [p1 < p2]: the steam temperature for [p2] is at least that for [p1],
    and strictly greater when both absolute pressures lie between the
    table's end points 0.6 and 500 kPa; whenever the steam temperature is
    strictly greater, the boiling temperature of every effect but the last
    is strictly greater, while that of the last effect is the same. Within
    one run with positive step, the boiling temperature strictly decreases
    from effect 1 to effect N. *)
Theorem C6_steam_pressure_monotone :
  (forall (N : Z) (ffm fdm tss ft pdm p1 p2 : R),
     (1 <= N)%Z -> p1 < p2 ->
     exists l1 l2,
       evaporator_locals N ffm fdm tss ft pdm p1 = Ok l1 /\
       evaporator_locals N ffm fdm tss ft pdm p2 = Ok l2 /\
       steam_temp_c l1 <= steam_temp_c l2 /\
       (0.6 <= (p1 + 1) * 100 -> (p2 + 1) * 100 <= 500 ->
        steam_temp_c l1 < steam_temp_c l2) /\
       (steam_temp_c l1 < steam_temp_c l2 ->
        forall i, (i + 1 < Z.to_nat N)%nat ->
          exists t1 t2,
            nth_error (bp_temp_c l1) i = Some (Some t1) /\
            nth_error (bp_temp_c l2) i = Some (Some t2) /\ t1 < t2) /\
       (exists t,
          nth_error (bp_temp_c l1) (Z.to_nat N - 1) = Some (Some t) /\
          nth_error (bp_temp_c l2) (Z.to_nat N - 1) = Some (Some t))) /\
  (forall (N : Z) (ffm fdm tss ft pdm sp : R),
     (1 <= N)%Z ->
     exists l b_last,
       evaporator_locals N ffm fdm tss ft pdm sp = Ok l /\
       nth_error (bpes l) (Z.to_nat N - 1) = Some b_last /\
       (0 < (steam_temp_c l - (water_bp_temp 25 + b_last)) / IZR N ->
        forall i j, (i < j < Z.to_nat N)%nat ->
          exists ti tj,
            nth_error (bp_temp_c l) i = Some (Some ti) /\
            nth_error (bp_temp_c l) j = Some (Some tj) /\ tj < ti)).
Proof.
  split.
  - intros N ffm fdm tss ft pdm p1 p2 HN Hp. set (n := Z.to_nat N).
    replace N with (Z.of_nat n) by lia. rewrite ?Nat2Z.id.
    destruct (evaporator_calc_run n ffm fdm tss ft pdm p1)
      as (l1 & o1 & H1 & _ & R1).
    destruct (evaporator_calc_run n ffm fdm tss ft pdm p2)
      as (l2 & o2 & H2 & _ & R2).
    exists l1, l2. split; [exact H1|]. split; [exact H2|].
    rewrite (run_steam _ _ _ _ _ _ _ _ R1), (run_steam _ _ _ _ _ _ _ _ R2).
    split; [apply water_bp_temp_mono; lra|].
    split; [intros Hlo Hhi; apply water_bp_temp_strict; lra|].
    destruct (run_same_feed _ _ _ _ _ _ _ _ _ _ _ R1 R2) as [_ Eb].
    destruct (nth_error (bpes l1) (n - 1)) as [bl|] eqn:Hbl.
    2:{ apply nth_error_None in Hbl.
        rewrite (run_bpes_len _ _ _ _ _ _ _ _ R1) in Hbl. lia. }
    assert (Hbl2 : nth_error (bpes l2) (n - 1) = Some bl) by congruence.
    assert (Hn : 0 < INR n) by (apply lt_0_INR; lia).
    split.
    + intros Hs i Hi.
      rewrite <- (run_steam _ _ _ _ _ _ _ _ R1),
              <- (run_steam _ _ _ _ _ _ _ _ R2) in Hs.
      eexists; eexists.
      split; [apply (run_bp_closed_form n _ _ _ _ _ l1 o1 bl i R1 Hbl); lia|].
      split; [apply (run_bp_closed_form n _ _ _ _ _ l2 o2 bl i R2 Hbl2); lia|].
      assert (Hd : 0 < INR (n - 1 - i)) by (apply lt_0_INR; lia).
      apply Rplus_lt_compat_l. apply Rmult_lt_compat_l; [exact Hd|].
      unfold Rdiv. apply Rmult_lt_compat_r; [apply Rinv_0_lt_compat, Hn | lra].
    + exists (water_bp_temp 25 + bl).
      rewrite (run_bp_closed_form n _ _ _ _ _ l1 o1 bl (n - 1) R1 Hbl) by lia.
      rewrite (run_bp_closed_form n _ _ _ _ _ l2 o2 bl (n - 1) R2 Hbl2) by lia.
      replace (n - 1 - (n - 1))%nat with 0%nat by lia. simpl INR.
      split; do 2 f_equal; ring.
  - intros N ffm fdm tss ft pdm sp HN. set (n := Z.to_nat N).
    replace N with (Z.of_nat n) by lia. rewrite ?Nat2Z.id.
    destruct (evaporator_calc_run n ffm fdm tss ft pdm sp)
      as (l & o & Hl & _ & Hrun).
    destruct (nth_error (bpes l) (n - 1)) as [bl|] eqn:Hbl.
    2:{ apply nth_error_None in Hbl.
        rewrite (run_bpes_len _ _ _ _ _ _ _ _ Hrun) in Hbl. lia. }
    exists l, bl. split; [exact Hl|]. split; [exact Hbl|].
    rewrite <- INR_IZR_INZ. intros Hdt i j Hij.
    eexists; eexists.
    split; [apply (run_bp_closed_form n _ _ _ _ _ l o bl i Hrun Hbl); lia|].
    split; [apply (run_bp_closed_form n _ _ _ _ _ l o bl j Hrun Hbl); lia|].
    apply Rplus_lt_compat_l. apply Rmult_lt_compat_r; [exact Hdt|].
    apply lt_INR. lia.
Qed.

Lemma C6_witness :
  (1 <= 3)%Z /\ 1 < 2 /\ 0.6 <= (1 + 1) * 100 /\ (2 + 1) * 100 <= 500 /\
  exists l1 l2,
    evaporator_locals 3 41.67 2.38 1.5 25 15 1 = Ok l1 /\
    evaporator_locals 3 41.67 2.38 1.5 25 15 2 = Ok l2 /\
    steam_temp_c l1 < steam_temp_c l2 /\
    exists t1 t2,
      nth_error (bp_temp_c l1) 0 = Some (Some t1) /\
      nth_error (bp_temp_c l2) 0 = Some (Some t2) /\ t1 < t2.
Proof.
  assert (A : (1 <= 3)%Z) by lia.
  assert (B : 1 < 2) by lra.
  assert (C : 0.6 <= (1 + 1) * 100) by lra.
  assert (D : (2 + 1) * 100 <= 500) by lra.
  split; [exact A|]. split; [exact B|]. split; [exact C|]. split; [exact D|].
  destruct (proj1 C6_steam_pressure_monotone 3%Z 41.67 2.38 1.5 25 15 1 2 A B)
    as (l1 & l2 & H1 & H2 & _ & Hstrict & Hbp & _).
  exists l1, l2. split; [exact H1|]. split; [exact H2|].
  split; [exact (Hstrict C D)|].
  apply (Hbp (Hstrict C D) 0%nat). simpl. lia.
Defined.

(** [C7] fails with the tolerance of 1 degree the specification suggests:
    at 89 degrees the Antoine pressure is above the table point (67.0 kPa,
    90 degrees), and the temperature read back is at least 90.05 degrees. *)
Lemma C7_counterexample :
  10 <= 89 <= 90 /\
  1 < Rabs (water_bp_temp (water_bp_kpa 89) - 89).
Proof.
  split; [lra|].
  pose proof (pw_bounds_ten coarse_log 692) as (_ & Hl & _).
  pose proof pressure_at_89_checked as Hc.
  apply RMicromega.Qle_true in Hc.
  rewrite <- water_bp_temp_Q, Q2R_mult, !Q2R_make in Hc.
  change (Z.pos (Z.to_pos pw_scale)) with pw_scale in Hc.
  set (l := fst (pw_bounds (fst (root_bounds coarse_log))
                   (snd (root_bounds coarse_log)) 692)) in *.
  assert (E : INR 692 / 2 ^ coarse_log = 692 / 256).
  { rewrite INR_IZR_INZ. unfold coarse_log. simpl. lra. }
  rewrite E in Hl.
  assert (P : Rpower 10 (692 / 256)
              <= Rpower 10 (8.07131 - 1730.63 / (89 + 233.426)))
    by (apply Rle_Rpower; lra).
  assert (Ec : Q2R mmHg_kPa = 0.133322)
    by (unfold Q2R, mmHg_kPa; cbn [Qnum Qden]; lra).
  rewrite Ec in Hc.
  assert (G : water_bp_temp (IZR l / IZR pw_scale * 0.133322)
              <= water_bp_temp (water_bp_kpa 89)).
  { apply water_bp_temp_mono. rewrite water_bp_kpa_eq.
    apply Rmult_le_compat; try lra.
    apply Rmult_le_pos;
      [apply IZR_le | left; apply Rinv_0_lt_compat, pw_scale_pos].
    apply (pw_bounds_ten coarse_log 692). }
  apply Rlt_le_trans with (water_bp_temp (water_bp_kpa 89) - 89);
    [|apply Rle_abs].
  lra.
Qed.

(** [C7], in the form that holds. For every temperature [T] in [10, 90] the
    Antoine pressure read back through the 15-point table differs from [T]
    by at most 1.2 degrees. *)
Theorem C7_round_trip_within_tolerance (T : R) :
  10 <= T <= 90 ->
  Rabs (water_bp_temp (water_bp_kpa T) - T) <= 1.2.
Proof.
  intros HT. destruct (grid_covers T HT) as (j & Hj1 & Hj2 & Hx).
  assert (HTC : 0 < T + 233.426) by lra.
  unfold grid_first, grid_last in Hj1, Hj2.
  destruct (Z_lt_le_dec j fine_start) as [Hc|Hf]; unfold fine_start in *.
  - (* a cell of 8 units *)
    set (i := Z.to_nat (j / 8)).
    assert (Hi : (8 * Z.of_nat i <= j < 8 * Z.of_nat i + 8)%Z).
    { unfold i. rewrite Z2Nat.id by (apply Z.div_pos; lia).
      pose proof (Z.mul_div_le j 8 ltac:(lia)).
      pose proof (Z.mul_succ_div_gt j 8 ltac:(lia)). lia. }
    apply (scan_sound _ _ 8 ltac:(lia) coarse_root_brackets
             coarse_cells 0 (pw_scale, pw_scale) grid_start_brackets
             coarse_cells_checked i T).
    + unfold coarse_cells. lia.
    + unfold grid_first. lia.
    + exact HTC.
    + destruct Hx as [Hx1 Hx2]. destruct Hi as [Hi1 Hi2].
      assert (Hi3 : (j + 1 <= 8 * Z.of_nat i + 8)%Z) by lia.
      apply IZR_le in Hi1. apply IZR_le in Hi3.
      rewrite plus_IZR in Hx2. rewrite !plus_IZR in Hi3.
      replace (0 + 8 * Z.of_nat i)%Z with (8 * Z.of_nat i)%Z by lia.
      rewrite plus_IZR. split; lra.
  - (* a cell of 1 unit *)
    set (i := Z.to_nat (j - 5504)).
    assert (Hi : (5504 + 1 * Z.of_nat i = j)%Z) by (unfold i; lia).
    apply (scan_sound _ _ 1 ltac:(lia) fine_root_brackets
             fine_cells fine_start _ fine_start_brackets
             fine_cells_checked i T).
    + unfold fine_cells. lia.
    + unfold grid_first, fine_start. lia.
    + exact HTC.
    + unfold fine_start. rewrite Hi. exact Hx.
Qed.

Lemma C7_witness :
  10 <= 25 <= 90 /\ Rabs (water_bp_temp (water_bp_kpa 25) - 25) <= 1.2.
Proof.
  assert (H : 10 <= 25 <= 90) by lra.
  split; [exact H|]. apply (C7_round_trip_within_tolerance 25 H).
Defined.

(** [C8].  For every effect count [N >= 1] the last effect is at 25 kPa
    and boils at [water_bp_temp 25] plus its own BPE; every earlier effect
    boils one uniform step above its successor, the step being
    [(steam_temp - (water_bp_temp 25 + BPE_last)) / N], and its pressure is
    [water_bp_kpa] of its boiling temperature minus its own BPE. *)
Theorem C8_cascade_solver (N : Z) (ffm fdm tss ft pdm sp : R) :
  (1 <= N)%Z ->
  exists l b_last,
    evaporator_locals N ffm fdm tss ft pdm sp = Ok l /\
    steam_temp_c l = water_bp_temp ((sp + 1) * 100) /\
    nth_error (bpes l) (Z.to_nat N - 1) = Some b_last /\
    nth_error (eff_press_kpa l) (Z.to_nat N - 1) = Some (Some 25) /\
    nth_error (bp_temp_c l) (Z.to_nat N - 1)
      = Some (Some (water_bp_temp 25 + b_last)) /\
    forall i, (i + 1 < Z.to_nat N)%nat ->
      exists b t t',
        nth_error (bpes l) i = Some b /\
        nth_error (bp_temp_c l) i = Some (Some t) /\
        nth_error (bp_temp_c l) (i + 1) = Some (Some t') /\
        t = t' + (steam_temp_c l - (water_bp_temp 25 + b_last)) / IZR N /\
        nth_error (eff_press_kpa l) i = Some (Some (water_bp_kpa (t - b))).
Proof.
  intros HN. set (n := Z.to_nat N).
  replace N with (Z.of_nat n) by lia.
  destruct (evaporator_calc_run n ffm fdm tss ft pdm sp)
    as (l & out & Hl & _ & Hrun).
  destruct (run_cascade_at n _ _ _ _ _ l out (n - 1) Hrun ltac:(lia))
    as (bl & t & p & Hbl & Ht & Hp & H).
  replace (Datatypes.S (n - 1) =? n)%nat with true in H
    by (symmetry; apply Nat.eqb_eq; lia).
  destruct H as [-> ->].
  exists l, bl. split; [exact Hl|].
  split; [apply (run_steam _ _ _ _ _ _ _ _ Hrun)|].
  split; [exact Hbl|]. split; [exact Hp|]. split; [exact Ht|].
  intros i Hi.
  destruct (run_cascade_at n _ _ _ _ _ l out i Hrun ltac:(lia))
    as (b & ti & pi & Hb & Hti & Hpi & H).
  replace (Datatypes.S i =? n)%nat with false in H
    by (symmetry; apply Nat.eqb_neq; lia).
  destruct H as (t' & bl' & Ht' & Hbl' & Et & Ep).
  assert (bl' = bl) by congruence. subst bl'.
  exists b, ti, t'. replace (i + 1)%nat with (Datatypes.S i) by lia.
  rewrite <- INR_IZR_INZ. subst pi. auto.
Qed.

Lemma C8_witness :
  (1 <= 3)%Z /\
  exists l b_last,
    evaporator_locals 3 41.67 2.38 1.5 25 15 1 = Ok l /\
    steam_temp_c l = water_bp_temp ((1 + 1) * 100) /\
    nth_error (bpes l) (Z.to_nat 3 - 1) = Some b_last /\
    nth_error (eff_press_kpa l) (Z.to_nat 3 - 1) = Some (Some 25) /\
    nth_error (bp_temp_c l) (Z.to_nat 3 - 1)
      = Some (Some (water_bp_temp 25 + b_last)) /\
    forall i, (i + 1 < Z.to_nat 3)%nat ->
      exists b t t',
        nth_error (bpes l) i = Some b /\
        nth_error (bp_temp_c l) i = Some (Some t) /\
        nth_error (bp_temp_c l) (i + 1) = Some (Some t') /\
        t = t' + (steam_temp_c l - (water_bp_temp 25 + b_last)) / IZR 3 /\
        nth_error (eff_press_kpa l) i = Some (Some (water_bp_kpa (t - b))).
Proof.
  split; [lia|].
  apply (C8_cascade_solver 3 41.67 2.38 1.5 25 15 1). lia.
Defined.

(** [C9].  The dry-matter mass carried into every stage is the feed
    dry-matter mass, whatever happened in the stages before; and on the input
    with 2 effects, feed dry matter -5 % and product dry matter 5 %, effect 1
    fails (target 0 %) while effect 2 reports non-zero vapour and concentrate
    flows. *)
Theorem C9_dry_matter_carried_past_errors :
  (forall (n : nat) (ffm fdm tss ft pdm sp : R),
     exists l,
       evaporator_locals (Z.of_nat n) ffm fdm tss ft pdm sp = Ok l /\
       feed_dm_kgph l = fdm / 100 * (ffm * 1000) /\
       stage_dm (mb l) = repeat (feed_dm_kgph l) (Datatypes.S n)) /\
  (exists (N : Z) (ffm fdm tss ft pdm sp : R) l out row,
     fdm <= 0 /\ 0 < pdm /\
     evaporator_locals N ffm fdm tss ft pdm sp = Ok l /\
     evaporator_calc N ffm fdm tss ft pdm sp = Ok out /\
     nth_error (dm_concs l) 1 = Some 0 /\
     Error out = msg_dm_nonpos 1 /\
     nth_error (Effects out) 1 = Some row /\
     Effect row = 2%nat /\
     Vapour_Flow_kgph row <> 0%Z /\
     Concentrate_Flow_kgph row <> 0%Z).
Proof.
  split.
  - intros n ffm fdm tss ft pdm sp.
    destruct (evaporator_calc_run n ffm fdm tss ft pdm sp)
      as (l & out & Hl & _ & Hrun).
    exists l. split; [exact Hl|].
    split; [apply (run_fd _ _ _ _ _ _ _ _ Hrun)|].
    apply (inv_dm _ _ _ _ _ (run_inv _ _ _ _ _ _ _ _ Hrun)).
  - destruct run_neg5_to_5
      as (l & out & row & Hl & Ho & Hc & He & Hr & Hn & Hv & Hcf & _).
    exists 2%Z, 1, (-5), 0, 25, 5, 1, l, out, row.
    repeat split; try assumption; try lra.
    + rewrite Hv. discriminate.
    + rewrite Hcf. discriminate.
Qed.

(** [C10].  On 2 effects, feed flow 1 m3/h, feed dry matter 30 %, product
    dry matter 10 % (a dilution), the report has an empty error field while
    the product mass flow exceeds the feed mass flow, the evaporated-water
    figure is negative and effect 1 reports a negative vapour flow. *)
Theorem C10_dilution_target_not_reported :
  exists (N : Z) (ffm fdm tss ft pdm sp : R) l out row,
    0 < pdm < fdm /\
    evaporator_locals N ffm fdm tss ft pdm sp = Ok l /\
    evaporator_calc N ffm fdm tss ft pdm sp = Ok out /\
    Error out = ""%string /\
    feed_flow_kgph l < prod_flow_kgph l /\
    evap_kgph l < 0 /\
    (Water_Evaporated_kgph out < 0)%Z /\
    nth_error (Effects out) 0 = Some row /\
    (Vapour_Flow_kgph row < 0)%Z.
Proof.
  destruct (evaporator_calc_run 2 1 30 0 25 10 1)
    as (l & out & Hl & Hout & Hrun).
  destruct (run_traj_facts _ _ _ _ _ _ _ _ Hrun) as (_ & _ & Hlast & Hmid).
  assert (H1 : nth_error (dm_concs l) 1 = Some 20)
    by (rewrite (Hmid 1%nat) by lia; f_equal; cbn [INR]; lra).
  pose proof (Hlast ltac:(lia)) as H2.
  pose proof (run_fd _ _ _ _ _ _ _ _ Hrun) as Hfd.
  pose proof (run_ff _ _ _ _ _ _ _ _ Hrun) as Hff.
  pose proof (run_prod _ _ _ _ _ _ _ _ Hrun) as Hp.
  pose proof (run_evap _ _ _ _ _ _ _ _ Hrun) as Hev.
  pose proof (inv_conc0 _ _ _ _ _ (run_inv _ _ _ _ _ _ _ _ Hrun)) as H0.
  unfold prod_flow_of in Hp. destruct (Rlt_dec 0 10) as [_|]; [|lra].
  destruct (run_stage _ _ _ _ _ _ _ _ Hrun 0 _ ltac:(lia) H1)
    as (pc & Hpc & Hc1 & Hv0).
  assert (pc = feed_flow_kgph l) by congruence. subst pc.
  rewrite stage_flows_ok in Hc1, Hv0 by (rewrite ?Hfd; lra).
  simpl fst in Hc1. simpl snd in Hv0.
  destruct (run_row _ _ _ _ _ _ _ _ Hrun 0 _ _ ltac:(lia) Hv0 Hc1)
    as (row & Hrow & _ & Ev & _).
  exists 2%Z, 1, 30, 0, 25, 10, 1, l, out, row.
  split; [lra|]. split; [exact Hl|]. split; [exact Hout|].
  split; [|split; [|split; [|split; [|split]]]].
  - apply (run_error_none _ _ _ _ _ _ _ _ Hrun).
    intros j c Hj Hc. unfold stage_fails. rewrite Hfd.
    assert (Hj' : j = 0%nat \/ j = 1%nat) by lia.
    destruct Hj' as [-> | ->]; cbn [Nat.add] in Hc;
      [assert (c = 20) by congruence | assert (c = 10) by congruence];
      subst c; lra.
  - rewrite Hp, Hff, Hfd. lra.
  - rewrite Hev, Hp, Hff, Hfd. lra.
  - rewrite (run_water _ _ _ _ _ _ _ _ Hrun), Hev, Hp, Hff, Hfd.
    rewrite (int_eq _ (-2000)); [lia | lra].
  - exact Hrow.
  - rewrite Ev, Hff, Hfd. rewrite (int_eq _ (-500)); [lia | lra].
Qed.

(* ================================================================== *)
(** * Further lemmas on a run *)
(* ================================================================== *)

Lemma build_output_eq (ff fdm tss pdm : R) (l : locals) :
  build_output ff fdm tss pdm l =
  Ok {| Feed_Flow_m3h := ff;
        Feed_DM_pct := fdm;
        Feed_TSS_pct := tss;
        Feed_TDS_pct :=
          if Rlt_dec 0 (feed_flow_kgph l)
          then round (feed_tds_kgph l / feed_flow_kgph l * 100) 2 else 0;
        Product_Flow_m3h := round (prod_flow_m3h l) 2;
        Product_DM_pct := pdm;
        Water_Evaporated_kgph := int (evap_kgph l);
        Steam_Needed_kgph := int (steam_needed_kgph l);
        Steam_Power_kW := int (steam_power_kW l);
        Steam_Economy := round (steam_econ l) 2;
        Effects := results l;
        Total_Thermal_Load_kW := int (total_thermal_kW l);
        Steam_Temp_C := round (steam_temp_c l) 1;
        Final_Stage_Condenser_Load_kW := int (condenser_kW l);
        Error := if error_flag (mb l) then error_msg (mb l) else ""%string |}.
Proof.
  unfold build_output. destruct (Rlt_dec 0 (feed_flow_kgph l)).
  - rewrite fdiv_ok by lra. reflexivity.
  - reflexivity.
Qed.

(** The loop over the driving temperature differences, entry by entry:
    the hot side is the steam for the first effect and the previous
    effect's boiling temperature for the others. *)
Lemma compute_lmtds_values (n : nat) (steam : R) (bp : list (option R)) :
  filled bp n ->
  exists lm, compute_lmtds (Z.of_nat n) steam bp = Ok lm /\ length lm = n /\
    forall i, (i < n)%nat ->
      exists hot cold,
        ((i = 0%nat /\ hot = steam) \/
         ((0 < i)%nat /\ nth_error bp (i - 1) = Some (Some hot))) /\
        nth_error bp i = Some (Some cold) /\
        nth_error lm i = Some (round (driving_dT (hot - cold)) 1).
Proof.
  intros Hbp. unfold compute_lmtds.
  assert (H : forall k, (k <= n)%nat ->
            exists lm, foldM (lmtd_body steam bp) (range (Z.of_nat k)) []
                       = Ok lm /\ length lm = k /\
              forall i, (i < k)%nat ->
                exists hot cold,
                  ((i = 0%nat /\ hot = steam) \/
                   ((0 < i)%nat /\ nth_error bp (i - 1) = Some (Some hot))) /\
                  nth_error bp i = Some (Some cold) /\
                  nth_error lm i = Some (round (driving_dT (hot - cold)) 1)).
  { induction k as [|k IH]; intros Hk.
    - exists []. repeat split; intros; lia.
    - destruct IH as (lm & Hlm & Hl & Hval); [lia|].
      rewrite range_S, foldM_snoc, Hlm. cbn [bind]. unfold lmtd_body.
      destruct (Hbp k) as (cold & Hcold); [lia|].
      assert (Hhot : exists hot,
                 (if (k =? 0)%nat then Ok steam else get_num bp (k - 1))
                 = Ok hot /\
                 ((k = 0%nat /\ hot = steam) \/
                  ((0 < k)%nat /\ nth_error bp (k - 1) = Some (Some hot)))).
      { destruct (Nat.eqb_spec k 0); [exists steam; auto|].
        destruct (Hbp (k - 1)%nat) as (h & Hh); [lia|].
        rewrite (get_num_ok _ _ _ Hh). exists h. split; [reflexivity|].
        right. split; [lia | exact Hh]. }
      destruct Hhot as (hot & -> & Hhot). cbn [bind].
      rewrite (get_num_ok _ _ _ Hcold). cbn [bind].
      eexists; split; [reflexivity|].
      split; [rewrite length_app, Hl; simpl; lia|].
      intros i Hi. destruct (Nat.eq_dec i k) as [E|Hne]; [subst i|].
      + exists hot, cold. split; [exact Hhot|]. split; [exact Hcold|].
        rewrite nth_error_app2 by lia.
        replace (k - length lm)%nat with 0%nat by lia. reflexivity.
      + destruct (Hval i) as (h & c & H1 & H2 & H3); [lia|].
        exists h, c. split; [exact H1|]. split; [exact H2|].
        rewrite nth_error_app1 by lia. exact H3. }
  apply H. lia.
Qed.

(** One run, with everything the report is built from. *)
Lemma evaporator_calc_report (n : nat) (ffm fdm tss ft pdm sp : R) :
  exists l out,
    evaporator_locals (Z.of_nat n) ffm fdm tss ft pdm sp = Ok l /\
    evaporator_calc (Z.of_nat n) ffm fdm tss ft pdm sp = Ok out /\
    run n ffm fdm tss pdm sp l out /\
    run_report n ffm fdm tss pdm sp l out.
Proof.
  unfold evaporator_calc, evaporator_locals.
  rewrite prod_flow_ok. cbn [bind].
  destruct (linspace_ok fdm pdm n) as (tr & Htr & Ltr & _).
  rewrite Htr. cbn [bind].
  destruct (compute_bpes_ok n tr tss Ltr) as (bs & Hbs & Lbs & _).
  rewrite Hbs. cbn [bind].
  set (steam := water_bp_temp ((sp + 1) * 100)).
  destruct (cascade_ok n steam bs Lbs) as (ep & bp & Hc & Lep & Lbp & Hat).
  rewrite Hc. cbn [bind].
  destruct (cascade_at_filled n steam bs ep bp Hat) as [Fep Fbp].
  destruct (compute_lmtds_ok n steam bp Fbp) as (lm & Hlm & Llm).
  rewrite Hlm. cbn [bind].
  set (ff := ffm * 1000). set (fd := fdm / 100 * ff).
  destruct (mass_balance_inv ff fd tr n) as (s & Hs & I); [lia|].
  rewrite Hs. cbn [bind].
  rewrite steam_needed_ok. cbn [bind].
  destruct (build_results_ok n ep bp bs lm ff fd tr s Fep Fbp Lbs Llm I)
    as (rows & Hrows & Lrows & Hrow).
  rewrite Hrows. cbn [bind].
  match goal with |- exists l out, Ok ?x = Ok l /\ _ => set (l0 := x) end.
  rewrite (build_output_eq ffm fdm tss pdm l0).
  eexists; eexists. split; [reflexivity|]. split; [reflexivity|].
  split.
  - constructor; try reflexivity; try assumption.
    intros i Hi.
    destruct (Hrow i Hi)
      as (p & t & b & l & v & c & H1 & H2 & H3 & H4 & H5 & H6 & H7).
    exists p, t, b, l, v, c. repeat split; assumption.
  - constructor; try reflexivity; assumption.
Qed.

(* ================================================================== *)
(** * Further properties of the lookup functions *)
(* ================================================================== *)

Lemma ascending_from_In_gt (pts : list (R * R)) :
  forall x0 y0 x y, ascending_from x0 y0 pts -> In (x, y) pts -> x0 < x.
Proof.
  induction pts as [|[x1 y1] rest IH]; intros x0 y0 x y Hasc Hin;
    [contradiction|].
  destruct Hasc as (Hx & _ & Hrest). destruct Hin as [E|Hin].
  - injection E as <- <-. exact Hx.
  - apply Rlt_trans with x1; [exact Hx | apply (IH x1 y1 x y Hrest Hin)].
Qed.

Lemma interp_from_at_start (pts : list (R * R)) (x0 y0 : R) :
  ascending_from x0 y0 pts -> interp_from x0 x0 y0 pts = y0.
Proof.
  destruct pts as [|[x1 y1] rest]; intros Hasc; simpl; [reflexivity|].
  destruct Hasc as (Hx & _). destruct (Rlt_dec x0 x1); [|contradiction].
  unfold Rminus. rewrite Rplus_opp_r, Rmult_0_r. apply Rplus_0_l.
Qed.

(** Linear interpolation passes through every point of its table. *)
Lemma interp_from_node (pts : list (R * R)) :
  forall x0 y0 x y, ascending_from x0 y0 pts -> In (x, y) pts ->
    interp_from x x0 y0 pts = y.
Proof.
  induction pts as [|[x1 y1] rest IH]; intros x0 y0 x y Hasc Hin;
    [contradiction|].
  destruct Hasc as (Hx & Hy & Hrest). simpl. destruct Hin as [E|Hin].
  - injection E as <- <-. destruct (Rlt_dec x1 x1); [lra|].
    apply interp_from_at_start, Hrest.
  - pose proof (ascending_from_In_gt rest x1 y1 x y Hrest Hin).
    destruct (Rlt_dec x x1); [lra|]. apply IH; assumption.
Qed.

Lemma interp_pts_node (pts : list (R * R)) (x y : R) :
  ascending pts -> In (x, y) pts -> interp_pts x pts = y.
Proof.
  destruct pts as [|[x0 y0] rest]; intros Hasc Hin; [contradiction|].
  simpl in *. destruct Hin as [E|Hin].
  - injection E as <- <-. destruct (Rlt_dec x0 x0); [lra|].
    apply interp_from_at_start, Hasc.
  - pose proof (ascending_from_In_gt rest x0 y0 x y Hasc Hin).
    destruct (Rlt_dec x x0); [lra|]. apply interp_from_node; assumption.
Qed.

Lemma bpe_table_ascending : ascending bpe_table.
Proof. simpl. repeat split; lra. Qed.

Lemma bpe_nacl_pts (c : R) : 0 < c -> bpe_nacl c = interp_pts c bpe_table.
Proof.
  intros Hc. unfold bpe_nacl. destruct (Rle_dec c 0); [lra | reflexivity].
Qed.

Lemma bpe_nacl_nonpos (c : R) : c <= 0 -> bpe_nacl c = 0.
Proof.
  intros Hc. unfold bpe_nacl. destruct (Rle_dec c 0); [reflexivity | lra].
Qed.

Lemma bpe_nacl_clamped (c : R) : 15 <= c -> bpe_nacl c = 7.
Proof.
  intros Hc. rewrite bpe_nacl_pts by lra.
  unfold bpe_table, interp_pts, interp_from. cbn [combine].
  repeat match goal with
         | |- context [Rlt_dec ?a ?b] => destruct (Rlt_dec a b); [lra|]
         end.
  reflexivity.
Qed.

Lemma interp_bpe_at_zero : interp_pts 0 bpe_table = 0.
Proof.
  apply (interp_pts_node bpe_table 0 0 bpe_table_ascending).
  simpl. auto.
Qed.

Lemma bpe_nacl_mono (c c' : R) : c <= c' -> bpe_nacl c <= bpe_nacl c'.
Proof.
  intros H. destruct (Rle_dec c' 0) as [H'|H'].
  - rewrite !bpe_nacl_nonpos by lra. lra.
  - rewrite (bpe_nacl_pts c') by lra. destruct (Rle_dec c 0) as [Hc|Hc].
    + rewrite bpe_nacl_nonpos by lra. rewrite <- interp_bpe_at_zero.
      apply interp_pts_mono; [apply bpe_table_ascending | lra].
    + rewrite bpe_nacl_pts by lra.
      apply interp_pts_mono; [apply bpe_table_ascending | exact H].
Qed.

Lemma water_bp_temp_low (p : R) : p <= 0.6 -> water_bp_temp p = 0.
Proof.
  intros H. rewrite water_bp_temp_pts. unfold bp_table, interp_pts.
  destruct (Rlt_dec p 0.6); [reflexivity|].
  assert (p = 0.6) by lra. subst p.
  apply (interp_from_at_start _ 0.6 0). apply bp_table_ascending.
Qed.

(** [X1].  The boiling-point elevation is 0 for every concentration
    [<= 0], 7 degrees for every concentration [>= 15], and between 0 and
    7 degrees everywhere. *)
Theorem X1_bpe_nacl_range (c : R) :
  0 <= bpe_nacl c <= 7 /\
  (c <= 0 -> bpe_nacl c = 0) /\
  (15 <= c -> bpe_nacl c = 7).
Proof.
  split; [|split; [apply bpe_nacl_nonpos | apply bpe_nacl_clamped]].
  split.
  - rewrite <- (bpe_nacl_nonpos (Rmin c 0)) by apply Rmin_r.
    apply bpe_nacl_mono, Rmin_l.
  - rewrite <- (bpe_nacl_clamped (Rmax c 15)) by apply Rmax_r.
    apply bpe_nacl_mono, Rmax_l.
Qed.

Lemma X1_witness :
  -1 <= 0 /\ 15 <= 20 /\ bpe_nacl (-1) = 0 /\ bpe_nacl 20 = 7.
Proof.
  assert (A : -1 <= 0) by lra. assert (B : 15 <= 20) by lra.
  split; [exact A|]. split; [exact B|]. split.
  - apply (proj1 (proj2 (X1_bpe_nacl_range (-1))) A).
  - apply (proj2 (proj2 (X1_bpe_nacl_range 20)) B).
Defined.

(** [X2].  The boiling-point elevation never decreases when the
    concentration increases. *)
Theorem X2_bpe_nacl_monotone (c c' : R) :
  c <= c' -> bpe_nacl c <= bpe_nacl c'.
Proof. apply bpe_nacl_mono. Qed.

Lemma X2_witness : 2 <= 12 /\ bpe_nacl 2 <= bpe_nacl 12.
Proof.
  assert (A : 2 <= 12) by lra.
  split; [exact A | apply (X2_bpe_nacl_monotone 2 12 A)].
Defined.

(** [X3].  The boiling temperature read from the table lies between 0 and
    151 degrees for every pressure; it is 0 up to 0.6 kPa and 151 from
    500 kPa on (no extrapolation). *)
Theorem X3_water_bp_temp_range (p : R) :
  0 <= water_bp_temp p <= 151 /\
  (p <= 0.6 -> water_bp_temp p = 0) /\
  (500 <= p -> water_bp_temp p = 151).
Proof.
  split; [|split; [apply water_bp_temp_low | apply water_bp_temp_clamped]].
  split.
  - rewrite <- (water_bp_temp_low (Rmin p 0.6)) by apply Rmin_r.
    apply water_bp_temp_mono, Rmin_l.
  - rewrite <- (water_bp_temp_clamped (Rmax p 500)) by apply Rmax_r.
    apply water_bp_temp_mono, Rmax_l.
Qed.

Lemma X3_witness :
  0.1 <= 0.6 /\ 500 <= 1100 /\
  water_bp_temp 0.1 = 0 /\ water_bp_temp 1100 = 151.
Proof.
  assert (A : 0.1 <= 0.6) by lra. assert (B : 500 <= 1100) by lra.
  split; [exact A|]. split; [exact B|]. split.
  - apply (proj1 (proj2 (X3_water_bp_temp_range 0.1)) A).
  - apply (proj2 (proj2 (X3_water_bp_temp_range 1100)) B).
Defined.

(** [X4].  Both lookups return the tabulated value at every tabulated
    point: [water_bp_temp] at the 15 pressures of its table, [bpe_nacl] at
    the 5 concentrations of its table. *)
Theorem X4_tables_reproduced :
  (forall p t, In (p, t) bp_table -> water_bp_temp p = t) /\
  (forall c b, In (c, b) bpe_table -> bpe_nacl c = b).
Proof.
  split.
  - intros p t Hin. rewrite water_bp_temp_pts.
    apply (interp_pts_node bp_table p t bp_table_ascending Hin).
  - intros c b Hin. destruct (Rle_dec c 0) as [Hc|Hc].
    + rewrite bpe_nacl_nonpos by exact Hc.
      simpl in Hin.
      repeat (destruct Hin as [E|Hin];
              [injection E as <- <-; try lra; try reflexivity|]).
      contradiction.
    + rewrite bpe_nacl_pts by lra.
      apply (interp_pts_node bpe_table c b bpe_table_ascending Hin).
Qed.

Lemma X4_witness :
  In (101.3, 100) bp_table /\ water_bp_temp 101.3 = 100 /\
  In (5, 1.5) bpe_table /\ bpe_nacl 5 = 1.5.
Proof.
  assert (A : In (101.3, 100) bp_table) by (simpl; tauto).
  assert (B : In (5, 1.5) bpe_table) by (simpl; tauto).
  split; [exact A|]. split; [apply (proj1 X4_tables_reproduced _ _ A)|].
  split; [exact B | apply (proj2 X4_tables_reproduced _ _ B)].
Defined.

(** [X5].  The table lookup is non-decreasing in the pressure, and strictly
    increasing between its end points 0.6 and 500 kPa. *)
Theorem X5_water_bp_temp_monotone (p p' : R) :
  p <= p' ->
  water_bp_temp p <= water_bp_temp p' /\
  (0.6 <= p -> p < p' -> p' <= 500 -> water_bp_temp p < water_bp_temp p').
Proof.
  intros H. split; [apply water_bp_temp_mono, H|].
  intros H1 H2 H3. apply water_bp_temp_strict; assumption.
Qed.

Lemma X5_witness :
  25 <= 200 /\ 0.6 <= 25 /\ 25 < 200 /\ 200 <= 500 /\
  water_bp_temp 25 < water_bp_temp 200.
Proof.
  assert (A : 25 <= 200) by lra. assert (B : 0.6 <= 25) by lra.
  assert (C : 25 < 200) by lra. assert (D : 200 <= 500) by lra.
  repeat (split; [assumption|]).
  apply (proj2 (X5_water_bp_temp_monotone 25 200 A) B C D).
Defined.

(** [X6].  The Antoine pressure is positive, and strictly increasing in the
    temperature above -233.426 degrees, where the correlation has its
    pole. *)
Theorem X6_water_bp_kpa_increasing (T1 T2 : R) :
  -233.426 < T1 -> T1 < T2 ->
  0 < water_bp_kpa T1 /\ water_bp_kpa T1 < water_bp_kpa T2.
Proof.
  intros H1 H2. rewrite !water_bp_kpa_eq. split.
  - apply Rmult_lt_0_compat; [apply exp_pos | lra].
  - apply Rmult_lt_compat_r; [lra|].
    apply Rpower_lt; [lra|].
    apply Rplus_lt_compat_l, Ropp_lt_contravar.
    unfold Rdiv. apply Rmult_lt_compat_l; [lra|].
    apply Rinv_lt_contravar; [apply Rmult_lt_0_compat; lra | lra].
Qed.

Lemma X6_witness :
  -233.426 < 60 /\ 60 < 100 /\
  0 < water_bp_kpa 60 /\ water_bp_kpa 60 < water_bp_kpa 100.
Proof.
  assert (A : -233.426 < 60) by lra. assert (B : 60 < 100) by lra.
  split; [exact A|]. split; [exact B|].
  apply (X6_water_bp_kpa_increasing 60 100 A B).
Defined.

(* ================================================================== *)
(** * Further lemmas on rounding, the trajectory and the cascade *)
(* ================================================================== *)

Lemma Int_part_ge_1 (y : R) : 1 <= y -> (1 <= Int_part y)%Z.
Proof.
  intros Hy. destruct (base_Int_part y) as [_ H].
  assert (H' : 0 < IZR (Int_part y)) by lra.
  apply lt_IZR in H'. lia.
Qed.

Lemma rint_ge_1 (y : R) : 1 <= y -> (1 <= rint y)%Z.
Proof.
  intros Hy. pose proof (Int_part_ge_1 y Hy). unfold rint.
  destruct (Rlt_dec (y - IZR (Int_part y)) (1 / 2)); [assumption|].
  destruct (Rlt_dec (1 / 2) (y - IZR (Int_part y))); [lia|].
  destruct (Z.even (Int_part y)); lia.
Qed.

(** Rounding to one decimal keeps a value of at least 0.1 at least 0.1. *)
Lemma round_1_floor (x : R) : 0.1 <= x -> 0.1 <= round x 1.
Proof.
  intros Hx. unfold round.
  assert (E : 10 ^ 1 = 10) by (simpl; lra). rewrite E.
  assert (H : (1 <= rint (x * 10))%Z) by (apply rint_ge_1; lra).
  apply IZR_le in H. lra.
Qed.

Lemma round_IZR_2 (z : Z) : round (IZR z / 100) 2 = IZR z / 100.
Proof.
  unfold round. assert (E : 10 ^ 2 = 100) by (simpl; lra). rewrite E.
  replace (IZR z / 100 * 100) with (IZR z) by lra.
  rewrite rint_IZR. reflexivity.
Qed.

Lemma driving_dT_floor (d : R) : 0.1 <= driving_dT d.
Proof. unfold driving_dT. destruct (Rle_dec d 0.1); lra. Qed.

Lemma driving_dT_id (d : R) : 0.1 < d -> driving_dT d = d.
Proof. intros H. unfold driving_dT. destruct (Rle_dec d 0.1); lra. Qed.

(** A point [d] steps of [(S - A) / n] above [A], [d <= n], lies between
    [A] and [S]. *)
Lemma steps_between (A S : R) (d n : nat) :
  (d <= n)%nat -> (0 < n)%nat ->
  Rmin A S <= A + INR d * ((S - A) / INR n) <= Rmax A S.
Proof.
  intros Hd Hn.
  assert (Hn' : 0 < INR n) by (apply lt_0_INR; exact Hn).
  assert (Hd0 : 0 <= INR d) by apply pos_INR.
  assert (Hdn : INR d <= INR n) by (apply le_INR; exact Hd).
  set (x := INR d / INR n).
  assert (Hx : 0 <= x <= 1).
  { unfold x. split.
    - apply Rmult_le_pos; [exact Hd0 | left; apply Rinv_0_lt_compat, Hn'].
    - apply Rmult_le_reg_r with (INR n); [exact Hn'|].
      unfold Rdiv. rewrite Rmult_assoc, Rinv_l by lra. lra. }
  replace (A + INR d * ((S - A) / INR n)) with (A + x * (S - A))
    by (unfold x; field; lra).
  unfold Rmin, Rmax. destruct (Rle_dec A S); split; nra.
Qed.

Lemma steps_strict (A S : R) (d d' n : nat) :
  (d < d')%nat -> (0 < n)%nat -> A < S ->
  A + INR d * ((S - A) / INR n) < A + INR d' * ((S - A) / INR n).
Proof.
  intros Hd Hn HAS.
  assert (Hn' : 0 < INR n) by (apply lt_0_INR; exact Hn).
  apply Rplus_lt_compat_l, Rmult_lt_compat_r; [|apply lt_INR, Hd].
  unfold Rdiv. apply Rmult_lt_0_compat; [lra | apply Rinv_0_lt_compat, Hn'].
Qed.

Lemma bpe_nacl_floor (x : R) : 0.003 <= bpe_nacl (Py.max 0.01 x) <= 7.
Proof.
  split.
  - apply Rle_trans with (bpe_nacl 0.01).
    + rewrite bpe_nacl_pts by lra. unfold bpe_table, interp_pts, interp_from.
      cbn [combine].
      destruct (Rlt_dec 0.01 0); [lra|]. destruct (Rlt_dec 0.01 1); lra.
    + apply bpe_nacl_mono. unfold Py.max. destruct (Rlt_dec 0.01 x); lra.
  - rewrite <- (bpe_nacl_clamped (Rmax (Py.max 0.01 x) 15)) by apply Rmax_r.
    apply bpe_nacl_mono, Rmax_l.
Qed.

Lemma water_bp_temp_25 : water_bp_temp 25 = 10 / 11.9 * 5.1 + 60.
Proof.
  rewrite water_bp_temp_pts. unfold bp_table, interp_pts, interp_from.
  repeat match goal with
         | |- context [Rlt_dec ?a ?b] => destruct (Rlt_dec a b); try lra
         end.
Qed.

Lemma water_bp_temp_25_bounds : 64 < water_bp_temp 25 < 65.
Proof. rewrite water_bp_temp_25. lra. Qed.

Lemma water_bp_temp_bounds (p : R) : 0 <= water_bp_temp p <= 151.
Proof.
  split.
  - rewrite <- (water_bp_temp_low (Rmin p 0.6)) by apply Rmin_r.
    apply water_bp_temp_mono, Rmin_l.
  - rewrite <- (water_bp_temp_clamped (Rmax p 500)) by apply Rmax_r.
    apply water_bp_temp_mono, Rmax_l.
Qed.

Lemma water_bp_temp_150 : 109 < water_bp_temp 150.
Proof.
  rewrite water_bp_temp_pts. unfold bp_table, interp_pts, interp_from.
  repeat match goal with
         | |- context [Rlt_dec ?a ?b] => destruct (Rlt_dec a b); try lra
         end.
Qed.

Lemma water_bp_kpa_pos (T : R) : 0 < water_bp_kpa T.
Proof.
  rewrite water_bp_kpa_eq. apply Rmult_lt_0_compat; [apply exp_pos | lra].
Qed.

Lemma int_nonneg (x : R) : 0 <= x -> (0 <= int x)%Z.
Proof.
  intros Hx. unfold int. destruct (Rle_dec 0 x); [|contradiction].
  destruct (base_Int_part x) as [_ H].
  assert (H' : -1 < IZR (Int_part x)) by lra.
  apply lt_IZR in H'. lia.
Qed.

Lemma truthy_nonempty (s : string) : truthy s = true <-> s <> ""%string.
Proof. destruct s; simpl; split; congruence. Qed.

Lemma run_bpes_value (n : nat) (ffm fdm tss pdm sp : R) (l : locals)
    (out : output) (j : nat) :
  run n ffm fdm tss pdm sp l out -> (j < n)%nat ->
  exists c, nth_error (dm_concs l) (j + 1) = Some c /\
            nth_error (bpes l) j = Some (bpe_nacl (Py.max 0.01 (c - tss))).
Proof.
  intros Hrun Hj.
  destruct (run_traj_facts _ _ _ _ _ _ _ _ Hrun) as (Hlen & _).
  destruct (compute_bpes_ok n (dm_concs l) tss Hlen) as (bs & Hbs & _ & Hv).
  rewrite (run_bpes _ _ _ _ _ _ _ _ Hrun) in Hbs. injection Hbs as <-.
  destruct (run_target _ _ _ _ _ _ _ _ Hrun j Hj) as (c & Hc).
  exists c. split; [exact Hc | apply (Hv j c Hj Hc)].
Qed.

Lemma run_bpes_bounded (n : nat) (ffm fdm tss pdm sp : R) (l : locals)
    (out : output) (j : nat) (b : R) :
  run n ffm fdm tss pdm sp l out ->
  nth_error (bpes l) j = Some b -> 0.003 <= b <= 7.
Proof.
  intros Hrun Hb.
  assert (Hj : (j < n)%nat).
  { rewrite <- (run_bpes_len _ _ _ _ _ _ _ _ Hrun). apply nth_error_Some.
    congruence. }
  destruct (run_bpes_value n _ _ _ _ _ l out j Hrun Hj) as (c & _ & Hb').
  rewrite Hb in Hb'. injection Hb' as ->. apply bpe_nacl_floor.
Qed.

(** The trajectory in closed form, the last sample included. *)
Lemma run_traj_value (n : nat) (ffm fdm tss pdm sp : R) (l : locals)
    (out : output) (i : nat) :
  run n ffm fdm tss pdm sp l out -> (1 <= n)%nat -> (i <= n)%nat ->
  nth_error (dm_concs l) i = Some (fdm + INR i * ((pdm - fdm) / INR n)).
Proof.
  intros Hrun Hn Hi.
  destruct (run_traj_facts _ _ _ _ _ _ _ _ Hrun) as (_ & _ & Hlast & Hmid).
  assert (Hn' : 0 < INR n) by (apply lt_0_INR; lia).
  destruct (Nat.eq_dec i n) as [->|Hne].
  - rewrite Hlast by lia. f_equal. field. lra.
  - rewrite Hmid by lia. f_equal. ring.
Qed.

Lemma run_last_bpe (n : nat) (ffm fdm tss pdm sp : R) (l : locals)
    (out : output) :
  run n ffm fdm tss pdm sp l out -> (1 <= n)%nat ->
  exists b_last, nth_error (bpes l) (n - 1) = Some b_last /\
                 0.003 <= b_last <= 7.
Proof.
  intros Hrun Hn.
  destruct (nth_error (bpes l) (n - 1)) as [bl|] eqn:Hbl.
  - exists bl. split; [reflexivity|].
    apply (run_bpes_bounded n _ _ _ _ _ l out (n - 1) bl Hrun Hbl).
  - apply nth_error_None in Hbl.
    rewrite (run_bpes_len _ _ _ _ _ _ _ _ Hrun) in Hbl. lia.
Qed.

Lemma run_steam_bounds (n : nat) (ffm fdm tss pdm sp : R) (l : locals)
    (out : output) :
  run n ffm fdm tss pdm sp l out -> 0 <= steam_temp_c l <= 151.
Proof.
  intros Hrun. rewrite (run_steam _ _ _ _ _ _ _ _ Hrun).
  apply water_bp_temp_bounds.
Qed.

(** Every boiling temperature lies between the boiling temperature of the
    last effect and the steam temperature. *)
Lemma run_bp_between (n : nat) (ffm fdm tss pdm sp : R) (l : locals)
    (out : output) (b_last : R) (i : nat) :
  run n ffm fdm tss pdm sp l out ->
  nth_error (bpes l) (n - 1) = Some b_last -> (i < n)%nat ->
  exists t, nth_error (bp_temp_c l) i = Some (Some t) /\
    Rmin (water_bp_temp 25 + b_last) (steam_temp_c l) <= t
      <= Rmax (water_bp_temp 25 + b_last) (steam_temp_c l).
Proof.
  intros Hrun Hbl Hi. eexists. split.
  - apply (run_bp_closed_form n _ _ _ _ _ l out b_last i Hrun Hbl Hi).
  - apply steps_between; lia.
Qed.

(** The differences the loop over the effects takes are all one step of the
    cascade. *)
Lemma first_diff (A S : R) (n : nat) :
  (1 <= n)%nat ->
  S - (A + INR (n - 1 - 0) * ((S - A) / INR n)) = (S - A) / INR n.
Proof.
  intros Hn. destruct n as [|m]; [lia|].
  replace (Datatypes.S m - 1 - 0)%nat with m by lia.
  rewrite S_INR. pose proof (pos_INR m). field. lra.
Qed.

Lemma next_diff (A D : R) (n i : nat) :
  (0 < i)%nat -> (i < n)%nat ->
  (A + INR (n - 1 - (i - 1)) * D) - (A + INR (n - 1 - i) * D) = D.
Proof.
  intros H0 Hi.
  replace (n - 1 - (i - 1))%nat with (Datatypes.S (n - 1 - i)) by lia.
  rewrite S_INR. ring.
Qed.

(** Every driving temperature difference is the step of the cascade, floored
    and rounded. *)
Lemma run_lmtd_value (n : nat) (ffm fdm tss pdm sp : R) (l : locals)
    (out : output) (b_last : R) (i : nat) :
  run n ffm fdm tss pdm sp l out -> run_report n ffm fdm tss pdm sp l out ->
  nth_error (bpes l) (n - 1) = Some b_last -> (i < n)%nat ->
  nth_error (lmtds l) i
  = Some (round (driving_dT (cascade_step (steam_temp_c l) b_last n)) 1).
Proof.
  intros Hrun Hrep Hbl Hi.
  assert (Hfill : filled (bp_temp_c l) n).
  { intros j Hj.
    destruct (run_cascade_at n _ _ _ _ _ l out j Hrun Hj)
      as (b & t & p & _ & Ht & _). eauto. }
  destruct (compute_lmtds_values n (steam_temp_c l) (bp_temp_c l) Hfill)
    as (lm & Hlm & _ & Hval).
  rewrite (rr_lmtds _ _ _ _ _ _ _ _ Hrep) in Hlm. injection Hlm as <-.
  destruct (Hval i Hi) as (hot & cold & Hhot & Hcold & ->).
  do 3 f_equal. unfold cascade_step.
  rewrite (run_bp_closed_form n _ _ _ _ _ l out b_last i Hrun Hbl Hi)
    in Hcold.
  injection Hcold as <-.
  destruct Hhot as [[-> ->]|[H0 Hhot]].
  - apply first_diff. lia.
  - rewrite (run_bp_closed_form n _ _ _ _ _ l out b_last (i - 1) Hrun Hbl)
      in Hhot by lia.
    injection Hhot as <-. apply next_diff; lia.
Qed.

Lemma run_row_lmtd (n : nat) (ffm fdm tss pdm sp : R) (l : locals)
    (out : output) (i : nat) (lm : R) :
  run_report n ffm fdm tss pdm sp l out -> (i < n)%nat ->
  nth_error (lmtds l) i = Some lm ->
  exists row, nth_error (Effects out) i = Some row /\ LMTD_C row = lm.
Proof.
  intros Hrep Hi Hlm.
  destruct (rr_rows _ _ _ _ _ _ _ _ Hrep i Hi)
    as (p & t & b & lm' & v & c & _ & _ & _ & Hlm' & _ & _ & Hrow).
  exists (row_of i p t b lm' v c). split; [exact Hrow|].
  cbn [row_of LMTD_C]. congruence.
Qed.

(* ================================================================== *)
(** * Further properties of the engine *)
(* ================================================================== *)

(** [X7].  For every effect count [N >= 0] the list of boiling-point
    elevations has one entry per effect, and every entry lies between 0.003
    and 7 degrees: the floor [max(0.01, .)] keeps the elevation positive
    even where the dissolved-solids concentration is zero or negative. *)
Theorem X7_bpes_bounded (N : Z) (ffm fdm tss ft pdm sp : R) :
  (0 <= N)%Z ->
  exists l,
    evaporator_locals N ffm fdm tss ft pdm sp = Ok l /\
    length (bpes l) = Z.to_nat N /\
    Forall (fun b => 0.003 <= b <= 7) (bpes l).
Proof.
  intros HN. set (n := Z.to_nat N). replace N with (Z.of_nat n) by lia.
  destruct (evaporator_calc_run n ffm fdm tss ft pdm sp)
    as (l & out & Hl & _ & Hrun).
  exists l. split; [exact Hl|].
  split; [apply (run_bpes_len _ _ _ _ _ _ _ _ Hrun)|].
  apply Forall_forall. intros b Hin.
  destruct (In_nth_error _ _ Hin) as (j & Hj).
  apply (run_bpes_bounded n _ _ _ _ _ l out j b Hrun Hj).
Qed.

Lemma X7_witness :
  (0 <= 3)%Z /\
  exists l,
    evaporator_locals 3 41.67 2.38 1.5 25 15 1 = Ok l /\
    length (bpes l) = Z.to_nat 3 /\
    Forall (fun b => 0.003 <= b <= 7) (bpes l).
Proof.
  split; [lia|].
  apply (X7_bpes_bounded 3 41.67 2.38 1.5 25 15 1). lia.
Defined.

(** [X8].  For every effect count [N >= 1] and every effect: the boiling
    temperature lies between the boiling temperature of the last effect and
    the steam temperature, hence between 0 and 151 degrees; the temperature
    handed to the Antoine correlation (boiling temperature minus the
    effect's elevation) is at least -7 degrees, so that the denominator of
    the correlation stays above 226; and the pressure of the effect is
    positive. *)
Theorem X8_boiling_temperatures_bounded (N : Z) (ffm fdm tss ft pdm sp : R) :
  (1 <= N)%Z ->
  exists l b_last,
    evaporator_locals N ffm fdm tss ft pdm sp = Ok l /\
    nth_error (bpes l) (Z.to_nat N - 1) = Some b_last /\
    forall i, (i < Z.to_nat N)%nat ->
      exists t b p,
        nth_error (bp_temp_c l) i = Some (Some t) /\
        nth_error (bpes l) i = Some b /\
        nth_error (eff_press_kpa l) i = Some (Some p) /\
        Rmin (water_bp_temp 25 + b_last) (steam_temp_c l) <= t
          <= Rmax (water_bp_temp 25 + b_last) (steam_temp_c l) /\
        0 <= t <= 151 /\
        226 < t - b + 233.426 /\
        (p = 25 \/ p = water_bp_kpa (t - b)) /\
        0 < p.
Proof.
  intros HN. set (n := Z.to_nat N). replace N with (Z.of_nat n) by lia.
  destruct (evaporator_calc_run n ffm fdm tss ft pdm sp)
    as (l & out & Hl & _ & Hrun).
  destruct (run_last_bpe n _ _ _ _ _ l out Hrun ltac:(lia))
    as (bl & Hbl & Hblb).
  exists l, bl. split; [exact Hl|]. split; [exact Hbl|].
  intros i Hi.
  destruct (run_bp_between n _ _ _ _ _ l out bl i Hrun Hbl Hi)
    as (t & Ht & Hbt).
  destruct (run_cascade_at n _ _ _ _ _ l out i Hrun Hi)
    as (b & t' & p & Hb & Ht' & Hp & H).
  assert (t' = t) by congruence. subst t'.
  pose proof (run_bpes_bounded n _ _ _ _ _ l out i b Hrun Hb) as Hbb.
  pose proof (run_steam_bounds n _ _ _ _ _ l out Hrun) as Hs.
  pose proof water_bp_temp_25_bounds as H25.
  assert (Ht01 : 0 <= t <= 151).
  { revert Hbt. unfold Rmin, Rmax.
    destruct (Rle_dec (water_bp_temp 25 + bl) (steam_temp_c l)); lra. }
  exists t, b, p. repeat split; try assumption; try lra.
  - destruct (Datatypes.S i =? n)%nat.
    + left. tauto.
    + right. destruct H as (t1 & b1 & _ & _ & _ & Hpp). exact Hpp.
  - destruct (Datatypes.S i =? n)%nat.
    + destruct H as [-> _]. lra.
    + destruct H as (t1 & b1 & _ & _ & _ & ->). apply water_bp_kpa_pos.
Qed.

Lemma X8_witness :
  (1 <= 3)%Z /\
  exists l b_last,
    evaporator_locals 3 41.67 2.38 1.5 25 15 1 = Ok l /\
    nth_error (bpes l) (Z.to_nat 3 - 1) = Some b_last /\
    forall i, (i < Z.to_nat 3)%nat ->
      exists t b p,
        nth_error (bp_temp_c l) i = Some (Some t) /\
        nth_error (bpes l) i = Some b /\
        nth_error (eff_press_kpa l) i = Some (Some p) /\
        Rmin (water_bp_temp 25 + b_last) (steam_temp_c l) <= t
          <= Rmax (water_bp_temp 25 + b_last) (steam_temp_c l) /\
        0 <= t <= 151 /\
        226 < t - b + 233.426 /\
        (p = 25 \/ p = water_bp_kpa (t - b)) /\
        0 < p.
Proof.
  split; [lia|].
  apply (X8_boiling_temperatures_bounded 3 41.67 2.38 1.5 25 15 1). lia.
Defined.

(** [X9].  For every effect count [N >= 1] all driving temperature
    differences are the same number: the step of the cascade, raised to 0.1
    where it is smaller, rounded to one decimal.  It is at least 0.1, and it
    is what every row of the report shows as its LMTD. *)
Theorem X9_lmtd_uniform (N : Z) (ffm fdm tss ft pdm sp : R) :
  (1 <= N)%Z ->
  exists l out b_last,
    evaporator_locals N ffm fdm tss ft pdm sp = Ok l /\
    evaporator_calc N ffm fdm tss ft pdm sp = Ok out /\
    nth_error (bpes l) (Z.to_nat N - 1) = Some b_last /\
    length (lmtds l) = Z.to_nat N /\
    0.1 <= round (driving_dT
                    (cascade_step (steam_temp_c l) b_last (Z.to_nat N))) 1 /\
    forall i, (i < Z.to_nat N)%nat ->
      exists row,
        nth_error (lmtds l) i
        = Some (round (driving_dT
                         (cascade_step (steam_temp_c l) b_last (Z.to_nat N)))
                      1) /\
        nth_error (Effects out) i = Some row /\
        LMTD_C row
        = round (driving_dT
                   (cascade_step (steam_temp_c l) b_last (Z.to_nat N))) 1.
Proof.
  intros HN. set (n := Z.to_nat N). replace N with (Z.of_nat n) by lia.
  destruct (evaporator_calc_report n ffm fdm tss ft pdm sp)
    as (l & out & Hl & Hout & Hrun & Hrep).
  destruct (run_last_bpe n _ _ _ _ _ l out Hrun ltac:(lia))
    as (bl & Hbl & _).
  exists l, out, bl. split; [exact Hl|]. split; [exact Hout|].
  split; [exact Hbl|].
  split; [apply (rr_len_lmtds _ _ _ _ _ _ _ _ Hrep)|].
  split; [apply round_1_floor, driving_dT_floor|].
  intros i Hi.
  pose proof (run_lmtd_value n _ _ _ _ _ l out bl i Hrun Hrep Hbl Hi) as Hlmi.
  destruct (run_row_lmtd n _ _ _ _ _ l out i _ Hrep Hi Hlmi)
    as (row & Hrow & Hl').
  exists row. split; [exact Hlmi|]. split; [exact Hrow | exact Hl'].
Qed.

Lemma X9_witness :
  (1 <= 3)%Z /\
  exists l out b_last,
    evaporator_locals 3 41.67 2.38 1.5 25 15 1 = Ok l /\
    evaporator_calc 3 41.67 2.38 1.5 25 15 1 = Ok out /\
    nth_error (bpes l) (Z.to_nat 3 - 1) = Some b_last /\
    length (lmtds l) = Z.to_nat 3 /\
    0.1 <= round (driving_dT
                    (cascade_step (steam_temp_c l) b_last (Z.to_nat 3))) 1 /\
    forall i, (i < Z.to_nat 3)%nat ->
      exists row,
        nth_error (lmtds l) i
        = Some (round (driving_dT
                         (cascade_step (steam_temp_c l) b_last (Z.to_nat 3)))
                      1) /\
        nth_error (Effects out) i = Some row /\
        LMTD_C row
        = round (driving_dT
                   (cascade_step (steam_temp_c l) b_last (Z.to_nat 3))) 1.
Proof.
  split; [lia|].
  apply (X9_lmtd_uniform 3 41.67 2.38 1.5 25 15 1). lia.
Defined.

(** With positive feed and product dry matter every sample of the
    trajectory is positive. *)
Lemma run_traj_positive (n : nat) (ffm fdm tss pdm sp : R) (l : locals)
    (out : output) (i : nat) :
  run n ffm fdm tss pdm sp l out -> (1 <= n)%nat -> (i <= n)%nat ->
  0 < fdm -> 0 < pdm ->
  0 < fdm + INR i * ((pdm - fdm) / INR n).
Proof.
  intros Hrun Hn Hi Hf Hp.
  destruct (steps_between fdm pdm i n Hi) as [H _]; [lia|].
  revert H. unfold Rmin. destruct (Rle_dec fdm pdm); lra.
Qed.

Lemma run_no_error_positive (n : nat) (ffm fdm tss pdm sp : R) (l : locals)
    (out : output) :
  run n ffm fdm tss pdm sp l out ->
  0 < ffm -> 0 < fdm -> 0 < pdm -> Error out = ""%string.
Proof.
  intros Hrun Hffm Hfdm Hpdm.
  apply (run_error_none _ _ _ _ _ _ _ _ Hrun).
  intros j c Hj Hc [H|H].
  - rewrite (run_traj_value n _ _ _ _ _ l out (j + 1) Hrun) in Hc by lia.
    injection Hc as <-.
    pose proof (run_traj_positive n _ _ _ _ _ l out (j + 1) Hrun
                  ltac:(lia) ltac:(lia) Hfdm Hpdm).
    lra.
  - rewrite (run_fd _ _ _ _ _ _ _ _ Hrun) in H. nra.
Qed.

(** With positive feed flow, feed and product dry matter, the concentrate
    flow at every index is the feed dry-matter mass over the sample of the
    trajectory at that index. *)
Lemma run_conc_closed_form (n : nat) (ffm fdm tss pdm sp : R) (l : locals)
    (out : output) (i : nat) :
  run n ffm fdm tss pdm sp l out -> (1 <= n)%nat -> (i <= n)%nat ->
  0 < ffm -> 0 < fdm -> 0 < pdm ->
  nth_error (stage_conc_flow (mb l)) i
  = Some (feed_dm_kgph l / ((fdm + INR i * ((pdm - fdm) / INR n)) / 100)).
Proof.
  intros Hrun Hn Hi Hffm Hfdm Hpdm.
  pose proof (run_fd _ _ _ _ _ _ _ _ Hrun) as Efd.
  pose proof (run_ff _ _ _ _ _ _ _ _ Hrun) as Eff.
  pose proof (run_inv _ _ _ _ _ _ _ _ Hrun) as I.
  destruct i as [|i].
  - rewrite (inv_conc0 _ _ _ _ _ I). f_equal. simpl INR.
    rewrite Rmult_0_l, Rplus_0_r, Efd, Eff. field. lra.
  - replace (Datatypes.S i) with (i + 1)%nat by lia.
    pose proof (run_traj_value n _ _ _ _ _ l out (i + 1) Hrun Hn ltac:(lia))
      as Hc.
    pose proof (run_traj_positive n _ _ _ _ _ l out (i + 1) Hrun Hn
                  ltac:(lia) Hfdm Hpdm) as Hpos.
    destruct (run_stage _ _ _ _ _ _ _ _ Hrun i _ ltac:(lia) Hc)
      as (pc & _ & H1 & _).
    rewrite stage_flows_ok in H1 by (try exact Hpos; rewrite Efd; nra).
    exact H1.
Qed.

Lemma run_vap_closed_form (n : nat) (ffm fdm tss pdm sp : R) (l : locals)
    (out : output) (j : nat) :
  run n ffm fdm tss pdm sp l out -> (j < n)%nat ->
  0 < ffm -> 0 < fdm -> 0 < pdm ->
  nth_error (stage_vap_kgph (mb l)) j
  = Some (feed_dm_kgph l / ((fdm + INR j * ((pdm - fdm) / INR n)) / 100)
          - feed_dm_kgph l
            / ((fdm + INR (j + 1) * ((pdm - fdm) / INR n)) / 100)).
Proof.
  intros Hrun Hj Hffm Hfdm Hpdm.
  pose proof (run_fd _ _ _ _ _ _ _ _ Hrun) as Efd.
  pose proof (run_traj_value n _ _ _ _ _ l out (j + 1) Hrun
                ltac:(lia) ltac:(lia)) as Hc.
  pose proof (run_traj_positive n _ _ _ _ _ l out (j + 1) Hrun
                ltac:(lia) ltac:(lia) Hfdm Hpdm) as Hpos.
  destruct (run_stage _ _ _ _ _ _ _ _ Hrun j _ Hj Hc) as (pc & Hpc & _ & H2).
  rewrite stage_flows_ok in H2 by (try exact Hpos; rewrite Efd; nra).
  rewrite (run_conc_closed_form n _ _ _ _ _ l out j Hrun) in Hpc
    by (assumption || lia).
  injection Hpc as <-. exact H2.
Qed.

(** The quotient [fd / (c / 100)] decreases when the target [c] grows. *)
Lemma conc_antitone (fd c c' : R) :
  0 < fd -> 0 < c -> c < c' -> fd / (c' / 100) < fd / (c / 100).
Proof.
  intros Hfd Hc Hlt. unfold Rdiv at 1 3.
  apply Rmult_lt_compat_l; [exact Hfd|].
  apply Rinv_lt_contravar; [apply Rmult_lt_0_compat; lra | lra].
Qed.

Lemma conc_positive (fd c : R) : 0 < fd -> 0 < c -> 0 < fd / (c / 100).
Proof.
  intros Hfd Hc. unfold Rdiv at 1.
  apply Rmult_lt_0_compat; [exact Hfd | apply Rinv_0_lt_compat; lra].
Qed.

(** [X10].  A concentrating run: with [N >= 1] effects, a positive feed
    flow and [0 < feed DM < product DM], no error is reported, the
    concentrate flow strictly decreases from stage to stage and stays
    positive, every stage evaporates a positive amount of water, the flow
    entering the first stage is the feed flow and the flow leaving the last
    stage is the product flow. *)
Theorem X10_concentrating_run (N : Z) (ffm fdm tss ft pdm sp : R) :
  (1 <= N)%Z -> 0 < ffm -> 0 < fdm -> fdm < pdm ->
  exists l out,
    evaporator_locals N ffm fdm tss ft pdm sp = Ok l /\
    evaporator_calc N ffm fdm tss ft pdm sp = Ok out /\
    Error out = ""%string /\
    nth_error (stage_conc_flow (mb l)) 0 = Some (ffm * 1000) /\
    nth_error (stage_conc_flow (mb l)) (Z.to_nat N)
      = Some (prod_flow_kgph l) /\
    forall j, (j < Z.to_nat N)%nat ->
      exists prev c v,
        nth_error (stage_conc_flow (mb l)) j = Some prev /\
        nth_error (stage_conc_flow (mb l)) (j + 1) = Some c /\
        nth_error (stage_vap_kgph (mb l)) j = Some v /\
        0 < c /\ c < prev /\ v = prev - c /\ 0 < v.
Proof.
  intros HN Hffm Hfdm Hlt. set (n := Z.to_nat N).
  replace N with (Z.of_nat n) by lia.
  assert (Hpdm : 0 < pdm) by lra.
  destruct (evaporator_calc_run n ffm fdm tss ft pdm sp)
    as (l & out & Hl & Hout & Hrun).
  pose proof (run_fd _ _ _ _ _ _ _ _ Hrun) as Efd.
  pose proof (run_ff _ _ _ _ _ _ _ _ Hrun) as Eff.
  assert (Hfd : 0 < feed_dm_kgph l) by (rewrite Efd; nra).
  assert (Hn : 0 < INR n) by (apply lt_0_INR; lia).
  exists l, out. split; [exact Hl|]. split; [exact Hout|].
  split; [apply (run_no_error_positive n _ _ _ _ _ l out Hrun); assumption|].
  split; [rewrite <- Eff;
          apply (inv_conc0 _ _ _ _ _ (run_inv _ _ _ _ _ _ _ _ Hrun))|].
  split.
  - rewrite (run_conc_closed_form n _ _ _ _ _ l out n Hrun)
      by (assumption || lia).
    f_equal. rewrite (run_prod _ _ _ _ _ _ _ _ Hrun). unfold prod_flow_of.
    destruct (Rlt_dec 0 pdm); [|lra]. do 2 f_equal. field. lra.
  - intros j Hj.
    pose proof (run_traj_positive n _ _ _ _ _ l out j Hrun
                  ltac:(lia) ltac:(lia) Hfdm Hpdm) as Pj.
    pose proof (steps_strict fdm pdm j (j + 1) n ltac:(lia) ltac:(lia) Hlt)
      as Ij.
    pose proof (conc_antitone (feed_dm_kgph l) _ _ Hfd Pj Ij) as Hc.
    pose proof (conc_positive (feed_dm_kgph l) _ Hfd (Rlt_trans _ _ _ Pj Ij))
      as Hc0.
    eexists; eexists; eexists.
    split; [apply (run_conc_closed_form n _ _ _ _ _ l out j Hrun);
            assumption || lia|].
    split; [apply (run_conc_closed_form n _ _ _ _ _ l out (j + 1) Hrun);
            assumption || lia|].
    split; [apply (run_vap_closed_form n _ _ _ _ _ l out j Hrun);
            assumption|].
    repeat split; try assumption. lra.
Qed.

Lemma X10_witness :
  (1 <= 3)%Z /\ 0 < 41.67 /\ 0 < 2.38 /\ 2.38 < 15 /\
  exists l out,
    evaporator_locals 3 41.67 2.38 1.5 25 15 1 = Ok l /\
    evaporator_calc 3 41.67 2.38 1.5 25 15 1 = Ok out /\
    Error out = ""%string /\
    nth_error (stage_conc_flow (mb l)) 0 = Some (41.67 * 1000) /\
    nth_error (stage_conc_flow (mb l)) (Z.to_nat 3)
      = Some (prod_flow_kgph l) /\
    forall j, (j < Z.to_nat 3)%nat ->
      exists prev c v,
        nth_error (stage_conc_flow (mb l)) j = Some prev /\
        nth_error (stage_conc_flow (mb l)) (j + 1) = Some c /\
        nth_error (stage_vap_kgph (mb l)) j = Some v /\
        0 < c /\ c < prev /\ v = prev - c /\ 0 < v.
Proof.
  assert (A : (1 <= 3)%Z) by lia. assert (B : 0 < 41.67) by lra.
  assert (C : 0 < 2.38) by lra. assert (D : 2.38 < 15) by lra.
  split; [exact A|]. split; [exact B|]. split; [exact C|]. split; [exact D|].
  apply (X10_concentrating_run 3 41.67 2.38 1.5 25 15 1 A B C D).
Defined.

(** [X11].  A dilution target: with [N >= 1] effects, a positive feed flow
    and [0 < product DM < feed DM], the call reports no error although the
    product mass flow exceeds the feed mass flow, the evaporated water is
    negative (the report shows a non-positive integer), and every stage has
    a negative vapour flow and a concentrate flow above the one entering
    it. *)
Theorem X11_dilution_run (N : Z) (ffm fdm tss ft pdm sp : R) :
  (1 <= N)%Z -> 0 < ffm -> 0 < pdm -> pdm < fdm ->
  exists l out,
    evaporator_locals N ffm fdm tss ft pdm sp = Ok l /\
    evaporator_calc N ffm fdm tss ft pdm sp = Ok out /\
    Error out = ""%string /\
    feed_flow_kgph l < prod_flow_kgph l /\
    evap_kgph l < 0 /\
    (Water_Evaporated_kgph out <= 0)%Z /\
    forall j, (j < Z.to_nat N)%nat ->
      exists prev c v,
        nth_error (stage_conc_flow (mb l)) j = Some prev /\
        nth_error (stage_conc_flow (mb l)) (j + 1) = Some c /\
        nth_error (stage_vap_kgph (mb l)) j = Some v /\
        prev < c /\ v = prev - c /\ v < 0.
Proof.
  intros HN Hffm Hpdm Hlt. set (n := Z.to_nat N).
  replace N with (Z.of_nat n) by lia.
  assert (Hfdm : 0 < fdm) by lra.
  destruct (evaporator_calc_run n ffm fdm tss ft pdm sp)
    as (l & out & Hl & Hout & Hrun).
  pose proof (run_fd _ _ _ _ _ _ _ _ Hrun) as Efd.
  pose proof (run_ff _ _ _ _ _ _ _ _ Hrun) as Eff.
  pose proof (run_evap _ _ _ _ _ _ _ _ Hrun) as Eev.
  assert (Hfd : 0 < feed_dm_kgph l) by (rewrite Efd; nra).
  assert (Hn : 0 < INR n) by (apply lt_0_INR; lia).
  assert (Hprod : feed_flow_kgph l < prod_flow_kgph l).
  { rewrite (run_prod _ _ _ _ _ _ _ _ Hrun). unfold prod_flow_of.
    destruct (Rlt_dec 0 pdm); [|lra].
    replace (feed_flow_kgph l) with (feed_dm_kgph l / (fdm / 100))
      by (rewrite Efd, Eff; field; lra).
    apply conc_antitone; assumption. }
  exists l, out. split; [exact Hl|]. split; [exact Hout|].
  split; [apply (run_no_error_positive n _ _ _ _ _ l out Hrun); assumption|].
  split; [exact Hprod|]. split; [lra|].
  split.
  { rewrite (run_water _ _ _ _ _ _ _ _ Hrun). unfold int.
    destruct (Rle_dec 0 (evap_kgph l)); [lra|].
    destruct (base_Int_part (- evap_kgph l)) as [_ H].
    assert (H' : -1 < IZR (Int_part (- evap_kgph l))) by lra.
    apply lt_IZR in H'. lia. }
  intros j Hj.
  pose proof (run_traj_positive n _ _ _ _ _ l out (j + 1) Hrun
                ltac:(lia) ltac:(lia) Hfdm Hpdm) as Pj1.
  assert (Ij : fdm + INR (j + 1) * ((pdm - fdm) / INR n)
               < fdm + INR j * ((pdm - fdm) / INR n)).
  { apply Rplus_lt_compat_l.
    assert (Hd : (pdm - fdm) / INR n < 0).
    { pose proof (Rinv_0_lt_compat _ Hn). unfold Rdiv. nra. }
    rewrite plus_INR. simpl INR. nra. }
  pose proof (conc_antitone (feed_dm_kgph l) _ _ Hfd Pj1 Ij) as Hc.
  eexists; eexists; eexists.
  split; [apply (run_conc_closed_form n _ _ _ _ _ l out j Hrun);
          assumption || lia|].
  split; [apply (run_conc_closed_form n _ _ _ _ _ l out (j + 1) Hrun);
          assumption || lia|].
  split; [apply (run_vap_closed_form n _ _ _ _ _ l out j Hrun);
          assumption|].
  repeat split; try assumption. lra.
Qed.

Lemma X11_witness :
  (1 <= 2)%Z /\ 0 < 1 /\ 0 < 10 /\ 10 < 30 /\
  exists l out,
    evaporator_locals 2 1 30 0 25 10 1 = Ok l /\
    evaporator_calc 2 1 30 0 25 10 1 = Ok out /\
    Error out = ""%string /\
    feed_flow_kgph l < prod_flow_kgph l /\
    evap_kgph l < 0 /\
    (Water_Evaporated_kgph out <= 0)%Z /\
    forall j, (j < Z.to_nat 2)%nat ->
      exists prev c v,
        nth_error (stage_conc_flow (mb l)) j = Some prev /\
        nth_error (stage_conc_flow (mb l)) (j + 1) = Some c /\
        nth_error (stage_vap_kgph (mb l)) j = Some v /\
        prev < c /\ v = prev - c /\ v < 0.
Proof.
  assert (A : (1 <= 2)%Z) by lia. assert (B : 0 < 1) by lra.
  assert (C : 0 < 10) by lra. assert (D : 10 < 30) by lra.
  split; [exact A|]. split; [exact B|]. split; [exact C|]. split; [exact D|].
  apply (X11_dilution_run 2 1 30 0 25 10 1 A B C D).
Defined.

Lemma round_steam_econ (p : R) : round (steam_econ_of p) 2 = steam_econ_of p.
Proof.
  unfold steam_econ_of.
  destruct (Rlt_dec p 12); [|destruct (Rlt_dec p 18)].
  - replace 2.3 with (IZR 230 / 100) by lra. apply round_IZR_2.
  - replace 2.1 with (IZR 210 / 100) by lra. apply round_IZR_2.
  - replace 1.8 with (IZR 180 / 100) by lra. apply round_IZR_2.
Qed.

Lemma steam_econ_of_bounds (p : R) : 1.8 <= steam_econ_of p <= 2.3.
Proof.
  unfold steam_econ_of.
  destruct (Rlt_dec p 12); [lra|]. destruct (Rlt_dec p 18); lra.
Qed.

(** [X12].  The summary fields of the report, for every effect count
    [N >= 0]: the four inputs are echoed unchanged; the dissolved-solids
    percentage is feed DM minus feed TSS rounded to two decimals for a
    positive feed flow, and 0 otherwise; the product volume flow is
    [feed flow * feed DM / product DM] rounded to two decimals for a positive
    product DM, and 0 otherwise; the steam economy is shown as it is chosen,
    and the steam temperature is the table value at the absolute pressure
    [(gauge + 1) * 100] kPa rounded to one decimal. *)
Theorem X12_summary_fields (N : Z) (ffm fdm tss ft pdm sp : R) :
  (0 <= N)%Z ->
  exists out,
    evaporator_calc N ffm fdm tss ft pdm sp = Ok out /\
    Feed_Flow_m3h out = ffm /\ Feed_DM_pct out = fdm /\
    Feed_TSS_pct out = tss /\ Product_DM_pct out = pdm /\
    (0 < ffm -> Feed_TDS_pct out = round (fdm - tss) 2) /\
    (ffm <= 0 -> Feed_TDS_pct out = 0) /\
    (0 < pdm -> Product_Flow_m3h out = round (ffm * fdm / pdm) 2) /\
    (pdm <= 0 -> Product_Flow_m3h out = 0) /\
    Steam_Economy out = steam_econ_of pdm /\
    Steam_Temp_C out = round (water_bp_temp ((sp + 1) * 100)) 1.
Proof.
  intros HN. set (n := Z.to_nat N). replace N with (Z.of_nat n) by lia.
  destruct (evaporator_calc_report n ffm fdm tss ft pdm sp)
    as (l & out & _ & Hout & Hrun & Hrep).
  pose proof (run_fd _ _ _ _ _ _ _ _ Hrun) as Efd.
  pose proof (run_ff _ _ _ _ _ _ _ _ Hrun) as Eff.
  pose proof (rr_tds _ _ _ _ _ _ _ _ Hrep) as Etds.
  pose proof (rr_prod_m3h _ _ _ _ _ _ _ _ Hrep) as Epm.
  pose proof (run_prod _ _ _ _ _ _ _ _ Hrun) as Ep.
  pose proof (rr_econ _ _ _ _ _ _ _ _ Hrep) as Ee.
  pose proof (run_steam _ _ _ _ _ _ _ _ Hrun) as Es.
  exists out. split; [exact Hout|].
  rewrite (rr_out _ _ _ _ _ _ _ _ Hrep).
  cbn [Feed_Flow_m3h Feed_DM_pct Feed_TSS_pct Product_DM_pct Feed_TDS_pct
       Product_Flow_m3h Steam_Economy Steam_Temp_C].
  repeat (split; [reflexivity|]).
  split; [|split; [|split; [|split; [|split]]]].
  - intros Hf. destruct (Rlt_dec 0 (feed_flow_kgph l)); [|lra].
    f_equal. rewrite Etds, Efd, Eff. field. lra.
  - intros Hf. destruct (Rlt_dec 0 (feed_flow_kgph l)); [lra | reflexivity].
  - intros Hp. f_equal. rewrite Epm, Ep, Efd. unfold prod_flow_of.
    destruct (Rlt_dec 0 pdm); [|lra]. field. lra.
  - intros Hp. rewrite Epm, Ep. unfold prod_flow_of.
    destruct (Rlt_dec 0 pdm); [lra|].
    replace (0 / 1000) with 0 by lra. apply round_0.
  - rewrite Ee. apply round_steam_econ.
  - now rewrite Es.
Qed.

Lemma X12_witness :
  (0 <= 3)%Z /\ 0 < 41.67 /\ 0 < 15 /\
  exists out,
    evaporator_calc 3 41.67 2.38 1.5 25 15 1 = Ok out /\
    Feed_TDS_pct out = round (2.38 - 1.5) 2 /\
    Product_Flow_m3h out = round (41.67 * 2.38 / 15) 2.
Proof.
  assert (A : (0 <= 3)%Z) by lia. assert (B : 0 < 41.67) by lra.
  assert (C : 0 < 15) by lra.
  split; [exact A|]. split; [exact B|]. split; [exact C|].
  destruct (X12_summary_fields 3 41.67 2.38 1.5 25 15 1 A)
    as (out & Hout & _ & _ & _ & _ & Htds & _ & Hprod & _).
  exists out. split; [exact Hout|]. split; [exact (Htds B) | exact (Hprod C)].
Defined.

(** [X13].  The energy figures, for every effect count [N >= 0]: the steam
    economy is 2.3, 2.1 or 1.8, never zero, so the division by it always
    happens; steam needed times steam economy is the evaporated water, steam
    power times steam economy is the total thermal load, the condenser load
    is the total thermal load times 2350/2300; for a non-negative
    evaporation the steam needed lies between the evaporation over 2.3 and
    over 1.8.  The report shows the four figures truncated to integers. *)
Theorem X13_energy_figures (N : Z) (ffm fdm tss ft pdm sp : R) :
  (0 <= N)%Z ->
  exists l out,
    evaporator_locals N ffm fdm tss ft pdm sp = Ok l /\
    evaporator_calc N ffm fdm tss ft pdm sp = Ok out /\
    steam_econ l = steam_econ_of pdm /\
    (steam_econ l = 2.3 \/ steam_econ l = 2.1 \/ steam_econ l = 1.8) /\
    steam_needed_kgph l * steam_econ l = evap_kgph l /\
    total_thermal_kW l = evap_kgph l * 2300 / 3600 /\
    steam_power_kW l * steam_econ l = total_thermal_kW l /\
    condenser_kW l = total_thermal_kW l * (2350 / 2300) /\
    (0 <= evap_kgph l ->
     evap_kgph l / 2.3 <= steam_needed_kgph l <= evap_kgph l / 1.8) /\
    Water_Evaporated_kgph out = int (evap_kgph l) /\
    Steam_Needed_kgph out = int (steam_needed_kgph l) /\
    Steam_Power_kW out = int (steam_power_kW l) /\
    Total_Thermal_Load_kW out = int (total_thermal_kW l) /\
    Final_Stage_Condenser_Load_kW out = int (condenser_kW l).
Proof.
  intros HN. set (n := Z.to_nat N). replace N with (Z.of_nat n) by lia.
  destruct (evaporator_calc_report n ffm fdm tss ft pdm sp)
    as (l & out & Hl & Hout & Hrun & Hrep).
  pose proof (rr_econ _ _ _ _ _ _ _ _ Hrep) as Ee.
  pose proof (rr_steam _ _ _ _ _ _ _ _ Hrep) as Es.
  pose proof (rr_thermal _ _ _ _ _ _ _ _ Hrep) as Et.
  pose proof (rr_power _ _ _ _ _ _ _ _ Hrep) as Ep.
  pose proof (rr_cond _ _ _ _ _ _ _ _ Hrep) as Ec.
  pose proof (steam_econ_of_bounds pdm) as Hb. rewrite <- Ee in Hb.
  exists l, out. split; [exact Hl|]. split; [exact Hout|].
  split; [exact Ee|].
  split.
  { rewrite Ee. unfold steam_econ_of.
    destruct (Rlt_dec pdm 12); [auto|]. destruct (Rlt_dec pdm 18); auto. }
  split; [rewrite Es; field; lra|].
  split; [exact Et|].
  split; [rewrite Ep, Et, Es; field; lra|].
  split; [rewrite Ec, Et; field|].
  split.
  { intros He. rewrite Es. unfold Rdiv. split.
    - apply Rmult_le_compat_l; [exact He|].
      apply Rinv_le_contravar; lra.
    - apply Rmult_le_compat_l; [exact He|].
      apply Rinv_le_contravar; lra. }
  rewrite (rr_out _ _ _ _ _ _ _ _ Hrep).
  repeat split.
Qed.

Lemma X13_witness :
  (0 <= 3)%Z /\
  exists l out,
    evaporator_locals 3 41.67 2.38 1.5 25 15 1 = Ok l /\
    evaporator_calc 3 41.67 2.38 1.5 25 15 1 = Ok out /\
    steam_econ l = steam_econ_of 15 /\
    steam_needed_kgph l * steam_econ l = evap_kgph l /\
    steam_power_kW l * steam_econ l = total_thermal_kW l.
Proof.
  split; [lia|].
  destruct (X13_energy_figures 3 41.67 2.38 1.5 25 15 1 ltac:(lia))
    as (l & out & Hl & Hout & He & _ & Hs & _ & Hp & _).
  exists l, out. repeat split; assumption.
Defined.

(** [X14].  With a non-negative feed flow and [0 < feed DM <= product DM],
    for every effect count [N >= 0]: the product mass flow is the feed mass
    flow times [feed DM / product DM], product flow and evaporated water
    both lie between 0 and the feed mass flow, and the integers the report
    shows for evaporated water, steam needed and the three loads are
    non-negative. *)
Theorem X14_evaporation_bounds (N : Z) (ffm fdm tss ft pdm sp : R) :
  (0 <= N)%Z -> 0 <= ffm -> 0 < fdm -> fdm <= pdm ->
  exists l out,
    evaporator_locals N ffm fdm tss ft pdm sp = Ok l /\
    evaporator_calc N ffm fdm tss ft pdm sp = Ok out /\
    prod_flow_kgph l = ffm * 1000 * (fdm / pdm) /\
    evap_kgph l = ffm * 1000 * (1 - fdm / pdm) /\
    0 <= prod_flow_kgph l <= ffm * 1000 /\
    0 <= evap_kgph l <= ffm * 1000 /\
    (0 <= Water_Evaporated_kgph out)%Z /\
    (0 <= Steam_Needed_kgph out)%Z /\
    (0 <= Steam_Power_kW out)%Z /\
    (0 <= Total_Thermal_Load_kW out)%Z /\
    (0 <= Final_Stage_Condenser_Load_kW out)%Z.
Proof.
  intros HN Hffm Hfdm Hle. set (n := Z.to_nat N).
  replace N with (Z.of_nat n) by lia.
  destruct (evaporator_calc_report n ffm fdm tss ft pdm sp)
    as (l & out & Hl & Hout & Hrun & Hrep).
  pose proof (run_fd _ _ _ _ _ _ _ _ Hrun) as Efd.
  pose proof (run_ff _ _ _ _ _ _ _ _ Hrun) as Eff.
  pose proof (run_evap _ _ _ _ _ _ _ _ Hrun) as Eev.
  pose proof (rr_econ _ _ _ _ _ _ _ _ Hrep) as Ee.
  pose proof (rr_steam _ _ _ _ _ _ _ _ Hrep) as Es.
  pose proof (rr_thermal _ _ _ _ _ _ _ _ Hrep) as Et.
  pose proof (rr_power _ _ _ _ _ _ _ _ Hrep) as Ep.
  pose proof (rr_cond _ _ _ _ _ _ _ _ Hrep) as Ec.
  pose proof (steam_econ_of_bounds pdm) as Hb. rewrite <- Ee in Hb.
  assert (Hprod : prod_flow_kgph l = ffm * 1000 * (fdm / pdm)).
  { rewrite (run_prod _ _ _ _ _ _ _ _ Hrun), Efd. unfold prod_flow_of.
    destruct (Rlt_dec 0 pdm); [|lra]. field. lra. }
  assert (Hq : 0 < fdm / pdm <= 1).
  { split.
    - apply Rmult_lt_0_compat; [lra | apply Rinv_0_lt_compat; lra].
    - apply Rmult_le_reg_r with pdm; [lra|].
      unfold Rdiv. rewrite Rmult_assoc, Rinv_l by lra. lra. }
  assert (Hevap : evap_kgph l = ffm * 1000 * (1 - fdm / pdm))
    by (rewrite Eev, Eff, Hprod; ring).
  assert (Hpb : 0 <= prod_flow_kgph l <= ffm * 1000)
    by (rewrite Hprod; split; nra).
  assert (Heb : 0 <= evap_kgph l <= ffm * 1000)
    by (rewrite Hevap; split; nra).
  assert (Hsn : 0 <= steam_needed_kgph l).
  { rewrite Es. apply Rmult_le_pos; [lra|].
    left. apply Rinv_0_lt_compat. lra. }
  exists l, out. split; [exact Hl|]. split; [exact Hout|].
  split; [exact Hprod|]. split; [exact Hevap|].
  split; [exact Hpb|]. split; [exact Heb|].
  rewrite (rr_out _ _ _ _ _ _ _ _ Hrep).
  cbn [Water_Evaporated_kgph Steam_Needed_kgph Steam_Power_kW
       Total_Thermal_Load_kW Final_Stage_Condenser_Load_kW].
  repeat split; apply int_nonneg; try lra.
Qed.

Lemma X14_witness :
  (0 <= 3)%Z /\ 0 <= 41.67 /\ 0 < 2.38 /\ 2.38 <= 15 /\
  exists l out,
    evaporator_locals 3 41.67 2.38 1.5 25 15 1 = Ok l /\
    evaporator_calc 3 41.67 2.38 1.5 25 15 1 = Ok out /\
    0 <= evap_kgph l <= 41.67 * 1000 /\
    (0 <= Water_Evaporated_kgph out)%Z.
Proof.
  assert (A : (0 <= 3)%Z) by lia. assert (B : 0 <= 41.67) by lra.
  assert (C : 0 < 2.38) by lra. assert (D : 2.38 <= 15) by lra.
  split; [exact A|]. split; [exact B|]. split; [exact C|]. split; [exact D|].
  destruct (X14_evaporation_bounds 3 41.67 2.38 1.5 25 15 1 A B C D)
    as (l & out & Hl & Hout & _ & _ & _ & He & Hw & _).
  exists l, out. repeat split; try assumption; apply He.
Defined.

(** [X15].  A feed without dry matter: when the feed dry-matter mass is
    zero (feed DM or feed flow is 0) and the product DM is positive, for
    every effect count [N >= 1] the report carries the message
    "Zero dry matter in effect N", every row has zero vapour and concentrate
    flows, the product flow is 0 and the evaporated water shown is the whole
    feed mass flow. *)
Theorem X15_zero_feed_dry_matter (N : Z) (ffm fdm tss ft pdm sp : R) :
  (1 <= N)%Z -> fdm = 0 \/ ffm = 0 -> 0 < pdm ->
  exists out,
    evaporator_calc N ffm fdm tss ft pdm sp = Ok out /\
    Error out = msg_dm_zero (Z.to_nat N) /\
    (forall i, (i < Z.to_nat N)%nat ->
       exists row, nth_error (Effects out) i = Some row /\
                   Effect row = (i + 1)%nat /\ zero_flows row) /\
    Product_Flow_m3h out = 0 /\
    Water_Evaporated_kgph out = int (ffm * 1000).
Proof.
  intros HN Hz Hpdm. set (n := Z.to_nat N).
  replace N with (Z.of_nat n) by lia.
  destruct (evaporator_calc_report n ffm fdm tss ft pdm sp)
    as (l & out & _ & Hout & Hrun & Hrep).
  pose proof (run_fd _ _ _ _ _ _ _ _ Hrun) as Efd.
  pose proof (run_ff _ _ _ _ _ _ _ _ Hrun) as Eff.
  assert (Hfd : feed_dm_kgph l = 0)
    by (rewrite Efd; destruct Hz as [-> | ->]; lra).
  assert (Hprod : prod_flow_kgph l = 0).
  { rewrite (run_prod _ _ _ _ _ _ _ _ Hrun), Hfd. unfold prod_flow_of.
    destruct (Rlt_dec 0 pdm); [|reflexivity].
    unfold Rdiv. apply Rmult_0_l. }
  destruct (run_traj_facts _ _ _ _ _ _ _ _ Hrun) as (_ & _ & Hlast & _).
  exists out. split; [exact Hout|]. split; [|split; [|split]].
  - apply (run_error_last _ _ _ _ _ _ _ _ Hrun (n - 1) pdm).
    + lia.
    + replace (n - 1 + 1)%nat with n by lia. apply Hlast. lia.
    + unfold stage_error. replace (n - 1 + 1)%nat with n by lia.
      destruct (Rle_dec (pdm / 100) 0); [lra|].
      destruct (Req_dec_T (feed_dm_kgph l) 0); [reflexivity | contradiction].
    + intros j' c' Hj'. lia.
  - intros i Hi.
    destruct (run_target _ _ _ _ _ _ _ _ Hrun i Hi) as (c & Hc).
    apply (run_failed_row n _ _ _ _ _ l out i c Hrun Hi Hc).
    right. exact Hfd.
  - rewrite (rr_out _ _ _ _ _ _ _ _ Hrep). cbn [Product_Flow_m3h].
    rewrite (rr_prod_m3h _ _ _ _ _ _ _ _ Hrep), Hprod.
    replace (0 / 1000) with 0 by lra. apply round_0.
  - rewrite (run_water _ _ _ _ _ _ _ _ Hrun),
            (run_evap _ _ _ _ _ _ _ _ Hrun), Hprod, Eff.
    f_equal. ring.
Qed.

Lemma X15_witness :
  (1 <= 3)%Z /\ (0 = 0 \/ 41.67 = 0) /\ 0 < 15 /\
  exists out,
    evaporator_calc 3 41.67 0 1.5 25 15 1 = Ok out /\
    Error out = msg_dm_zero (Z.to_nat 3) /\
    (forall i, (i < Z.to_nat 3)%nat ->
       exists row, nth_error (Effects out) i = Some row /\
                   Effect row = (i + 1)%nat /\ zero_flows row) /\
    Product_Flow_m3h out = 0 /\
    Water_Evaporated_kgph out = int (41.67 * 1000).
Proof.
  assert (A : (1 <= 3)%Z) by lia.
  assert (B : 0 = 0 \/ 41.67 = 0) by (left; reflexivity).
  assert (C : 0 < 15) by lra.
  split; [exact A|]. split; [exact B|]. split; [exact C|].
  apply (X15_zero_feed_dry_matter 3 41.67 0 1.5 25 15 1 A B C).
Defined.

(** [X16].  The mass balance and the energy figures depend on the effect
    count, the feed flow and the two dry-matter percentages only: two calls
    that differ in feed TSS, feed temperature and steam pressure return the
    same stage flows, the same error message, the same evaporated water,
    steam demand and loads, and rows with the same four flow fields. *)
Theorem X16_flows_independent_of_steam_and_tss
    (N : Z) (ffm fdm pdm tss ft sp tss' ft' sp' : R) :
  (0 <= N)%Z ->
  exists l l' out out',
    evaporator_locals N ffm fdm tss ft pdm sp = Ok l /\
    evaporator_locals N ffm fdm tss' ft' pdm sp' = Ok l' /\
    evaporator_calc N ffm fdm tss ft pdm sp = Ok out /\
    evaporator_calc N ffm fdm tss' ft' pdm sp' = Ok out' /\
    mb l = mb l' /\
    Error out = Error out' /\
    Product_Flow_m3h out = Product_Flow_m3h out' /\
    Water_Evaporated_kgph out = Water_Evaporated_kgph out' /\
    Steam_Needed_kgph out = Steam_Needed_kgph out' /\
    Steam_Power_kW out = Steam_Power_kW out' /\
    Total_Thermal_Load_kW out = Total_Thermal_Load_kW out' /\
    Final_Stage_Condenser_Load_kW out = Final_Stage_Condenser_Load_kW out' /\
    forall i row row',
      nth_error (Effects out) i = Some row ->
      nth_error (Effects out') i = Some row' ->
      Effect row = Effect row' /\
      Vapour_Flow_kgph row = Vapour_Flow_kgph row' /\
      Vapour_Flow_m3h row = Vapour_Flow_m3h row' /\
      Concentrate_Flow_kgph row = Concentrate_Flow_kgph row' /\
      Concentrate_Flow_m3h row = Concentrate_Flow_m3h row'.
Proof.
  intros HN. set (n := Z.to_nat N). replace N with (Z.of_nat n) by lia.
  destruct (evaporator_calc_report n ffm fdm tss ft pdm sp)
    as (l & out & Hl & Hout & Hrun & Hrep).
  destruct (evaporator_calc_report n ffm fdm tss' ft' pdm sp')
    as (l' & out' & Hl' & Hout' & Hrun' & Hrep').
  assert (Eff : feed_flow_kgph l = feed_flow_kgph l')
    by (rewrite (run_ff _ _ _ _ _ _ _ _ Hrun),
                (run_ff _ _ _ _ _ _ _ _ Hrun'); reflexivity).
  assert (Efd : feed_dm_kgph l = feed_dm_kgph l')
    by (rewrite (run_fd _ _ _ _ _ _ _ _ Hrun),
                (run_fd _ _ _ _ _ _ _ _ Hrun'); reflexivity).
  assert (Etr : dm_concs l = dm_concs l').
  { pose proof (run_traj _ _ _ _ _ _ _ _ Hrun) as T1.
    pose proof (run_traj _ _ _ _ _ _ _ _ Hrun') as T2. congruence. }
  assert (Emb : mb l = mb l').
  { pose proof (run_mb _ _ _ _ _ _ _ _ Hrun) as M1.
    pose proof (run_mb _ _ _ _ _ _ _ _ Hrun') as M2.
    rewrite Eff, Efd, Etr in M1. congruence. }
  assert (Ep : prod_flow_kgph l = prod_flow_kgph l')
    by (rewrite (run_prod _ _ _ _ _ _ _ _ Hrun),
                (run_prod _ _ _ _ _ _ _ _ Hrun'), Efd; reflexivity).
  assert (Eev : evap_kgph l = evap_kgph l')
    by (rewrite (run_evap _ _ _ _ _ _ _ _ Hrun),
                (run_evap _ _ _ _ _ _ _ _ Hrun'), Eff, Ep; reflexivity).
  assert (Eec : steam_econ l = steam_econ l')
    by (rewrite (rr_econ _ _ _ _ _ _ _ _ Hrep),
                (rr_econ _ _ _ _ _ _ _ _ Hrep'); reflexivity).
  assert (Esn : steam_needed_kgph l = steam_needed_kgph l')
    by (rewrite (rr_steam _ _ _ _ _ _ _ _ Hrep),
                (rr_steam _ _ _ _ _ _ _ _ Hrep'), Eev, Eec; reflexivity).
  assert (Esp : steam_power_kW l = steam_power_kW l')
    by (rewrite (rr_power _ _ _ _ _ _ _ _ Hrep),
                (rr_power _ _ _ _ _ _ _ _ Hrep'), Esn; reflexivity).
  assert (Eth : total_thermal_kW l = total_thermal_kW l')
    by (rewrite (rr_thermal _ _ _ _ _ _ _ _ Hrep),
                (rr_thermal _ _ _ _ _ _ _ _ Hrep'), Eev; reflexivity).
  assert (Eco : condenser_kW l = condenser_kW l')
    by (rewrite (rr_cond _ _ _ _ _ _ _ _ Hrep),
                (rr_cond _ _ _ _ _ _ _ _ Hrep'), Eev; reflexivity).
  assert (Epm : prod_flow_m3h l = prod_flow_m3h l')
    by (rewrite (rr_prod_m3h _ _ _ _ _ _ _ _ Hrep),
                (rr_prod_m3h _ _ _ _ _ _ _ _ Hrep'), Ep; reflexivity).
  exists l, l', out, out'.
  split; [exact Hl|]. split; [exact Hl'|].
  split; [exact Hout|]. split; [exact Hout'|]. split; [exact Emb|].
  split; [|split; [|split; [|split; [|split; [|split; [|split]]]]]].
  8:{ intros i row row' Hr Hr'.
      assert (Hi : (i < n)%nat).
      { rewrite <- (run_len _ _ _ _ _ _ _ _ Hrun),
                <- (run_effects _ _ _ _ _ _ _ _ Hrun).
        apply nth_error_Some. congruence. }
      destruct (rr_rows _ _ _ _ _ _ _ _ Hrep i Hi)
        as (p & t & b & lm & v & c & _ & _ & _ & _ & Hv & Hc & Hrow).
      destruct (rr_rows _ _ _ _ _ _ _ _ Hrep' i Hi)
        as (p' & t' & b' & lm' & v' & c' & _ & _ & _ & _ & Hv' & Hc' & Hrow').
      rewrite Emb in Hv, Hc.
      assert (v' = v) by congruence. assert (c' = c) by congruence.
      subst v' c'.
      rewrite Hr in Hrow. injection Hrow as ->.
      rewrite Hr' in Hrow'. injection Hrow' as ->.
      repeat split. }
  all: rewrite (rr_out _ _ _ _ _ _ _ _ Hrep), (rr_out _ _ _ _ _ _ _ _ Hrep').
  all: cbn [Error Product_Flow_m3h Water_Evaporated_kgph Steam_Needed_kgph
            Steam_Power_kW Total_Thermal_Load_kW
            Final_Stage_Condenser_Load_kW].
  all: rewrite ?Emb; congruence.
Qed.

Lemma X16_witness :
  (0 <= 3)%Z /\
  exists l l' out out',
    evaporator_locals 3 41.67 2.38 1.5 25 15 1 = Ok l /\
    evaporator_locals 3 41.67 2.38 0 80 15 5 = Ok l' /\
    evaporator_calc 3 41.67 2.38 1.5 25 15 1 = Ok out /\
    evaporator_calc 3 41.67 2.38 0 80 15 5 = Ok out' /\
    mb l = mb l' /\
    Error out = Error out' /\
    Water_Evaporated_kgph out = Water_Evaporated_kgph out'.
Proof.
  split; [lia|].
  destruct (X16_flows_independent_of_steam_and_tss
              3 41.67 2.38 15 1.5 25 1 0 80 5 ltac:(lia))
    as (l & l' & out & out' & H1 & H2 & H3 & H4 & H5 & H6 & _ & H7 & _).
  exists l, l', out, out'. repeat split; assumption.
Defined.

(** [X17].  What the button handler shows, for every effect count
    [N >= 0]: when some stage of the mass balance fails, one error box with
    the (non-empty) message of the report and nothing else; when no stage
    fails, the report view and no error box. *)
Theorem X17_handler_shows_error_or_report
    (N : Z) (ffm fdm tss ft pdm sp : R) :
  (0 <= N)%Z ->
  exists out tr,
    evaporator_calc N ffm fdm tss ft pdm sp = Ok out /\
    linspace fdm pdm (N + 1) = Ok tr /\
    ((exists j c, (j < Z.to_nat N)%nat /\ nth_error tr (j + 1) = Some c /\
                  stage_fails (fdm / 100 * (ffm * 1000)) c) ->
     Error out <> ""%string /\
     on_calculate N ffm fdm tss ft pdm sp = [st_error [Lit (Error out)]]) /\
    ((forall j c, (j < Z.to_nat N)%nat -> nth_error tr (j + 1) = Some c ->
                  ~ stage_fails (fdm / 100 * (ffm * 1000)) c) ->
     Error out = ""%string /\
     on_calculate N ffm fdm tss ft pdm sp = report_view out).
Proof.
  intros HN. set (n := Z.to_nat N). replace N with (Z.of_nat n) by lia.
  destruct (evaporator_calc_run n ffm fdm tss ft pdm sp)
    as (l & out & _ & Hout & Hrun).
  assert (E : fdm / 100 * (ffm * 1000) = feed_dm_kgph l)
    by (now rewrite (run_fd _ _ _ _ _ _ _ _ Hrun)).
  rewrite E.
  exists out, (dm_concs l). split; [exact Hout|].
  split; [apply (run_traj _ _ _ _ _ _ _ _ Hrun)|].
  unfold on_calculate. rewrite Hout. split.
  - intros (j & c & Hj & Hc & Hf).
    pose proof (run_error_nonempty n _ _ _ _ _ l out j c Hrun Hj Hc Hf) as Hne.
    split; [exact Hne|].
    apply truthy_nonempty in Hne. now rewrite Hne.
  - intros Hno.
    pose proof (run_error_none _ _ _ _ _ _ _ _ Hrun Hno) as He.
    split; [exact He|]. now rewrite He.
Qed.

Lemma X17_witness :
  (0 <= 3)%Z /\
  exists out,
    evaporator_calc 3 41.67 2.38 1.5 25 0 1 = Ok out /\
    Error out <> ""%string /\
    on_calculate 3 41.67 2.38 1.5 25 0 1 = [st_error [Lit (Error out)]].
Proof.
  split; [lia|].
  destruct (X17_handler_shows_error_or_report 3 41.67 2.38 1.5 25 0 1
              ltac:(lia))
    as (out & tr & Hout & Htr & Hfail & _).
  exists out. split; [exact Hout|]. apply Hfail.
  destruct (linspace_ok 2.38 0 3) as (tr' & Htr' & _ & _ & Hn & _).
  change (Z.of_nat 3 + 1)%Z with (3 + 1)%Z in Htr'.
  rewrite Htr in Htr'. injection Htr' as <-.
  exists 2%nat, 0. split; [simpl; lia|]. split; [apply Hn; lia|].
  left. lra.
Defined.

(** [X18].  An effect count below -1 makes the calculation raise
    [ValueError]; the handler catches it and shows one error box,
    "Calculation error: " followed by the exception, and no report. *)
Theorem X18_handler_catches_exception (N : Z) (ffm fdm tss ft pdm sp : R) :
  (N < -1)%Z ->
  evaporator_calc N ffm fdm tss ft pdm sp = Raise ValueError /\
  on_calculate N ffm fdm tss ft pdm sp
  = [st_error [Lit "Calculation error: "; Exc ValueError]].
Proof.
  intros HN.
  pose proof (evaporator_calc_negative_count N ffm fdm tss ft pdm sp HN) as H.
  split; [exact H|]. unfold on_calculate. now rewrite H.
Qed.

Lemma X18_witness :
  (-3 < -1)%Z /\
  evaporator_calc (-3) 41.67 2.38 1.5 25 15 1 = Raise ValueError /\
  on_calculate (-3) 41.67 2.38 1.5 25 15 1
  = [st_error [Lit "Calculation error: "; Exc ValueError]].
Proof.
  assert (A : (-3 < -1)%Z) by lia.
  split; [exact A|].
  apply (X18_handler_catches_exception (-3) 41.67 2.38 1.5 25 15 1 A).
Defined.

(** [X19].  Within the ranges the widgets allow (2 to 4 effects, feed flow
    1 to 500, feed DM 0.1 to 15, feed TSS 0 to 10, product DM 2 to 50, feed
    temperature 0 to 99, steam 0.5 to 10 bar(g)) the calculation returns a
    report without error and the handler shows the report view, never an
    error box.  The steam is above 109 degrees, the step of the cascade is
    above 9 degrees, every effect boils above 64 degrees and below the steam
    temperature, and the LMTD of every row is the step rounded to one
    decimal (the floor of 0.1 is never applied). *)
Theorem X19_widget_domain (N : Z) (ffm fdm tss ft pdm sp : R) :
  widget_ranges N ffm fdm tss ft pdm sp ->
  exists l out b_last,
    evaporator_locals N ffm fdm tss ft pdm sp = Ok l /\
    evaporator_calc N ffm fdm tss ft pdm sp = Ok out /\
    Error out = ""%string /\
    on_calculate N ffm fdm tss ft pdm sp = report_view out /\
    length (Effects out) = Z.to_nat N /\
    nth_error (bpes l) (Z.to_nat N - 1) = Some b_last /\
    109 < steam_temp_c l /\
    9 < cascade_step (steam_temp_c l) b_last (Z.to_nat N) /\
    forall i, (i < Z.to_nat N)%nat ->
      exists t row,
        nth_error (bp_temp_c l) i = Some (Some t) /\
        64 < t < steam_temp_c l /\
        nth_error (Effects out) i = Some row /\
        LMTD_C row
        = round (cascade_step (steam_temp_c l) b_last (Z.to_nat N)) 1.
Proof.
  intros (HN & Hffm & Hfdm & Htss & Hpdm & Hft & Hsp).
  set (n := Z.to_nat N). replace N with (Z.of_nat n) by lia.
  destruct (evaporator_calc_report n ffm fdm tss ft pdm sp)
    as (l & out & Hl & Hout & Hrun & Hrep).
  destruct (run_last_bpe n _ _ _ _ _ l out Hrun ltac:(lia))
    as (bl & Hbl & Hblb).
  pose proof water_bp_temp_25_bounds as H25.
  assert (Hs : 109 < steam_temp_c l).
  { rewrite (run_steam _ _ _ _ _ _ _ _ Hrun).
    apply Rlt_le_trans with (water_bp_temp 150); [apply water_bp_temp_150|].
    apply water_bp_temp_mono. lra. }
  assert (Hn : 2 <= INR n <= 4).
  { rewrite INR_IZR_INZ. split; apply IZR_le; lia. }
  assert (Hstep : 9 < cascade_step (steam_temp_c l) bl n).
  { unfold cascade_step, Rdiv.
    apply Rlt_le_trans
      with ((steam_temp_c l - (water_bp_temp 25 + bl)) * / 4); [lra|].
    apply Rmult_le_compat_l; [lra|].
    apply Rinv_le_contravar; lra. }
  assert (He : Error out = ""%string)
    by (apply (run_no_error_positive n _ _ _ _ _ l out Hrun); lra).
  exists l, out, bl. split; [exact Hl|]. split; [exact Hout|].
  split; [exact He|].
  split; [unfold on_calculate; rewrite Hout, He; reflexivity|].
  split; [rewrite (run_effects _ _ _ _ _ _ _ _ Hrun);
          apply (run_len _ _ _ _ _ _ _ _ Hrun)|].
  split; [exact Hbl|]. split; [exact Hs|]. split; [exact Hstep|].
  intros i Hi.
  pose proof (run_lmtd_value n _ _ _ _ _ l out bl i Hrun Hrep Hbl Hi) as Hlm.
  rewrite driving_dT_id in Hlm by lra.
  destruct (run_row_lmtd n _ _ _ _ _ l out i _ Hrep Hi Hlm)
    as (row & Hrow & Hl').
  eexists; exists row.
  split; [apply (run_bp_closed_form n _ _ _ _ _ l out bl i Hrun Hbl Hi)|].
  split; [|split; [exact Hrow | exact Hl']].
  fold (cascade_step (steam_temp_c l) bl n).
  assert (Hd : 0 <= INR (n - 1 - i) <= INR n - 1).
  { split; [apply pos_INR|].
    replace (INR n - 1) with (INR (n - 1))
      by (rewrite minus_INR by lia; reflexivity).
    apply le_INR. lia. }
  assert (Hsum : water_bp_temp 25 + bl
                 + INR n * cascade_step (steam_temp_c l) bl n
                 = steam_temp_c l)
    by (unfold cascade_step; field; lra).
  split; nra.
Qed.

Lemma X19_witness :
  widget_ranges 3 41.67 2.38 1.5 25 15 1 /\
  exists out,
    evaporator_calc 3 41.67 2.38 1.5 25 15 1 = Ok out /\
    Error out = ""%string /\
    on_calculate 3 41.67 2.38 1.5 25 15 1 = report_view out /\
    length (Effects out) = Z.to_nat 3.
Proof.
  assert (A : widget_ranges 3 41.67 2.38 1.5 25 15 1)
    by (unfold widget_ranges; repeat split; lra || lia).
  split; [exact A|].
  destruct (X19_widget_domain 3 41.67 2.38 1.5 25 15 1 A)
    as (l & out & bl & _ & Hout & He & Hv & Hlen & _).
  exists out. repeat split; assumption.
Defined.
